(** * QuantSage: event-driven trading pipeline, shallow embedding

    The Python sources embedded here are
      - src/core/events.py               (module [Events])
      - src/core/event_bus.py            (modules [EventBus], [EventHistory])
      - src/portfolio/position.py        (modules [Position],
                                          [PositionReturns])
      - src/risk/risk_manager.py         (module [RiskManager])
      - src/backtesting/execution.py     (modules [ExecutionEngine],
                                          [OrderExecution])
      - src/backtesting/portfolio.py     (modules [PortfolioManager],
                                          [Valuation])
      - src/backtesting/metrics.py       (module [PerformanceCalculator])
      - src/backtesting/engine.py        (module [BacktestEngine]: the
                                          per-bar bookkeeping and the end of
                                          a run, not the pandas loop)
      - src/data/storage.py              (module [Storage], the tables the
                                          components above read and write)

    Numbers.  Python [float] values are modelled as exact rationals [Q]:
    rounding, infinities and NaN are outside the model, and equality of
    computed amounts is [Qeq] ([==]).  The one place where the source relies on
    an infinite float ([float('inf')] for the profit factor) has its own
    constructor.  Float division by zero raises [ZeroDivisionError] in Python
    and is modelled as such ([Py.div]); pandas/numpy division does not raise.
    Statements over [Q] keep, where they can, to the expressions the code
    computes and to comparisons of them, which rounding to nearest
    preserves.  Where a decision turns on the rounding itself, the function
    is modelled once more on IEEE 754 doubles (module [Double]).

    Time.  A [datetime] is the number of microseconds since the epoch. *)

From Stdlib Require Import ZArith QArith Qminmax Qabs Lqa Lia String List Bool.
From Stdlib Require Import Sorted Permutation.
From Stdlib Require PrimFloat SpecFloat FloatOps.
From stdpp Require Import gmap strings.
Import ListNotations.

Open Scope Q_scope.

(* ===================================================================== *)
(** ** Python runtime: comparisons, exceptions, a state-and-error monad  *)
(* ===================================================================== *)

Module Py.

Definition datetime := Z.

Definition ltb (x y : Q) : bool := negb (Qle_bool y x).
Definition leb (x y : Q) : bool := Qle_bool x y.
Definition gtb (x y : Q) : bool := ltb y x.
Definition geb (x y : Q) : bool := leb y x.
Definition eqb (x y : Q) : bool := Qeq_bool x y.

(** [sum(xs)]: left fold starting from [0]. *)
Definition sum (xs : list Q) : Q := fold_left Qplus xs 0.

(** Truthiness of a string. *)
Definition truthy (s : string) : bool := negb (String.eqb s "").

Inductive exn : Type :=
| ZeroDivisionError
| TypeError
| DatabaseError.

Inductive result (A : Type) : Type :=
| Ok (a : A)
| Raise (e : exn).
Arguments Ok {A} a.
Arguments Raise {A} e.

(** [x / y] on Python floats. *)
Definition div (x y : Q) : result Q :=
  if eqb y 0 then Raise ZeroDivisionError else Ok (x / y).

(** Computations over a mutable world [W] that may raise; the mutations
    made before the exception stay, as in Python. *)
Definition M (W A : Type) : Type := W -> W * result A.

Definition ret {W A} (a : A) : M W A := fun w => (w, Ok a).
Definition raise {W A} (e : exn) : M W A := fun w => (w, Raise e).
Definition bind {W A B} (m : M W A) (k : A -> M W B) : M W B :=
  fun w => match m w with
           | (w', Ok a) => k a w'
           | (w', Raise e) => (w', Raise e)
           end.
Definition get {W} : M W W := fun w => (w, Ok w).
Definition modify {W} (f : W -> W) : M W unit := fun w => (f w, Ok tt).
Definition lift {W A} (r : result A) : M W A := fun w => (w, r).
(** [try: body  except Exception as e: handler(e)] *)
Definition try_except {W A} (body : M W A) (handler : exn -> M W A) : M W A :=
  fun w => match body w with
           | (w', Ok a) => (w', Ok a)
           | (w', Raise e) => handler e w'
           end.

End Py.

Declare Scope py_scope.
Delimit Scope py_scope with py.
Notation "'let*' x := m 'in' k" := (Py.bind m (fun x => k))
  (at level 10, x name, m at level 100, k at level 200, only parsing)
  : py_scope.
Notation "'let*' ' p := m 'in' k" :=
  (Py.bind m (fun x => match x with p => k end))
  (at level 10, p pattern, m at level 100, k at level 200, only parsing)
  : py_scope.
Notation "m ;; k" := (Py.bind m (fun _ => k))
  (at level 100, k at level 200, right associativity) : py_scope.

(* ===================================================================== *)
(** ** src/core/events.py                                                 *)
(* ===================================================================== *)

Module Events.

Inductive EventType : Type :=
| MARKET_DATA | SIGNAL | ORDER | FILL | POSITION_UPDATE | RISK_ALERT
| PERFORMANCE_METRIC | SYSTEM.

Definition EventType_eqb (a b : EventType) : bool :=
  match a, b with
  | MARKET_DATA, MARKET_DATA | SIGNAL, SIGNAL | ORDER, ORDER
  | FILL, FILL | POSITION_UPDATE, POSITION_UPDATE
  | RISK_ALERT, RISK_ALERT | PERFORMANCE_METRIC, PERFORMANCE_METRIC
  | SYSTEM, SYSTEM => true
  | _, _ => false
  end.

(** The keys of [SignalEvent.metadata] the pipeline reads. *)
Record SignalMetadata : Type := mkSignalMetadata {
  md_quantity : option Q;
  md_stop_loss : option Q;
  md_take_profit : option Q
}.

Record SignalEvent : Type := mkSignal {
  sg_timestamp : Py.datetime;
  sg_symbol : string;
  sg_asset_type : string;
  sg_strategy_id : string;
  signal_type : string;
  confidence : Q;
  sg_price : Q;
  metadata : SignalMetadata
}.

Record OrderEvent : Type := mkOrder {
  timestamp : Py.datetime;
  order_id : string;
  symbol : string;
  asset_type : string;
  side : string;
  order_type : string;
  quantity : Q;
  price : option Q;
  stop_price : option Q;
  strategy_id : string;
  position_id : option Z
}.

Record FillEvent : Type := mkFill {
  fl_timestamp : Py.datetime;
  trade_id : string;
  fl_order_id : string;
  fl_symbol : string;
  fl_asset_type : string;
  fl_side : string;
  fl_quantity : Q;
  fl_price : Q;
  commission : Q;
  fl_strategy_id : option string      (* metadata.get('strategy_id') *)
}.

Record MarketDataEvent : Type := mkMarketData {
  mk_timestamp : Py.datetime;
  mk_symbol : string;
  mk_asset_type : string;
  mk_open : Q;
  mk_high : Q;
  mk_low : Q;
  mk_close : Q;
  mk_volume : Q;
  data_source : string
}.

Record PositionUpdateEvent : Type := mkPositionUpdate {
  pu_timestamp : Py.datetime;
  pu_position_id : Z;
  pu_symbol : string;
  pu_asset_type : string;
  pu_side : string;
  pu_quantity : Q;
  pu_entry_price : Q;
  current_price : Q;
  pu_pnl_realized : Q;
  pu_pnl_unrealized : Q;
  pu_status : string;
  pu_strategy_id : string
}.

(** The texts of the rejection reasons, one constructor per f-string of the
    source, carrying the numbers the f-string formats. *)
Inductive Description : Type :=
| CircuitBreakerActive
| DailyLossLimitBreached (daily_pnl_pct limit : Q)
| MaxDrawdownBreached (drawdown_pct limit : Q)
| PositionSizeExceeds (position_pct limit : Q)
| StopLossRequired
| StopLossTooTight (stop_loss_pct limit : Q)
| StopLossTooWide (stop_loss_pct limit : Q)
| SymbolExposureExceeds (exposure_pct limit existing new_exposure : Q)
| SymbolRiskCheckFailed (e : Py.exn)
| PortfolioExposureExceeds (exposure_pct limit invested portfolio : Q)
| PortfolioRiskCheckFailed (e : Py.exn)
| ProcessingError (e : Py.exn).

Record AlertMetadata : Type := mkAlertMetadata {
  am_signal_type : string;
  am_signal_price : Q;
  am_signal_confidence : Q;
  am_reason : option Description;
  am_portfolio_value : Q;
  am_circuit_breaker_active : bool
}.

Record RiskAlertEvent : Type := mkRiskAlert {
  ra_timestamp : Py.datetime;
  alert_type : string;
  severity : string;
  description : option Description;
  ra_symbol : string;
  ra_asset_type : string;
  ra_strategy_id : string;
  ra_metadata : AlertMetadata
}.

Inductive Event : Type :=
| EvMarketData (m : MarketDataEvent)
| EvSignal (s : SignalEvent)
| EvOrder (o : OrderEvent)
| EvFill (f : FillEvent)
| EvPositionUpdate (u : PositionUpdateEvent)
| EvRiskAlert (a : RiskAlertEvent).

(** [event.type] *)
Definition type (e : Event) : EventType :=
  match e with
  | EvMarketData _ => MARKET_DATA
  | EvSignal _ => SIGNAL
  | EvOrder _ => ORDER
  | EvFill _ => FILL
  | EvPositionUpdate _ => POSITION_UPDATE
  | EvRiskAlert _ => RISK_ALERT
  end.

End Events.

(* ===================================================================== *)
(** ** src/data/storage.py: the positions and risk_events tables          *)
(* ===================================================================== *)

Module Storage.

Record RowMetadata : Type := mkRowMetadata {
  entry_commission : option Q
}.

Record PositionRow : Type := mkRow {
  id : Z;
  symbol : string;
  asset_type : string;
  side : string;
  quantity : Q;
  entry_price : Q;
  entry_time : Py.datetime;
  strategy_id : string;
  status : string;
  exit_price : option Q;
  exit_time : option Py.datetime;
  pnl_realized : option Q;
  metadata : option RowMetadata      (* the JSON text column *)
}.

Record RiskEventRow : Type := mkRiskEventRow {
  re_event_type : string;
  re_severity : string;
  re_description : option Events.Description;
  re_symbol : string;
  re_strategy_id : string
}.

(** The database: its two tables in rowid order, and whether the
    connection works ([online = false]: every statement raises). *)
Record DatabaseManager : Type := mkDb {
  online : bool;
  positions : list PositionRow;
  risk_events : list RiskEventRow
}.

Definition set_positions (ps : list PositionRow) (db : DatabaseManager) :=
  {| online := online db; positions := ps; risk_events := risk_events db |}.

Definition is_open (r : PositionRow) : bool := String.eqb (status r) "OPEN".

(** [query(sql, params)] for
    [SELECT * FROM positions WHERE id = ? AND status = 'OPEN'] *)
Definition query_open_by_id (db : DatabaseManager) (i : Z)
    : Py.result (list PositionRow) :=
  if online db
  then Py.Ok (filter (fun r => Z.eqb (id r) i && is_open r) (positions db))
  else Py.Raise Py.DatabaseError.

(** [query(sql, params)] for [SELECT * FROM positions WHERE id = ?] *)
Definition query_by_id (db : DatabaseManager) (i : Z)
    : Py.result (list PositionRow) :=
  if online db
  then Py.Ok (filter (fun r => Z.eqb (id r) i) (positions db))
  else Py.Raise Py.DatabaseError.

(** Modelled from the spec: [execute_query], which the risk manager calls
    and [DatabaseManager] under src/ does not define ("Storage collaborator:
    CRUD for positions/orders by id/status/symbol"); its result is what the
    SQL text of each call selects.
    [SELECT quantity, entry_price FROM positions WHERE symbol=? AND
     status='OPEN'] *)
Definition execute_query_open_by_symbol (db : DatabaseManager) (s : string)
    : Py.result (list PositionRow) :=
  if online db
  then Py.Ok (filter (fun r => String.eqb (symbol r) s && is_open r)
                     (positions db))
  else Py.Raise Py.DatabaseError.

(** Modelled from the spec: [execute_query] (see above) for
    [SELECT symbol, quantity, entry_price FROM positions WHERE
     status='OPEN'] *)
Definition execute_query_open (db : DatabaseManager)
    : Py.result (list PositionRow) :=
  if online db
  then Py.Ok (filter is_open (positions db))
  else Py.Raise Py.DatabaseError.

(** Modelled from the spec: [execute_query] (see above) for
    [SELECT entry_price FROM positions WHERE symbol=? AND status='OPEN'
     LIMIT 1] *)
Definition execute_query_open_by_symbol_limit1 (db : DatabaseManager)
    (s : string) : Py.result (list PositionRow) :=
  match execute_query_open_by_symbol db s with
  | Py.Ok rows => Py.Ok (firstn 1 rows)
  | Py.Raise e => Py.Raise e
  end.

(** [cursor.lastrowid] after an insert into [positions]. *)
Definition next_id (db : DatabaseManager) : Z :=
  1 + fold_right Z.max 0%Z (map id (positions db)).

(** Modelled from the spec: the [positions] table of schema.sql, which is
    not under src/: a new row has status OPEN and no exit data ("Position:
    ... status in {OPEN,CLOSED} ... Created on first opening fill").
    [create_position(...)]: the new database and the returned id ([-1]
    when the statement fails). *)
Definition create_position (db : DatabaseManager)
    (symbol asset_type side : string) (quantity entry_price : Q)
    (entry_time : Py.datetime) (strategy_id : string)
    (metadata : option RowMetadata) : DatabaseManager * Z :=
  if online db then
    let i := next_id db in
    (set_positions
       (positions db ++
          [ {| id := i; symbol := symbol; asset_type := asset_type;
               side := side; quantity := quantity;
               entry_price := entry_price; entry_time := entry_time;
               strategy_id := strategy_id; status := "OPEN";
               exit_price := None; exit_time := None;
               pnl_realized := None; metadata := metadata |} ])
       db, i)
  else (db, (-1)%Z).

(** [update_position(position_id, **kwargs)]: [upd] sets the columns named
    by the keyword arguments. *)
Definition update_position (db : DatabaseManager) (position_id : Z)
    (upd : PositionRow -> PositionRow) : DatabaseManager * bool :=
  if online db then
    (set_positions
       (map (fun r => if Z.eqb (id r) position_id then upd r else r)
            (positions db)) db,
     existsb (fun r => Z.eqb (id r) position_id) (positions db))
  else (db, false).

(** [log_risk_event(...)] *)
Definition log_risk_event (db : DatabaseManager) (row : RiskEventRow)
    : DatabaseManager * bool :=
  if online db then
    ({| online := online db; positions := positions db;
        risk_events := risk_events db ++ [row] |}, true)
  else (db, false).

End Storage.

(* ===================================================================== *)
(** ** src/core/event_bus.py                                              *)
(* ===================================================================== *)

Module EventBus.
Import Events.

Section Bus.

(** The state owned by the subscribed components (risk manager,
    portfolio, database, ...).  The handlers of this repository reach the
    bus through [publish] only (none subscribes, unsubscribes or drains from
    inside a handler), so running one yields the new component state, the
    events it published (in order) and whether it ended by raising; what it
    published before raising stays published.  [subscribe] and
    [_dispatch_event] read [handler.__name__], so a handler has one. *)
Variable W : Type.

Record Handler : Type := mkHandler {
  __name__ : string;
  call : Event -> W -> W * list Event * bool
}.

Record EventBus : Type := mkBus {
  mode : string;
  subscribers : EventType -> list Handler;    (* defaultdict(list) *)
  event_queue : list Event;                   (* queue.Queue, FIFO *)
  event_history : option (list Event);
  running : bool
}.

(** What happened, in order; the log is not in the source: it records
    the calls the source makes so that statements can speak about them. *)
Inductive Action : Type :=
| Published (e : Event)
| Dispatched (e : Event)
| Called (handler : string) (e : Event) (raised : bool).

Record System : Type := mkSystem {
  bus : EventBus;
  world : W;
  log : list Action
}.

(** [EventBus.__init__(mode)] *)
Definition __init__ (mode : string) : EventBus :=
  {| mode := mode;
     subscribers := fun _ => [];
     event_queue := [];
     event_history := if String.eqb mode "backtest" then Some [] else None;
     running := false |}.

(** [subscribe(event_type, handler)] *)
Definition subscribe (self : EventBus) (event_type : EventType)
    (handler : Handler) : EventBus :=
  {| mode := mode self;
     subscribers := fun t =>
       if EventType_eqb t event_type
       then subscribers self t ++ [handler]
       else subscribers self t;
     event_queue := event_queue self;
     event_history := event_history self;
     running := running self |}.

(** [publish(event)] on the bus object. *)
Definition publish_bus (self : EventBus) (event : Event) : EventBus :=
  {| mode := mode self;
     subscribers := subscribers self;
     event_queue := event_queue self ++ [event];
     event_history :=
       match event_history self with
       | Some h => Some (h ++ [event])
       | None => None
       end;
     running := running self |}.

Definition publish (event : Event) (s : System) : System :=
  {| bus := publish_bus (bus s) event;
     world := world s;
     log := log s ++ [Published event] |}.

(** One iteration of the loop of [_dispatch_event]:
    [try: handler(event)  except Exception: logger.error(...)] *)
Definition call_handler (event : Event) (s : System) (handler : Handler)
    : System :=
  let '(w', published, raised) := call handler event (world s) in
  fold_left (fun s' ev => publish ev s') published
    {| bus := bus s; world := w';
       log := log s ++ [Called (__name__ handler) event raised] |}.

(** [_dispatch_event(event)] *)
Definition _dispatch_event (event : Event) (s : System) : System :=
  fold_left (call_handler event) (subscribers (bus s) (type event)) s.

Definition get_nowait (s : System) (event : Event) (rest : list Event)
    : System :=
  {| bus := {| mode := mode (bus s);
               subscribers := subscribers (bus s);
               event_queue := rest;
               event_history := event_history (bus s);
               running := running (bus s) |};
     world := world s;
     log := log s ++ [Dispatched event] |}.

(** [process_events()]: the [while not self.event_queue.empty()] loop,
    at most [fuel] iterations; [None] when the queue is still not empty
    after them. *)
Fixpoint process_events (fuel : nat) (s : System) : option System :=
  match event_queue (bus s) with
  | [] => Some s
  | event :: rest =>
      match fuel with
      | O => None
      | S fuel' =>
          process_events fuel' (_dispatch_event event (get_nowait s event rest))
      end
  end.

(** Projections of a log. *)
Definition published_in (l : list Action) : list Event :=
  flat_map (fun a => match a with Published e => [e] | _ => [] end) l.
Definition dispatched_in (l : list Action) : list Event :=
  flat_map (fun a => match a with Dispatched e => [e] | _ => [] end) l.
Definition calls_in (l : list Action) : list (string * Event) :=
  flat_map (fun a => match a with Called h e _ => [(h, e)] | _ => [] end) l.

(** The calls that dispatching [events] owes: every handler subscribed
    to the type of each event, in subscription order. *)
Definition calls_owed (b : EventBus) (events : list Event)
    : list (string * Event) :=
  flat_map (fun e => map (fun h => (__name__ h, e)) (subscribers b (type e)))
           events.

Definition extend_history (h : option (list Event)) (events : list Event)
    : option (list Event) :=
  match h with Some l => Some (l ++ events) | None => None end.

(** What a system has become after part of a drain: [events] were
    published, [handled] were taken from the queue and [calls] were made,
    and nothing else happened to the bus. *)
Record Progress (s s' : System) (events handled : list Event)
    (calls : list (string * Event)) : Prop := mkProgress {
  pr_subscribers : subscribers (bus s') = subscribers (bus s);
  pr_mode : mode (bus s') = mode (bus s);
  pr_history :
    event_history (bus s') = extend_history (event_history (bus s)) events;
  pr_published :
    published_in (log s') = published_in (log s) ++ events;
  pr_dispatched :
    dispatched_in (log s') = dispatched_in (log s) ++ handled;
  pr_calls : calls_in (log s') = calls_in (log s) ++ calls
}.

(** No subscriber publishes. *)
Definition silent (b : EventBus) : Prop :=
  forall t h e w, In h (subscribers b t) -> snd (fst (call h e w)) = [].

(** Every subscriber publishes only events of a lower rank than the event it
    handles, as in the pipeline Signal -> Order -> Fill -> PositionUpdate. *)
Definition descending (rank : Event -> nat) (b : EventBus) : Prop :=
  forall h e w e',
    In h (subscribers b (type e)) ->
    In e' (snd (fst (call h e w))) ->
    (rank e' < rank e)%nat.

End Bus.

Arguments mkHandler {W}.
Arguments __name__ {W}.
Arguments call {W}.
Arguments mode {W}.
Arguments subscribers {W}.
Arguments event_queue {W}.
Arguments event_history {W}.
Arguments running {W}.
Arguments mkSystem {W}.
Arguments bus {W}.
Arguments world {W}.
Arguments log {W}.
Arguments __init__ {W}.
Arguments subscribe {W}.
Arguments publish_bus {W}.
Arguments publish {W}.
Arguments call_handler {W}.
Arguments _dispatch_event {W}.
Arguments get_nowait {W}.
Arguments process_events {W}.
Arguments calls_owed {W}.
Arguments Progress {W}.
Arguments pr_subscribers {W}.
Arguments silent {W}.
Arguments descending {W}.

End EventBus.

(* ===================================================================== *)
(** ** src/portfolio/position.py                                          *)
(* ===================================================================== *)

Module Position.

Record Position : Type := mkPosition {
  position_id : Z;
  symbol : string;
  asset_type : string;
  side : string;                 (* 'LONG' or 'SHORT' *)
  entry_price : Q;
  quantity : Q;
  entry_time : Py.datetime;
  strategy_id : string;
  stop_loss : option Q;
  take_profit : option Q;
  entry_commission : Q;
  exit_commission : Q;
  status : string;
  exit_price : option Q;
  exit_time : option Py.datetime;
  pnl_realized : Q;
  pnl_unrealized : Q
}.

(** [Position.__init__] *)
Definition __init__ (position_id : Z) (symbol asset_type side : string)
    (entry_price quantity : Q) (entry_time : Py.datetime)
    (strategy_id : string) (stop_loss take_profit : option Q)
    (commission : Q) : Position :=
  {| position_id := position_id; symbol := symbol;
     asset_type := asset_type; side := side;
     entry_price := entry_price; quantity := quantity;
     entry_time := entry_time; strategy_id := strategy_id;
     stop_loss := stop_loss; take_profit := take_profit;
     entry_commission := commission; exit_commission := 0;
     status := "OPEN"; exit_price := None; exit_time := None;
     pnl_realized := 0; pnl_unrealized := 0 |}.

Definition set_pnl_unrealized (v : Q) (p : Position) : Position :=
  {| position_id := position_id p; symbol := symbol p;
     asset_type := asset_type p; side := side p;
     entry_price := entry_price p; quantity := quantity p;
     entry_time := entry_time p; strategy_id := strategy_id p;
     stop_loss := stop_loss p; take_profit := take_profit p;
     entry_commission := entry_commission p;
     exit_commission := exit_commission p;
     status := status p; exit_price := exit_price p;
     exit_time := exit_time p;
     pnl_realized := pnl_realized p; pnl_unrealized := v |}.

(** [update_market_price(self, current_price)]: the new object state and
    the returned value. *)
Definition update_market_price (self : Position) (current_price : Q)
    : Position * Q :=
  if negb (String.eqb (status self) "OPEN") then (self, 0)
  else
    let price_diff :=
      if String.eqb (side self) "LONG"
      then current_price - entry_price self
      else entry_price self - current_price in
    let u := (price_diff * quantity self) - entry_commission self in
    (set_pnl_unrealized u self, u).

(** [close(self, exit_price, exit_time, commission)] *)
Definition close (self : Position) (exit_price_ : Q)
    (exit_time_ : Py.datetime) (commission : Q) : Position * Q :=
  if String.eqb (status self) "CLOSED" then (self, pnl_realized self)
  else
    let price_diff :=
      if String.eqb (side self) "LONG"
      then exit_price_ - entry_price self
      else entry_price self - exit_price_ in
    let realized :=
      (price_diff * quantity self) - (entry_commission self + commission) in
    ({| position_id := position_id self; symbol := symbol self;
        asset_type := asset_type self; side := side self;
        entry_price := entry_price self; quantity := quantity self;
        entry_time := entry_time self; strategy_id := strategy_id self;
        stop_loss := stop_loss self; take_profit := take_profit self;
        entry_commission := entry_commission self;
        exit_commission := commission;
        status := "CLOSED"; exit_price := Some exit_price_;
        exit_time := Some exit_time_;
        pnl_realized := realized; pnl_unrealized := 0 |},
     realized).

(** [should_stop_loss(self, current_price)] *)
Definition should_stop_loss (self : Position) (current_price : Q) : bool :=
  match stop_loss self with
  | None => false
  | Some sl =>
      if negb (String.eqb (status self) "OPEN") then false
      else if String.eqb (side self) "LONG"
           then Py.leb current_price sl
           else Py.geb current_price sl
  end.

(** [should_take_profit(self, current_price)] *)
Definition should_take_profit (self : Position) (current_price : Q) : bool :=
  match take_profit self with
  | None => false
  | Some tp =>
      if negb (String.eqb (status self) "OPEN") then false
      else if String.eqb (side self) "LONG"
           then Py.geb current_price tp
           else Py.leb current_price tp
  end.

(** [get_value(self, current_price)] *)
Definition get_value (self : Position) (current_price : Q) : Q :=
  if negb (String.eqb (status self) "OPEN") then 0
  else if String.eqb (side self) "LONG"
       then quantity self * current_price
       else
         let initial_proceeds := quantity self * entry_price self in
         let current_cost := quantity self * current_price in
         initial_proceeds - current_cost.

End Position.

(* ===================================================================== *)
(** ** src/backtesting/execution.py: fill price and slippage              *)
(* ===================================================================== *)

Module ExecutionEngine.

(** A bar dict with its OHLCV keys; [volume] is read with
    [bar.get('volume', 0)], the others with [bar[...]]. *)
Record Bar : Type := mkBar {
  open : Q;
  high : Q;
  low : Q;
  close : Q;
  volume : option Q
}.

Import Events.

(** [config['transaction_costs']['slippage_params']], every level optional. *)
Record SlippageParams : Type := mkSlippageParams {
  base_slippage : option Q;
  volume_impact : option Q
}.
Record TransactionCosts : Type := mkTransactionCosts {
  slippage_params : option SlippageParams
}.
Record Config : Type := mkConfig {
  transaction_costs : option TransactionCosts
}.

Record ExecutionEngine : Type := mkEngine {
  current_bars : gmap string Bar;
  config : Config
}.

Inductive ValidationError : Type :=
| MissingOrderId
| MissingSymbol
| InvalidSide (s : string)
| InvalidQuantity (q : Q)
| NoCurrentBar (s : string).

(** [_validate_order(self, order)] *)
Definition _validate_order (self : ExecutionEngine) (order : OrderEvent)
    : bool * option ValidationError :=
  if negb (Py.truthy (order_id order)) then (false, Some MissingOrderId)
  else if negb (Py.truthy (symbol order)) then (false, Some MissingSymbol)
  else if negb (Py.truthy (side order))
          || negb (String.eqb (side order) "BUY"
                   || String.eqb (side order) "SELL")
       then (false, Some (InvalidSide (side order)))
  else if Py.leb (quantity order) 0
       then (false, Some (InvalidQuantity (quantity order)))
  else match current_bars self !! symbol order with
       | None => (false, Some (NoCurrentBar (symbol order)))
       | Some _ => (true, None)
       end.

Definition slippage_params_of (c : Config) : SlippageParams :=
  match transaction_costs c with
  | None => mkSlippageParams None None
  | Some tc => match slippage_params tc with
               | None => mkSlippageParams None None
               | Some sp => sp
               end
  end.

Definition base_slippage_pct (c : Config) : Q :=
  match base_slippage (slippage_params_of c) with
  | Some v => v | None => 0.001 end.

Definition volume_impact_factor (c : Config) : Q :=
  match volume_impact (slippage_params_of c) with
  | Some v => v | None => 0.00001 end.

(** The three additive components of [_calculate_slippage]. *)
Definition base_slippage_of (c : Config) (base_price : Q) : Q :=
  base_price * base_slippage_pct c.

Definition volume_slippage_of (c : Config) (order : OrderEvent)
    (base_price : Q) (bar : Bar) : Py.result Q :=
  let order_value := quantity order * base_price in
  let bar_volume := match volume bar with Some v => v | None => 0 end in
  if Py.gtb bar_volume 0 then
    let bar_volume_value := bar_volume * close bar in
    match Py.div order_value (Qmax bar_volume_value order_value) with
    | Py.Ok volume_pct =>
        Py.Ok (base_price * (volume_pct * volume_impact_factor c))
    | Py.Raise e => Py.Raise e
    end
  else Py.Ok 0.

Definition volatility_slippage_of (base_price : Q) (bar : Bar) : Q :=
  if Py.gtb (close bar) 0 then
    let bar_range := (high bar - low bar) / close bar in
    base_price * (bar_range * 0.5)
  else 0.

(** [_calculate_slippage(self, order, base_price, bar)] *)
Definition _calculate_slippage (self : ExecutionEngine) (order : OrderEvent)
    (base_price : Q) (bar : Bar) : Py.result Q :=
  let base_slippage := base_slippage_of (config self) base_price in
  match volume_slippage_of (config self) order base_price bar with
  | Py.Raise e => Py.Raise e
  | Py.Ok volume_slippage =>
      let volatility_slippage := volatility_slippage_of base_price bar in
      Py.Ok (Qmin (base_slippage + volume_slippage + volatility_slippage)
                  (base_price * 0.02))
  end.

Definition base_price_of (order : OrderEvent) (bar : Bar) : Q :=
  if String.eqb (side order) "BUY" then high bar else low bar.

(** [_calculate_fill_price(self, order, bar)] *)
Definition _calculate_fill_price (self : ExecutionEngine)
    (order : OrderEvent) (bar : Bar) : Py.result Q :=
  let base_price := base_price_of order bar in
  match _calculate_slippage self order base_price bar with
  | Py.Raise e => Py.Raise e
  | Py.Ok slippage_amount =>
      if String.eqb (side order) "BUY"
      then Py.Ok (base_price + slippage_amount)
      else Py.Ok (base_price - slippage_amount)
  end.

End ExecutionEngine.

(* ===================================================================== *)
(** ** src/risk/risk_manager.py                                           *)
(* ===================================================================== *)

Module RiskManager.
Import Events.

(** The keys of the risk configuration dict that [__init__] reads. *)
Record RiskConfig : Type := mkRiskConfig {
  cfg_max_position_pct : option Q;
  cfg_max_symbol_exposure : option Q;
  cfg_max_portfolio_exposure : option Q;
  cfg_max_correlation : option Q;
  cfg_daily_loss_limit : option Q;
  cfg_max_drawdown : option Q
}.

Record RiskManager : Type := mkRiskManager {
  max_position_pct : Q;
  min_stop_loss_pct : Q;
  max_stop_loss_pct : Q;
  max_symbol_exposure : Q;
  max_portfolio_exposure : Q;
  max_correlation : Q;
  daily_loss_limit : Q;
  max_drawdown : Q;
  initial_capital : Q;
  portfolio_value : Q;
  daily_start_equity : Q;
  peak_equity : Q;
  circuit_breaker_active : bool;
  open_positions_cache : list Storage.PositionRow;
  last_cache_refresh : Py.datetime
}.

(** What one call draws from outside: the clock and a fresh uuid. *)
Record Env : Type := mkEnv {
  now : Py.datetime;
  uuid4 : string
}.

Definition get_default (o : option Q) (d : Q) : Q :=
  match o with Some v => v | None => d end.

(** [RiskManager.__init__(config, event_bus, db, initial_capital)] *)
Definition __init__ (env : Env) (config : RiskConfig) (initial_capital : Q)
    : RiskManager :=
  {| max_position_pct := get_default (cfg_max_position_pct config) 0.10;
     min_stop_loss_pct := 0.005;
     max_stop_loss_pct := 0.10;
     max_symbol_exposure := get_default (cfg_max_symbol_exposure config) 0.15;
     max_portfolio_exposure :=
       get_default (cfg_max_portfolio_exposure config) 0.80;
     max_correlation := get_default (cfg_max_correlation config) 0.70;
     daily_loss_limit := get_default (cfg_daily_loss_limit config) 0.05;
     max_drawdown := get_default (cfg_max_drawdown config) 0.20;
     initial_capital := initial_capital;
     portfolio_value := initial_capital;
     daily_start_equity := initial_capital;
     peak_equity := initial_capital;
     circuit_breaker_active := false;
     open_positions_cache := [];
     last_cache_refresh := now env |}.

(** Assignments to single attributes. *)
Definition with_state (self : RiskManager) (pv dse peak : Q) (cb : bool)
    (cache : list Storage.PositionRow) (refresh : Py.datetime) : RiskManager :=
  {| max_position_pct := max_position_pct self;
     min_stop_loss_pct := min_stop_loss_pct self;
     max_stop_loss_pct := max_stop_loss_pct self;
     max_symbol_exposure := max_symbol_exposure self;
     max_portfolio_exposure := max_portfolio_exposure self;
     max_correlation := max_correlation self;
     daily_loss_limit := daily_loss_limit self;
     max_drawdown := max_drawdown self;
     initial_capital := initial_capital self;
     portfolio_value := pv;
     daily_start_equity := dse;
     peak_equity := peak;
     circuit_breaker_active := cb;
     open_positions_cache := cache;
     last_cache_refresh := refresh |}.

Definition set_portfolio_value (v : Q) (self : RiskManager) :=
  with_state self v (daily_start_equity self) (peak_equity self)
    (circuit_breaker_active self) (open_positions_cache self)
    (last_cache_refresh self).
Definition set_daily_start_equity (v : Q) (self : RiskManager) :=
  with_state self (portfolio_value self) v (peak_equity self)
    (circuit_breaker_active self) (open_positions_cache self)
    (last_cache_refresh self).
Definition set_peak_equity (v : Q) (self : RiskManager) :=
  with_state self (portfolio_value self) (daily_start_equity self) v
    (circuit_breaker_active self) (open_positions_cache self)
    (last_cache_refresh self).
Definition set_circuit_breaker_active (b : bool) (self : RiskManager) :=
  with_state self (portfolio_value self) (daily_start_equity self)
    (peak_equity self) b (open_positions_cache self)
    (last_cache_refresh self).
Definition set_cache (c : list Storage.PositionRow) (t : Py.datetime)
    (self : RiskManager) :=
  with_state self (portfolio_value self) (daily_start_equity self)
    (peak_equity self) (circuit_breaker_active self) c t.

(** [_check_circuit_breakers(self)] *)
Definition _check_circuit_breakers (self : RiskManager)
    : RiskManager * (bool * option Description) :=
  if circuit_breaker_active self then (self, (false, Some CircuitBreakerActive))
  else
    let current_value := portfolio_value self in
    let daily_breach :=
      if Py.gtb (daily_start_equity self) 0 then
        let daily_pnl_pct :=
          (current_value - daily_start_equity self) / daily_start_equity self in
        if Py.ltb daily_pnl_pct (- daily_loss_limit self)
        then Some daily_pnl_pct else None
      else None in
    match daily_breach with
    | Some daily_pnl_pct =>
        (set_circuit_breaker_active true self,
         (false, Some (DailyLossLimitBreached daily_pnl_pct
                         (- daily_loss_limit self))))
    | None =>
        let drawdown_breach :=
          if Py.gtb (peak_equity self) 0 then
            let drawdown_pct :=
              (peak_equity self - current_value) / peak_equity self in
            if Py.gtb drawdown_pct (max_drawdown self)
            then Some drawdown_pct else None
          else None in
        match drawdown_breach with
        | Some drawdown_pct =>
            (set_circuit_breaker_active true self,
             (false, Some (MaxDrawdownBreached drawdown_pct
                             (max_drawdown self))))
        | None =>
            ((if Py.gtb current_value (peak_equity self)
              then set_peak_equity current_value self else self),
             (true, None))
        end
    end.

(** [_check_position_risk(self, signal)] *)
Definition _check_position_risk (self : RiskManager) (signal : SignalEvent)
    : Py.result (bool * option Description) :=
  let position_pct := get_default (md_quantity (metadata signal)) 0 in
  if Py.gtb position_pct (max_position_pct self) then
    Py.Ok (false, Some (PositionSizeExceeds position_pct (max_position_pct self)))
  else if String.eqb (signal_type signal) "BUY"
          || String.eqb (signal_type signal) "SELL" then
    match md_stop_loss (metadata signal) with
    | None => Py.Ok (false, Some StopLossRequired)
    | Some stop_loss =>
        match Py.div (Qabs (sg_price signal - stop_loss)) (sg_price signal) with
        | Py.Raise e => Py.Raise e
        | Py.Ok stop_loss_pct =>
            if Py.ltb stop_loss_pct (min_stop_loss_pct self) then
              Py.Ok (false, Some (StopLossTooTight stop_loss_pct
                                    (min_stop_loss_pct self)))
            else if Py.gtb stop_loss_pct (max_stop_loss_pct self) then
              Py.Ok (false, Some (StopLossTooWide stop_loss_pct
                                    (max_stop_loss_pct self)))
            else Py.Ok (true, None)
        end
    end
  else Py.Ok (true, None).

(** [sum(row['quantity'] * row['entry_price'] for row in result)] *)
Definition existing_exposure_of (result : list Storage.PositionRow) : Q :=
  Py.sum (map (fun row => Storage.quantity row * Storage.entry_price row)
              result).

(** The body of [_check_symbol_risk] once the rows are there. *)
Definition symbol_risk_decision (self : RiskManager)
    (result : list Storage.PositionRow) (new_exposure : Q)
    : bool * option Description :=
  let existing_exposure := existing_exposure_of result in
  let total_exposure := existing_exposure + new_exposure in
  let exposure_pct :=
    if Py.gtb (portfolio_value self) 0
    then total_exposure / portfolio_value self else 0 in
  if Py.gtb exposure_pct (max_symbol_exposure self) then
    (false, Some (SymbolExposureExceeds exposure_pct
                    (max_symbol_exposure self) existing_exposure
                    new_exposure))
  else (true, None).

(** [_check_symbol_risk(self, symbol, new_exposure)] *)
Definition _check_symbol_risk (self : RiskManager)
    (db : Storage.DatabaseManager) (symbol : string) (new_exposure : Q)
    : bool * option Description :=
  match Storage.execute_query_open_by_symbol db symbol with
  | Py.Raise e => (false, Some (SymbolRiskCheckFailed e))
  | Py.Ok result => symbol_risk_decision self result new_exposure
  end.

(** [_get_open_positions(self)] *)
Definition _get_open_positions (env : Env) (db : Storage.DatabaseManager)
    (self : RiskManager) : RiskManager * list Storage.PositionRow :=
  let age := (now env - last_cache_refresh self)%Z in
  if (age <? 60 * 1000000)%Z
     && negb (Nat.eqb (length (open_positions_cache self)) 0)
  then (self, open_positions_cache self)
  else
    match Storage.execute_query_open db with
    | Py.Ok positions => (set_cache positions (now env) self, positions)
    | Py.Raise _ => (self, [])
    end.

(** [_calculate_position_value(self, symbol, quantity)] *)
Definition _calculate_position_value (db : Storage.DatabaseManager)
    (symbol : string) (quantity : Q) : Q :=
  match Storage.execute_query_open_by_symbol_limit1 db symbol with
  | Py.Ok (row :: _) => quantity * Storage.entry_price row
  | Py.Ok [] => 0
  | Py.Raise _ => 0
  end.

Definition total_invested_of (db : Storage.DatabaseManager)
    (positions : list Storage.PositionRow) : Q :=
  Py.sum (map (fun p => _calculate_position_value db (Storage.symbol p)
                          (Storage.quantity p)) positions).

(** [_check_portfolio_risk(self, new_position_value)] *)
Definition _check_portfolio_risk (env : Env) (db : Storage.DatabaseManager)
    (self : RiskManager) (new_position_value : Q)
    : RiskManager * (bool * option Description) :=
  let '(self', positions) := _get_open_positions env db self in
  let total_invested := total_invested_of db positions + new_position_value in
  let exposure_pct :=
    if Py.gtb (portfolio_value self') 0
    then total_invested / portfolio_value self' else 0 in
  if Py.gtb exposure_pct (max_portfolio_exposure self') then
    (self', (false, Some (PortfolioExposureExceeds exposure_pct
                            (max_portfolio_exposure self') total_invested
                            (portfolio_value self'))))
  else (self', (true, None)).

(** [_get_portfolio_value(self)] *)
Definition _get_portfolio_value (env : Env) (db : Storage.DatabaseManager)
    (self : RiskManager) : RiskManager * Q :=
  let '(self', positions) := _get_open_positions env db self in
  let invested_value := total_invested_of db positions in
  let cash := Qmax 0 (initial_capital self' - invested_value) in
  (self', cash + invested_value).

(** [_create_order_event(self, signal)] *)
Definition _create_order_event (env : Env) (self : RiskManager)
    (signal : SignalEvent) : Py.result OrderEvent :=
  let order_id := ("ORD-" ++ uuid4 env)%string in
  let quantity_pct := get_default (md_quantity (metadata signal)) 0 in
  match Py.div (quantity_pct * portfolio_value self) (sg_price signal) with
  | Py.Raise e => Py.Raise e
  | Py.Ok quantity =>
      let side :=
        if String.eqb (signal_type signal) "BUY"
           || String.eqb (signal_type signal) "SELL"
        then signal_type signal else "SELL"%string in
      Py.Ok {| timestamp := now env; order_id := order_id;
               symbol := sg_symbol signal;
               asset_type := sg_asset_type signal;
               side := side; order_type := "MARKET";
               quantity := quantity; price := None; stop_price := None;
               strategy_id := sg_strategy_id signal;
               position_id := None |}
  end.

(** [_create_risk_alert(self, signal, reason, severity)] *)
Definition _create_risk_alert (env : Env) (self : RiskManager)
    (signal : SignalEvent) (reason : option Description) (severity : string)
    : RiskAlertEvent :=
  {| ra_timestamp := now env;
     alert_type := "SIGNAL_REJECTED";
     severity := severity;
     description := reason;
     ra_symbol := sg_symbol signal;
     ra_asset_type := sg_asset_type signal;
     ra_strategy_id := sg_strategy_id signal;
     ra_metadata :=
       {| am_signal_type := signal_type signal;
          am_signal_price := sg_price signal;
          am_signal_confidence := confidence signal;
          am_reason := reason;
          am_portfolio_value := portfolio_value self;
          am_circuit_breaker_active := circuit_breaker_active self |} |}.

(** [_log_risk_event(self, alert)] *)
Definition _log_risk_event (db : Storage.DatabaseManager)
    (alert : RiskAlertEvent) : Storage.DatabaseManager :=
  fst (Storage.log_risk_event db
         {| Storage.re_event_type := alert_type alert;
            Storage.re_severity := severity alert;
            Storage.re_description := description alert;
            Storage.re_symbol := ra_symbol alert;
            Storage.re_strategy_id := ra_strategy_id alert |}).

(** [reset_circuit_breaker(self)] *)
Definition reset_circuit_breaker (self : RiskManager) : RiskManager :=
  if circuit_breaker_active self
  then set_circuit_breaker_active false self
  else self.

(** [reset_daily_tracking(self)] *)
Definition reset_daily_tracking (env : Env) (db : Storage.DatabaseManager)
    (self : RiskManager) : RiskManager :=
  let '(self', v) := _get_portfolio_value env db self in
  set_daily_start_equity v (set_portfolio_value v self').

(** *** [_on_signal]: the world it runs in *)

Record World : Type := mkWorld {
  rm : RiskManager;
  db : Storage.DatabaseManager;
  published : list Event        (* [self.event_bus.publish(...)] calls *)
}.

Local Open Scope py_scope.

Definition self_ : Py.M World RiskManager := fun w => (w, Py.Ok (rm w)).

Definition publish (e : Event) : Py.M World unit :=
  Py.modify (fun w => {| rm := rm w; db := db w;
                         published := published w ++ [e] |}).

Definition log_risk_event (alert : RiskAlertEvent) : Py.M World unit :=
  Py.modify (fun w => {| rm := rm w; db := _log_risk_event (db w) alert;
                         published := published w |}).

Definition check_circuit_breakers
    : Py.M World (bool * option Description) :=
  fun w => let '(self', r) := _check_circuit_breakers (rm w) in
           ({| rm := self'; db := db w; published := published w |}, Py.Ok r).

Definition check_symbol_risk (symbol : string) (new_exposure : Q)
    : Py.M World (bool * option Description) :=
  fun w => (w, Py.Ok (_check_symbol_risk (rm w) (db w) symbol new_exposure)).

Definition check_portfolio_risk (env : Env) (new_position_value : Q)
    : Py.M World (bool * option Description) :=
  fun w => let '(self', r) :=
             _check_portfolio_risk env (db w) (rm w) new_position_value in
           ({| rm := self'; db := db w; published := published w |}, Py.Ok r).

(** Publish the alert for a rejected signal and persist it. *)
Definition reject (env : Env) (signal : SignalEvent)
    (reason : option Description) (severity : string) : Py.M World unit :=
  let* self := self_ in
  let alert := _create_risk_alert env self signal reason severity in
  publish (EvRiskAlert alert) ;;
  log_risk_event alert.

(** The [try] block of [_on_signal]. *)
Definition _on_signal_try (env : Env) (signal : SignalEvent)
    : Py.M World unit :=
  if String.eqb (signal_type signal) "CLOSE" then
    let* self := self_ in
    let* order := Py.lift (_create_order_event env self signal) in
    publish (EvOrder order)
  else
    let* '(trading_allowed, reason) := check_circuit_breakers in
    if negb trading_allowed then reject env signal reason "CRITICAL"
    else
      let* self := self_ in
      let position_pct := get_default (md_quantity (metadata signal)) 0 in
      let position_value := position_pct * portfolio_value self in
      let* '(approved, reason) := Py.lift (_check_position_risk self signal) in
      if negb approved then reject env signal reason "HIGH"
      else
        let* '(approved, reason) :=
          check_symbol_risk (sg_symbol signal) position_value in
        if negb approved then reject env signal reason "MEDIUM"
        else
          let* '(approved, reason) :=
            check_portfolio_risk env position_value in
          if negb approved then reject env signal reason "MEDIUM"
          else
            let* self := self_ in
            let* order := Py.lift (_create_order_event env self signal) in
            publish (EvOrder order).

(** The [except Exception as e] block of [_on_signal]. *)
Definition _on_signal_except (env : Env) (signal : SignalEvent) (e : Py.exn)
    : Py.M World unit :=
  let* self := self_ in
  let alert :=
    _create_risk_alert env self signal (Some (ProcessingError e)) "HIGH" in
  publish (EvRiskAlert alert).

(** [_on_signal(self, signal)] *)
Definition _on_signal (env : Env) (signal : SignalEvent) (w : World) : World :=
  fst (Py.try_except (_on_signal_try env signal)
                     (_on_signal_except env signal) w).


(** How a run of the [try] block of [_on_signal] can end. *)
Inductive Outcome (w : World) : World * Py.result unit -> Prop :=
| Approved (w' : World) (order : OrderEvent) :
    db w' = db w ->
    published w' = published w ++ [EvOrder order] ->
    Outcome w (w', Py.Ok tt)
| Rejected (w' : World) (alert : RiskAlertEvent) :
    db w' = _log_risk_event (db w) alert ->
    published w' = published w ++ [EvRiskAlert alert] ->
    Outcome w (w', Py.Ok tt)
| Failed (w' : World) (e : Py.exn) :
    db w' = db w ->
    published w' = published w ->
    Outcome w (w', Py.Raise e).

(** The operations that reach a risk manager between two signals: its own
    methods, and the attribute writes of the backtest engine
    ([_update_portfolio_state], [_reset_daily_tracking] of engine.py). *)
Inductive Op : Type :=
| OnSignal (env : Env) (signal : SignalEvent)
| ResetCircuitBreaker
| ResetDailyTracking (env : Env)
| EngineUpdatePortfolioState (portfolio_value : Q)
| EngineResetDailyTracking (portfolio_value : Q)
| DatabaseChange (db' : Storage.DatabaseManager).

Definition on_rm (f : RiskManager -> RiskManager) (w : World) : World :=
  {| rm := f (rm w); db := db w; published := published w |}.

Definition step (w : World) (op : Op) : World :=
  match op with
  | OnSignal env signal => _on_signal env signal w
  | ResetCircuitBreaker => on_rm reset_circuit_breaker w
  | ResetDailyTracking env => on_rm (reset_daily_tracking env (db w)) w
  | EngineUpdatePortfolioState v =>
      on_rm (fun self =>
               let self' := set_portfolio_value v self in
               if Py.gtb v (peak_equity self')
               then set_peak_equity v self' else self') w
  | EngineResetDailyTracking v => on_rm (set_daily_start_equity v) w
  | DatabaseChange db' =>
      {| rm := rm w; db := db'; published := published w |}
  end.

Definition run (w : World) (ops : list Op) : World := fold_left step ops w.

End RiskManager.

(* ===================================================================== *)
(** ** src/backtesting/portfolio.py                                       *)
(* ===================================================================== *)

Module PortfolioManager.
Import Events.

Record PortfolioManager : Type := mkPortfolio {
  cash : Q;
  positions : gmap string Z          (* symbol -> position_id *)
}.

Record World : Type := mkWorld {
  pm : PortfolioManager;
  db : Storage.DatabaseManager;
  published : list Event
}.

(** [PortfolioManager.__init__(event_bus, db, initial_cash)] *)
Definition __init__ (initial_cash : Q) : PortfolioManager :=
  {| cash := initial_cash; positions := ∅ |}.

Local Open Scope py_scope.

Definition self_ : Py.M World PortfolioManager := fun w => (w, Py.Ok (pm w)).

Definition add_cash (cash_change : Q) : Py.M World unit :=
  Py.modify (fun w =>
    {| pm := {| cash := cash (pm w) + cash_change;
                positions := positions (pm w) |};
       db := db w; published := published w |}).

Definition set_cached (symbol : string) (position_id : Z) : Py.M World unit :=
  Py.modify (fun w =>
    {| pm := {| cash := cash (pm w);
                positions := <[symbol := position_id]> (positions (pm w)) |};
       db := db w; published := published w |}).

Definition del_cached (symbol : string) : Py.M World unit :=
  Py.modify (fun w =>
    {| pm := {| cash := cash (pm w);
                positions := delete symbol (positions (pm w)) |};
       db := db w; published := published w |}).

Definition db_query_open_by_id (i : Z)
    : Py.M World (list Storage.PositionRow) :=
  fun w => (w, Storage.query_open_by_id (db w) i).

Definition db_query_by_id (i : Z) : Py.M World (list Storage.PositionRow) :=
  fun w => (w, Storage.query_by_id (db w) i).

Definition db_create_position (symbol asset_type side : string)
    (quantity entry_price : Q) (entry_time : Py.datetime)
    (strategy_id : string) (metadata : option Storage.RowMetadata)
    : Py.M World Z :=
  fun w =>
    let '(db', i) :=
      Storage.create_position (db w) symbol asset_type side quantity
        entry_price entry_time strategy_id metadata in
    ({| pm := pm w; db := db'; published := published w |}, Py.Ok i).

Definition db_update_position (position_id : Z)
    (upd : Storage.PositionRow -> Storage.PositionRow) : Py.M World bool :=
  fun w =>
    let '(db', ok) := Storage.update_position (db w) position_id upd in
    ({| pm := pm w; db := db'; published := published w |}, Py.Ok ok).

(** [_get_open_position(self, symbol)] *)
Definition _get_open_position (symbol : string)
    : Py.M World (option Storage.PositionRow) :=
  let* self := self_ in
  match positions self !! symbol with
  | Some position_id =>
      let* position := db_query_open_by_id position_id in
      match position with
      | row :: _ => Py.ret (Some row)
      | [] => Py.ret None
      end
  | None => Py.ret None
  end.

(** [_publish_position_update(self, position_id, status, realized_pnl)].
    The source builds the event with [PositionUpdateEvent(..., exit_price=
    ...)]; the dataclass of events.py has no [exit_price] field, so the
    constructor call raises [TypeError] and nothing is published. *)
Definition _publish_position_update (position_id : Z) (status : string)
    (realized_pnl : Q) : Py.M World unit :=
  let* position := db_query_by_id position_id in
  match position with
  | [] => Py.ret tt
  | _ :: _ => Py.raise Py.TypeError
  end.

(** The cash movement of a fill that opens or adds to a position. *)
Definition opening_cash_change (fill : FillEvent) : Q :=
  if String.eqb (fl_side fill) "BUY"
  then - (fl_quantity fill * fl_price fill + commission fill)
  else fl_quantity fill * fl_price fill - commission fill.

(** The cash movement of a fill that closes a position. *)
Definition closing_cash_change (fill : FillEvent) : Q :=
  if String.eqb (fl_side fill) "SELL"
  then fl_quantity fill * fl_price fill - commission fill
  else - (fl_quantity fill * fl_price fill + commission fill).

(** [_open_position(self, fill)] *)
Definition _open_position (fill : FillEvent) : Py.M World unit :=
  let cash_change := opening_cash_change fill in
  add_cash cash_change ;;
  let* position_id :=
    db_create_position (fl_symbol fill) (fl_asset_type fill)
      (if String.eqb (fl_side fill) "BUY" then "LONG" else "SHORT")
      (fl_quantity fill) (fl_price fill) (fl_timestamp fill)
      (match fl_strategy_id fill with Some s => s | None => "unknown" end)
      (Some {| Storage.entry_commission := Some (commission fill) |}) in
  set_cached (fl_symbol fill) position_id ;;
  _publish_position_update position_id "OPEN" 0.

(** [_calculate_realized_pnl(self, position, fill)] *)
Definition _calculate_realized_pnl (position : Storage.PositionRow)
    (fill : FillEvent) : Q :=
  let entry_price := Storage.entry_price position in
  let exit_price := fl_price fill in
  let quantity := Qmin (Storage.quantity position) (fl_quantity fill) in
  let entry_commission :=
    match Storage.metadata position with
    | Some md => match Storage.entry_commission md with
                 | Some c => c | None => 0 end
    | None => 0
    end in
  let exit_commission := commission fill in
  let total_commission := entry_commission + exit_commission in
  if String.eqb (Storage.side position) "LONG"
  then (exit_price - entry_price) * quantity - total_commission
  else (entry_price - exit_price) * quantity - total_commission.

Definition close_row (fill : FillEvent) (realized_pnl : Q)
    (r : Storage.PositionRow) : Storage.PositionRow :=
  {| Storage.id := Storage.id r; Storage.symbol := Storage.symbol r;
     Storage.asset_type := Storage.asset_type r;
     Storage.side := Storage.side r;
     Storage.quantity := Storage.quantity r;
     Storage.entry_price := Storage.entry_price r;
     Storage.entry_time := Storage.entry_time r;
     Storage.strategy_id := Storage.strategy_id r;
     Storage.status := "CLOSED";
     Storage.exit_price := Some (fl_price fill);
     Storage.exit_time := Some (fl_timestamp fill);
     Storage.pnl_realized := Some realized_pnl;
     Storage.metadata := Storage.metadata r |}.

Definition add_row (total_quantity new_avg_price : Q)
    (r : Storage.PositionRow) : Storage.PositionRow :=
  {| Storage.id := Storage.id r; Storage.symbol := Storage.symbol r;
     Storage.asset_type := Storage.asset_type r;
     Storage.side := Storage.side r;
     Storage.quantity := total_quantity;
     Storage.entry_price := new_avg_price;
     Storage.entry_time := Storage.entry_time r;
     Storage.strategy_id := Storage.strategy_id r;
     Storage.status := Storage.status r;
     Storage.exit_price := Storage.exit_price r;
     Storage.exit_time := Storage.exit_time r;
     Storage.pnl_realized := Storage.pnl_realized r;
     Storage.metadata := Storage.metadata r |}.

(** [_close_position(self, position, fill)] *)
Definition _close_position (position : Storage.PositionRow)
    (fill : FillEvent) : Py.M World unit :=
  let realized_pnl := _calculate_realized_pnl position fill in
  let cash_change := closing_cash_change fill in
  add_cash cash_change ;;
  db_update_position (Storage.id position) (close_row fill realized_pnl) ;;
  del_cached (fl_symbol fill) ;;
  _publish_position_update (Storage.id position) "CLOSED" realized_pnl ;;
  let* pnl_pct :=
    Py.lift (Py.div realized_pnl
               (Storage.entry_price position * Storage.quantity position)) in
  Py.ret tt.

(** [_add_to_position(self, position, fill)] *)
Definition _add_to_position (position : Storage.PositionRow)
    (fill : FillEvent) : Py.M World unit :=
  let existing_cost :=
    Storage.quantity position * Storage.entry_price position in
  let new_cost := fl_quantity fill * fl_price fill in
  let total_quantity := Storage.quantity position + fl_quantity fill in
  let* new_avg_price :=
    Py.lift (Py.div (existing_cost + new_cost) total_quantity) in
  add_cash (opening_cash_change fill) ;;
  db_update_position (Storage.id position)
    (add_row total_quantity new_avg_price) ;;
  Py.ret tt.

(** [_on_fill(self, fill)]; an exception leaves the handler and is caught
    by the bus. *)
Definition _on_fill (fill : FillEvent) : Py.M World unit :=
  let symbol := fl_symbol fill in
  let* existing_position := _get_open_position symbol in
  match existing_position with
  | None => _open_position fill
  | Some existing_position =>
      let position_side := Storage.side existing_position in
      let is_closing :=
        (String.eqb position_side "LONG" && String.eqb (fl_side fill) "SELL")
        || (String.eqb position_side "SHORT"
            && String.eqb (fl_side fill) "BUY") in
      if is_closing then _close_position existing_position fill
      else _add_to_position existing_position fill
  end.

End PortfolioManager.

(* ===================================================================== *)
(** ** src/backtesting/metrics.py                                         *)
(* ===================================================================== *)

Module PerformanceCalculator.

(** A trade dict: the keys [_calculate_trade_stats] reads with [t.get]. *)
Record Trade : Type := mkTrade {
  status : option string;
  pnl_realized : option Q;
  entry_time : option Py.datetime;
  exit_time : option Py.datetime
}.

Record ReturnsMetrics : Type := mkReturns {
  total_return : Q;
  total_return_pct : Q;
  cagr : Q;
  annualized_return : Q
}.

Record RiskAdjustedMetrics : Type := mkRiskAdjusted {
  sharpe_ratio : Q;
  sortino_ratio : Q;
  calmar_ratio : Q;
  volatility : Q
}.

Record DrawdownMetrics : Type := mkDrawdown {
  max_drawdown : Q;
  max_drawdown_pct : Q;
  avg_drawdown : Q;
  max_dd_duration_days : Z
}.

(** A float that may be [float('inf')]. *)
Inductive Number : Type :=
| Finite (q : Q)
| Infinity.

Record TradeMetrics : Type := mkTradeMetrics {
  total_trades : nat;
  winning_trades : nat;
  losing_trades : nat;
  win_rate : Q;
  profit_factor : Number;
  expectancy : Q;
  avg_win : Q;
  avg_loss : Q;
  max_win : Q;
  max_loss : Q;
  avg_trade_duration_hours : Q
}.

Record MonthlyMetrics : Type := mkMonthly {
  best_month : Q;
  worst_month : Q;
  avg_month : Q;
  positive_months_pct : Q;
  monthly_returns : option (list (Py.datetime * Q))
}.

(** The dict of [calculate_all]; its ['trades'] entry is [trades_]. *)
Record Metrics : Type := mkMetrics {
  returns : ReturnsMetrics;
  risk_adjusted : RiskAdjustedMetrics;
  drawdown : DrawdownMetrics;
  trades_ : TradeMetrics;
  monthly : MonthlyMetrics
}.

Record PerformanceCalculator : Type := mkCalculator {
  equity_curve : list (Py.datetime * Q);
  trades : list Trade;
  initial_capital : Q;
  start_date : Py.datetime;
  end_date : Py.datetime;
  risk_free_rate : Q
}.

Definition Series := list (Py.datetime * Q).

(** [(b - a).days] *)
Definition days (a b : Py.datetime) : Z := ((b - a) / (86400 * 1000000))%Z.

(** [series.expanding().max()] *)
Fixpoint expanding_max_from (m : Q) (l : list Q) : list Q :=
  match l with
  | [] => []
  | x :: t => let m' := Qmax m x in m' :: expanding_max_from m' t
  end.
Definition expanding_max (l : list Q) : list Q :=
  match l with
  | [] => []
  | x :: t => x :: expanding_max_from x t
  end.

(** [series.min()] and [series.max()] of a non-empty series. *)
Definition series_min (l : list Q) : Q :=
  match l with [] => 0 | x :: t => fold_left Qmin t x end.
Definition series_max (l : list Q) : Q :=
  match l with [] => 0 | x :: t => fold_left Qmax t x end.

(** Position of the first element satisfying [f]. *)
Fixpoint find_index (f : Q -> bool) (l : list Q) : option nat :=
  match l with
  | [] => None
  | x :: t => if f x then Some O
              else match find_index f t with
                   | Some i => Some (S i)
                   | None => None
                   end
  end.

(** [series.idxmin()] and [series.idxmax()]: the first position of the
    extreme value. *)
Definition idxmin (l : list Q) : nat :=
  match find_index (fun x => Py.eqb x (series_min l)) l with
  | Some i => i | None => O end.
Definition idxmax (l : list Q) : nat :=
  match find_index (fun x => Py.eqb x (series_max l)) l with
  | Some i => i | None => O end.

Fixpoint zip_with (f : Q -> Q -> Q) (a b : list Q) : list Q :=
  match a, b with
  | x :: a', y :: b' => f x y :: zip_with f a' b'
  | _, _ => []
  end.

Definition label (s : Series) (i : nat) : Py.datetime := nth i (map fst s) 0%Z.

(** [_calculate_max_drawdown(self, equity_series)].  The index of the
    series is taken strictly increasing (one point per timestamp), so a
    label slice [.loc[:i]] / [.loc[i:]] is the positional prefix / suffix.
    pandas division does not raise.  The series is taken to have at least
    one point and positive values: on an empty series, or where the running
    maximum is 0, pandas works with NaN (no minimum, 0/0) and the source can
    raise; nothing is stated here about such series. *)
Definition _calculate_max_drawdown (equity_series : Series) : Q * Q * Z :=
  let equity := map snd equity_series in
  let running_max := expanding_max equity in
  let drawdown := zip_with Qminus equity running_max in
  let drawdown_pct := zip_with Qdiv drawdown running_max in
  let max_dd_pct := series_min drawdown_pct in
  let max_dd_dollars := series_min drawdown in
  if Py.eqb max_dd_pct 0 then (0, 0, 0%Z)
  else
    let max_dd_idx := idxmin drawdown_pct in
    let peak_idx := idxmax (firstn (S max_dd_idx) running_max) in
    let recovery_series := skipn max_dd_idx equity in
    let level := nth max_dd_idx running_max 0 in
    let duration :=
      match find_index (fun v => Py.geb v level) recovery_series with
      | Some k =>
          days (label equity_series peak_idx)
               (label equity_series (max_dd_idx + k))
      | None =>
          days (label equity_series peak_idx)
               (label equity_series (length equity_series - 1))
      end in
    (max_dd_pct, max_dd_dollars, duration).

(** [np.mean(xs)] of a non-empty list. *)
Definition mean (xs : list Q) : Q :=
  Py.sum xs / inject_Z (Z.of_nat (length xs)).

(** [_calculate_drawdown(self, equity_series)] *)
Definition _calculate_drawdown (equity_series : Series) : DrawdownMetrics :=
  let '(max_dd_pct, max_dd_dollars, duration) :=
    _calculate_max_drawdown equity_series in
  let equity := map snd equity_series in
  let running_max := expanding_max equity in
  let drawdown := zip_with Qminus equity running_max in
  let drawdown_pct := zip_with Qdiv drawdown running_max in
  let negative_drawdowns := filter (fun x => Py.ltb x 0) drawdown_pct in
  let avg_drawdown :=
    match negative_drawdowns with [] => 0 | _ => mean negative_drawdowns end in
  {| max_drawdown := max_dd_dollars;
     max_drawdown_pct := max_dd_pct;
     avg_drawdown := avg_drawdown;
     max_dd_duration_days := duration |}.

Definition is_closed (t : Trade) : bool :=
  match status t with Some s => String.eqb s "CLOSED" | None => false end.


(** [_calculate_trade_stats(self)] *)
Definition _calculate_trade_stats (self : PerformanceCalculator)
    : TradeMetrics :=
  let closed_trades := filter is_closed (trades self) in
  match closed_trades with
  | [] =>
      {| total_trades := 0; winning_trades := 0; losing_trades := 0;
         win_rate := 0; profit_factor := Finite 0; expectancy := 0;
         avg_win := 0; avg_loss := 0; max_win := 0; max_loss := 0;
         avg_trade_duration_hours := 0 |}
  | _ :: _ =>
      let pnls :=
        map (fun t => match pnl_realized t with Some p => p | None => 0 end)
            closed_trades in
      let winners := filter (fun p => Py.gtb p 0) pnls in
      let losers := filter (fun p => Py.ltb p 0) pnls in
      let total_trades := length closed_trades in
      let winning_trades := length winners in
      let losing_trades := length losers in
      let win_rate :=
        if (0 <? total_trades)%nat
        then inject_Z (Z.of_nat winning_trades)
             / inject_Z (Z.of_nat total_trades)
        else 0 in
      let avg_win := match winners with [] => 0 | _ => mean winners end in
      let avg_loss := match losers with [] => 0 | _ => mean losers end in
      let max_win :=
        match winners with [] => 0 | _ => series_max winners end in
      let max_loss :=
        match losers with [] => 0 | _ => series_min losers end in
      let total_wins := Py.sum winners in
      let total_losses := Qabs (Py.sum losers) in
      let profit_factor :=
        if Py.gtb total_losses 0
        then Finite (total_wins / total_losses) else Infinity in
      let expectancy :=
        (win_rate * avg_win) - ((1 - win_rate) * Qabs avg_loss) in
      let durations :=
        flat_map (fun t =>
          match entry_time t, exit_time t with
          | Some entry, Some exit =>
              [inject_Z (exit - entry) / inject_Z 3600000000]
          | _, _ => []
          end) closed_trades in
      let avg_duration :=
        match durations with [] => 0 | _ => mean durations end in
      {| total_trades := total_trades;
         winning_trades := winning_trades;
         losing_trades := losing_trades;
         win_rate := win_rate;
         profit_factor := profit_factor;
         expectancy := expectancy;
         avg_win := avg_win; avg_loss := avg_loss;
         max_win := max_win; max_loss := max_loss;
         avg_trade_duration_hours := avg_duration |}
  end.

(** [_empty_metrics(self)] *)
Definition _empty_metrics : Metrics :=
  {| returns := {| total_return := 0; total_return_pct := 0; cagr := 0;
                   annualized_return := 0 |};
     risk_adjusted := {| sharpe_ratio := 0; sortino_ratio := 0;
                         calmar_ratio := 0; volatility := 0 |};
     drawdown := {| max_drawdown := 0; max_drawdown_pct := 0;
                    avg_drawdown := 0; max_dd_duration_days := 0 |};
     trades_ := {| total_trades := 0; winning_trades := 0;
                   losing_trades := 0; win_rate := 0;
                   profit_factor := Finite 0; expectancy := 0;
                   avg_win := 0; avg_loss := 0; max_win := 0; max_loss := 0;
                   avg_trade_duration_hours := 0 |};
     monthly := {| best_month := 0; worst_month := 0; avg_month := 0;
                   positive_months_pct := 0; monthly_returns := None |} |}.

Section CalculateAll.

(** [_calculate_returns], [_calculate_risk_adjusted] and
    [_calculate_monthly_returns] take fractional powers, square roots and
    calendar resamples of the series (numpy and pandas); [calculate_all]
    only passes their results on, so they are parameters here.  The
    parameters stand for runs in which these calculators return: on a curve
    of two or more points on which one of them raises, the source raises
    before the trade statistics are computed, and nothing is stated here
    about such a curve. *)
Variable _calculate_returns :
  PerformanceCalculator -> Series -> ReturnsMetrics.
Variable _calculate_risk_adjusted :
  PerformanceCalculator -> Series -> RiskAdjustedMetrics.
Variable _calculate_monthly_returns :
  PerformanceCalculator -> Series -> MonthlyMetrics.

(** [calculate_all(self)] *)
Definition calculate_all (self : PerformanceCalculator) : Metrics :=
  if (length (equity_curve self) <? 2)%nat then _empty_metrics
  else
    let equity_series := equity_curve self in
    let returns_metrics := _calculate_returns self equity_series in
    let risk_metrics := _calculate_risk_adjusted self equity_series in
    let drawdown_metrics := _calculate_drawdown equity_series in
    let trade_metrics := _calculate_trade_stats self in
    let monthly_metrics := _calculate_monthly_returns self equity_series in
    {| returns := returns_metrics;
       risk_adjusted := risk_metrics;
       drawdown := drawdown_metrics;
       trades_ := trade_metrics;
       monthly := monthly_metrics |}.

End CalculateAll.

End PerformanceCalculator.

(* ===================================================================== *)
(** ** Concrete runs used below (the values of tests/test_backtest.py and
       tests/test_risk_manager.py where they have them)                   *)
(* ===================================================================== *)

Module Scenario.
Import Events.

Definition hour : Z := 3600000000%Z.
Definition day : Z := 86400000000%Z.
(** 2023-01-01T00:00:00 *)
Definition t2023 : Py.datetime := 1672531200000000%Z.

(** *** One BTC bought at 50000 and sold at 52000 *)

Definition long_btc : Position.Position :=
  Position.__init__ 1 "BTC/USDT" "CRYPTO" "LONG" 50000 1 t2023 "test"
    None None 300.

Definition closed_btc : Position.Position :=
  fst (Position.close long_btc 52000 (t2023 + hour)%Z 312).

Definition short_btc : Position.Position :=
  Position.__init__ 2 "BTC/USDT" "CRYPTO" "SHORT" 50000 1 t2023 "test"
    None None 300.

Definition buy_leg : FillEvent :=
  {| fl_timestamp := t2023; trade_id := "TRADE-001";
     fl_order_id := "ORDER-001"; fl_symbol := "BTC/USDT";
     fl_asset_type := "CRYPTO"; fl_side := "BUY";
     fl_quantity := 1; fl_price := 50000; commission := 300;
     fl_strategy_id := Some "test"%string |}.

Definition sell_leg : FillEvent :=
  {| fl_timestamp := (t2023 + hour)%Z; trade_id := "TRADE-002";
     fl_order_id := "ORDER-002"; fl_symbol := "BTC/USDT";
     fl_asset_type := "CRYPTO"; fl_side := "SELL";
     fl_quantity := 1; fl_price := 52000; commission := 312;
     fl_strategy_id := Some "test"%string |}.

Definition empty_db : Storage.DatabaseManager :=
  {| Storage.online := true; Storage.positions := [];
     Storage.risk_events := [] |}.

Definition portfolio_world (initial_cash : Q) : PortfolioManager.World :=
  {| PortfolioManager.pm := PortfolioManager.__init__ initial_cash;
     PortfolioManager.db := empty_db;
     PortfolioManager.published := [] |}.


(** *** Orders against one bar *)

Definition default_engine (bars : gmap string ExecutionEngine.Bar)
    : ExecutionEngine.ExecutionEngine :=
  {| ExecutionEngine.current_bars := bars;
     ExecutionEngine.config :=
       {| ExecutionEngine.transaction_costs := None |} |}.

Definition market_order (side : string) (quantity : Q) : OrderEvent :=
  {| timestamp := t2023; order_id := "TEST-001"; symbol := "BTC/USDT";
     asset_type := "CRYPTO"; side := side; order_type := "MARKET";
     quantity := quantity; price := None; stop_price := None;
     strategy_id := "test"; position_id := None |}.

(** The bar of test_execution_market_buy_fills_at_high. *)
Definition btc_bar : ExecutionEngine.Bar :=
  {| ExecutionEngine.open := 40000; ExecutionEngine.high := 40500;
     ExecutionEngine.low := 39500; ExecutionEngine.close := 40200;
     ExecutionEngine.volume := Some 100 |}.

(** A bar whose prices are all nonnegative but whose high is below its
    low. *)
Definition inverted_bar : ExecutionEngine.Bar :=
  {| ExecutionEngine.open := 100; ExecutionEngine.high := 100;
     ExecutionEngine.low := 200; ExecutionEngine.close := 100;
     ExecutionEngine.volume := Some 1000 |}.

Definition btc_engine : ExecutionEngine.ExecutionEngine :=
  default_engine {[ "BTC/USDT"%string := btc_bar ]}.

Definition inverted_engine : ExecutionEngine.ExecutionEngine :=
  default_engine {[ "BTC/USDT"%string := inverted_bar ]}.

(** *** Signals through the risk manager *)

Definition env0 : RiskManager.Env :=
  {| RiskManager.now := t2023; RiskManager.uuid4 := "0A1B2C3D" |}.

Definition default_config : RiskManager.RiskConfig :=
  {| RiskManager.cfg_max_position_pct := None;
     RiskManager.cfg_max_symbol_exposure := None;
     RiskManager.cfg_max_portfolio_exposure := None;
     RiskManager.cfg_max_correlation := None;
     RiskManager.cfg_daily_loss_limit := None;
     RiskManager.cfg_max_drawdown := None |}.

(** [create_test_signal] of tests/test_risk_manager.py. *)
Definition test_signal (signal_type : string) (price : Q)
    (quantity_pct : option Q) (stop_loss : option Q) : SignalEvent :=
  {| sg_timestamp := t2023; sg_symbol := "BTC/USDT";
     sg_asset_type := "CRYPTO"; sg_strategy_id := "test_strategy";
     signal_type := signal_type; confidence := 0.85; sg_price := price;
     metadata := {| md_quantity := quantity_pct;
                    md_stop_loss := stop_loss;
                    md_take_profit := Some 52000 |} |}.

Definition buy_signal : SignalEvent :=
  test_signal "BUY" 50000 (Some 0.08) (Some 49000).
Definition close_signal : SignalEvent :=
  test_signal "CLOSE" 50000 (Some 0) None.
Definition exit_signal : SignalEvent :=
  test_signal "EXIT" 50000 (Some 0) None.
(** A BUY signal whose reference price is 0.0. *)
Definition zero_price_buy : SignalEvent :=
  test_signal "BUY" 0 (Some 0.05) (Some 1).

Definition fresh_world : RiskManager.World :=
  {| RiskManager.rm := RiskManager.__init__ env0 default_config 100000;
     RiskManager.db := empty_db;
     RiskManager.published := [] |}.

(** The breaker has tripped. *)
Definition halted_world : RiskManager.World :=
  {| RiskManager.rm :=
       RiskManager.set_circuit_breaker_active true
         (RiskManager.__init__ env0 default_config 100000);
     RiskManager.db := empty_db;
     RiskManager.published := [] |}.

(** A signal, a recovery of the portfolio value to a new high, a new day,
    and two more signals. *)
Definition after_the_trip : list RiskManager.Op :=
  [ RiskManager.OnSignal env0 buy_signal;
    RiskManager.EngineUpdatePortfolioState 120000;
    RiskManager.EngineResetDailyTracking 120000;
    RiskManager.ResetDailyTracking env0;
    RiskManager.OnSignal env0 close_signal;
    RiskManager.OnSignal env0 buy_signal ].

(** *** Symbol exposure: one position of 10000, or two summing to it *)

Definition open_row (id : Z) (symbol : string) (quantity entry_price : Q)
    : Storage.PositionRow :=
  {| Storage.id := id; Storage.symbol := symbol;
     Storage.asset_type := "CRYPTO"; Storage.side := "LONG";
     Storage.quantity := quantity; Storage.entry_price := entry_price;
     Storage.entry_time := t2023; Storage.strategy_id := "test_strategy";
     Storage.status := "OPEN"; Storage.exit_price := None;
     Storage.exit_time := None; Storage.pnl_realized := None;
     Storage.metadata := None |}.

Definition db_one_position : Storage.DatabaseManager :=
  {| Storage.online := true;
     Storage.positions := [open_row 1 "BTC/USDT" 0.2 50000];
     Storage.risk_events := [] |}.

Definition db_two_positions : Storage.DatabaseManager :=
  {| Storage.online := true;
     Storage.positions := [open_row 1 "BTC/USDT" 0.1 40000;
                           open_row 2 "ETH/USDT" 3 2000;
                           open_row 3 "BTC/USDT" 0.12 50000];
     Storage.risk_events := [] |}.

(** *** Equity curves and trades for the performance calculator *)

(** Six consecutive days starting at [d0]. *)
Definition drawdown_curve (d0 : Py.datetime) : PerformanceCalculator.Series :=
  [ (d0, 100000);
    ((d0 + 1 * day)%Z, 95000);
    ((d0 + 2 * day)%Z, 90000);
    ((d0 + 3 * day)%Z, 95000);
    ((d0 + 4 * day)%Z, 100000);
    ((d0 + 5 * day)%Z, 105000) ].

Definition drawdown_calculator (d0 : Py.datetime)
    : PerformanceCalculator.PerformanceCalculator :=
  {| PerformanceCalculator.equity_curve := drawdown_curve d0;
     PerformanceCalculator.trades := [];
     PerformanceCalculator.initial_capital := 100000;
     PerformanceCalculator.start_date := d0;
     PerformanceCalculator.end_date := (d0 + 5 * day)%Z;
     PerformanceCalculator.risk_free_rate := 0.03 |}.



(** Stand-ins for the three numpy/pandas calculators. *)
Definition returns_stub (_ : PerformanceCalculator.PerformanceCalculator)
    (_ : PerformanceCalculator.Series)
    : PerformanceCalculator.ReturnsMetrics :=
  PerformanceCalculator.mkReturns 1 1 1 1.
Definition risk_stub (_ : PerformanceCalculator.PerformanceCalculator)
    (_ : PerformanceCalculator.Series)
    : PerformanceCalculator.RiskAdjustedMetrics :=
  PerformanceCalculator.mkRiskAdjusted 1 1 1 1.
Definition monthly_stub (_ : PerformanceCalculator.PerformanceCalculator)
    (_ : PerformanceCalculator.Series)
    : PerformanceCalculator.MonthlyMetrics :=
  PerformanceCalculator.mkMonthly 1 1 1 1 (Some []).

(** *** A bus with the risk manager and two more subscribers *)

(** The risk manager as a subscriber: [_on_signal], with what it
    published handed to the bus. *)
Definition risk_handler : EventBus.Handler RiskManager.World :=
  {| EventBus.__name__ := "_on_signal";
     EventBus.call := fun e w =>
       match e with
       | EvSignal sg =>
           let w' :=
             RiskManager._on_signal env0 sg
               {| RiskManager.rm := RiskManager.rm w;
                  RiskManager.db := RiskManager.db w;
                  RiskManager.published := [] |} in
           ({| RiskManager.rm := RiskManager.rm w';
               RiskManager.db := RiskManager.db w';
               RiskManager.published := RiskManager.published w |},
            RiskManager.published w', false)
       | _ => (w, [], false)
       end |}.

(** A subscriber that always raises. *)
Definition faulty_handler : EventBus.Handler RiskManager.World :=
  {| EventBus.__name__ := "faulty";
     EventBus.call := fun _ w => (w, [], true) |}.

(** A subscriber to orders that answers each with a fill at 50000 and then
    raises. *)
Definition filling_handler : EventBus.Handler RiskManager.World :=
  {| EventBus.__name__ := "_on_order";
     EventBus.call := fun e w =>
       match e with
       | EvOrder o =>
           (w,
            [EvFill {| fl_timestamp := timestamp o; trade_id := "TRADE-001";
                       fl_order_id := order_id o; fl_symbol := symbol o;
                       fl_asset_type := asset_type o; fl_side := side o;
                       fl_quantity := quantity o; fl_price := 50000;
                       commission := 0;
                       fl_strategy_id := Some (strategy_id o) |}],
            true)
       | _ => (w, [], false)
       end |}.

(** A subscriber that records what it sees and publishes nothing. *)
Definition recording_handler : EventBus.Handler RiskManager.World :=
  {| EventBus.__name__ := "record";
     EventBus.call := fun e w =>
       ({| RiskManager.rm := RiskManager.rm w;
           RiskManager.db := RiskManager.db w;
           RiskManager.published := RiskManager.published w ++ [e] |},
        [], false) |}.

Definition wired_bus : EventBus.EventBus RiskManager.World :=
  EventBus.subscribe
    (EventBus.subscribe
       (EventBus.subscribe
          (EventBus.subscribe
             (EventBus.subscribe (EventBus.__init__ "backtest")
                SIGNAL faulty_handler)
             SIGNAL risk_handler)
          ORDER filling_handler)
       ORDER recording_handler)
    FILL recording_handler.

(** Two signals published before the drain: one that will be approved and
    one that will be rejected for its missing stop-loss. *)
Definition wired_system : EventBus.System RiskManager.World :=
  EventBus.publish
    (EvSignal (test_signal "BUY" 50000 (Some 0.08) None))
    (EventBus.publish (EvSignal buy_signal)
       {| EventBus.bus := wired_bus;
          EventBus.world := fresh_world;
          EventBus.log := [] |}).

(** Only recording subscribers. *)
Definition quiet_system : EventBus.System RiskManager.World :=
  EventBus.publish (EvSignal close_signal)
    (EventBus.publish (EvSignal buy_signal)
       {| EventBus.bus :=
            EventBus.subscribe (EventBus.__init__ "live") SIGNAL
              recording_handler;
          EventBus.world := fresh_world;
          EventBus.log := [] |}).

(** The stage of an event in the pipeline MarketData -> Signal -> Order ->
    Fill -> PositionUpdate. *)
Definition pipeline_rank (e : Event) : nat :=
  match e with
  | EvMarketData _ => 4
  | EvSignal _ => 3
  | EvOrder _ => 2
  | EvFill _ => 1
  | EvPositionUpdate _ => 0
  | EvRiskAlert _ => 0
  end.

End Scenario.

(* ===================================================================== *)
(** ** src/portfolio/position.py: return percentage and stop updates      *)
(* ===================================================================== *)

Module PositionReturns.
Import Position.

(** [get_return_pct(self)] *)
Definition get_return_pct (self : Position) : Py.result Q :=
  if Py.eqb (entry_price self) 0 then Py.Ok 0
  else
    let cost_basis := entry_price self * quantity self in
    if Py.eqb cost_basis 0 then Py.Ok 0
    else if String.eqb (status self) "OPEN" then
      match Py.div (pnl_unrealized self) cost_basis with
      | Py.Ok r => Py.Ok (r * 100)
      | Py.Raise e => Py.Raise e
      end
    else
      match Py.div (pnl_realized self) cost_basis with
      | Py.Ok r => Py.Ok (r * 100)
      | Py.Raise e => Py.Raise e
      end.

(** [update_stops(self, stop_loss=None, take_profit=None)] *)
Definition update_stops (self : Position) (stop_loss_ take_profit_ : option Q)
    : Position :=
  {| position_id := position_id self; symbol := symbol self;
     asset_type := asset_type self; side := side self;
     entry_price := entry_price self; quantity := quantity self;
     entry_time := entry_time self; strategy_id := strategy_id self;
     stop_loss := match stop_loss_ with
                  | Some s => Some s | None => stop_loss self end;
     take_profit := match take_profit_ with
                    | Some t => Some t | None => take_profit self end;
     entry_commission := entry_commission self;
     exit_commission := exit_commission self;
     status := status self; exit_price := exit_price self;
     exit_time := exit_time self;
     pnl_realized := pnl_realized self;
     pnl_unrealized := pnl_unrealized self |}.

End PositionReturns.

(* ===================================================================== *)
(** ** src/core/event_bus.py: the event history                           *)
(* ===================================================================== *)

Module EventHistory.
Import Events EventBus.

(** [event.timestamp] *)
Definition timestamp_of (e : Event) : Py.datetime :=
  match e with
  | EvMarketData m => mk_timestamp m
  | EvSignal s => sg_timestamp s
  | EvOrder o => timestamp o
  | EvFill f => fl_timestamp f
  | EvPositionUpdate u => pu_timestamp u
  | EvRiskAlert a => ra_timestamp a
  end.

(** [clear_history(self)] *)
Definition clear_history {W : Type} (self : EventBus W) : EventBus W :=
  {| mode := mode self;
     subscribers := subscribers self;
     event_queue := event_queue self;
     event_history :=
       match event_history self with Some _ => Some [] | None => None end;
     running := running self |}.

(** [get_history(self, event_type=None, start_time=None, end_time=None)];
    an [EventType] member and a [datetime] are truthy, so each filter is
    applied exactly when its argument is given. *)
Definition get_history {W : Type} (self : EventBus W)
    (event_type : option EventType) (start_time end_time : option Py.datetime)
    : list Event :=
  match event_history self with
  | None => []
  | Some events =>
      let events :=
        match event_type with
        | Some t => filter (fun e => EventType_eqb (type e) t) events
        | None => events
        end in
      let events :=
        match start_time with
        | Some t0 => filter (fun e => (t0 <=? timestamp_of e)%Z) events
        | None => events
        end in
      match end_time with
      | Some t1 => filter (fun e => (timestamp_of e <=? t1)%Z) events
      | None => events
      end
  end.

End EventHistory.

(* ===================================================================== *)
(** ** src/backtesting/execution.py: commission and the order handler     *)
(* ===================================================================== *)

Module OrderExecution.
Import Events ExecutionEngine.

(** [str.lower()] on the ASCII letters. *)
Definition lower_ascii (c : Ascii.ascii) : Ascii.ascii :=
  let n := Ascii.nat_of_ascii c in
  if (65 <=? n)%nat && (n <=? 90)%nat then Ascii.ascii_of_nat (n + 32) else c.

Fixpoint lower (s : string) : string :=
  match s with
  | EmptyString => EmptyString
  | String c rest => String (lower_ascii c) (lower rest)
  end.

(** The keys of [config['transaction_costs']] that [_calculate_commission]
    reads: [['crypto']['taker_fee']], [['stocks']['sec_fee']] and
    [['stocks']['finra_taf']], each optional. *)
Record FeeConfig : Type := mkFeeConfig {
  taker_fee : option Q;
  sec_fee : option Q;
  finra_taf : option Q
}.

Definition fee (o : option Q) (default : Q) : Q :=
  match o with Some v => v | None => default end.

(** [_calculate_commission(self, order, fill_price)] *)
Definition _calculate_commission (costs : FeeConfig) (order : OrderEvent)
    (fill_price : Q) : Q :=
  let asset_type := lower (asset_type order) in
  if String.eqb asset_type "crypto" then
    let rate := fee (taker_fee costs) 0.006 in
    quantity order * fill_price * rate
  else if String.eqb asset_type "stock" || String.eqb asset_type "etf" then
    if String.eqb (side order) "SELL" then
      let order_value := quantity order * fill_price in
      let sec := order_value * fee (sec_fee costs) 0.0000278 in
      let finra := quantity order * fee (finra_taf costs) 0.000166 in
      sec + finra
    else 0
  else 0.

(** A row of the [orders] table, as far as [update_order_status] writes it. *)
Record OrderRow : Type := mkOrderRow {
  or_order_id : string;
  or_status : string;
  filled_quantity : option Q;
  avg_fill_price : option Q;
  or_commission : option Q
}.

Record OrderStore : Type := mkOrderStore {
  os_online : bool;
  orders : list OrderRow
}.

Definition coalesce (new old : option Q) : option Q :=
  match new with Some v => Some v | None => old end.

(** [update_order_status(order_id, status, filled_quantity=None,
     avg_fill_price=None, commission=None)] of storage.py: the [UPDATE ...
     COALESCE] statement; a failing statement is caught there. *)
Definition update_order_status (db : OrderStore) (order_id status : string)
    (filled avg comm : option Q) : OrderStore * bool :=
  if os_online db then
    ({| os_online := true;
        orders :=
          map (fun r =>
                 if String.eqb (or_order_id r) order_id
                 then {| or_order_id := or_order_id r;
                         or_status := status;
                         filled_quantity := coalesce filled (filled_quantity r);
                         avg_fill_price := coalesce avg (avg_fill_price r);
                         or_commission := coalesce comm (or_commission r) |}
                 else r) (orders db) |},
     existsb (fun r => String.eqb (or_order_id r) order_id) (orders db))
  else (db, false).

(** [query("SELECT id FROM orders WHERE order_id = ?", ...)] *)
Definition query_order (db : OrderStore) (order_id : string)
    : Py.result (list OrderRow) :=
  if os_online db
  then Py.Ok (filter (fun r => String.eqb (or_order_id r) order_id) (orders db))
  else Py.Raise Py.DatabaseError.

Record World : Type := mkWorld {
  engine : ExecutionEngine;
  costs : FeeConfig;
  db : OrderStore;
  published : list Event
}.

(** How a call of the handler ends. *)
Inductive Exit : Type :=
| Returned
| RaisedZeroDivisionError
| RaisedAttributeError.

Definition set_db (d : OrderStore) (w : World) : World :=
  {| engine := engine w; costs := costs w; db := d; published := published w |}.

(** [_on_order(self, order)].  [OrderEvent] of events.py has no [metadata]
    attribute, so both [order.metadata.get('strategy_id', 'unknown')] raise
    [AttributeError]: the one in the arguments of [create_order] inside the
    [try] (caught: the handler logs and returns before the call is made), the
    one in the arguments of [FillEvent] outside it. *)
Definition _on_order (order : OrderEvent) (w : World) : World * Exit :=
  let '(valid, error) := _validate_order (engine w) order in
  if negb valid then
    (set_db (fst (update_order_status (db w) (order_id order) "REJECTED"
                    None None None)) w,
     Returned)
  else
    match current_bars (engine w) !! symbol order with
    | None => (w, Returned)
    | Some bar =>
        match _calculate_fill_price (engine w) order bar with
        | Py.Raise _ => (w, RaisedZeroDivisionError)
        | Py.Ok fill_price =>
            let commission := _calculate_commission (costs w) order fill_price in
            match query_order (db w) (order_id order) with
            | Py.Raise _ => (w, Returned)
            | Py.Ok [] => (w, Returned)
            | Py.Ok (_ :: _) =>
                (set_db (fst (update_order_status (db w) (order_id order)
                                "FILLED" (Some (quantity order))
                                (Some fill_price) (Some commission))) w,
                 RaisedAttributeError)
            end
        end
    end.

End OrderExecution.

(* ===================================================================== *)
(** ** src/data/storage.py and src/backtesting/portfolio.py: valuation    *)
(* ===================================================================== *)

Module Valuation.
Import Storage.

(** Rows by [entry_time] descending, rows of equal time in table order. *)
Fixpoint insert_desc (r : PositionRow) (l : list PositionRow)
    : list PositionRow :=
  match l with
  | [] => [r]
  | x :: t =>
      if (entry_time x <=? entry_time r)%Z then r :: l
      else x :: insert_desc r t
  end.

Definition order_by_entry_time_desc (l : list PositionRow) : list PositionRow :=
  fold_right insert_desc [] l.

(** [get_open_positions(self, symbol=None, strategy_id=None)] of storage.py;
    an empty string counts as no filter, a failing query gives []. *)
Definition get_open_positions (db : DatabaseManager)
    (symbol_ strategy_id_ : option string) : list PositionRow :=
  if online db then
    let by_symbol (r : PositionRow) :=
      match symbol_ with
      | Some s => if Py.truthy s then String.eqb (symbol r) s else true
      | None => true
      end in
    let by_strategy (r : PositionRow) :=
      match strategy_id_ with
      | Some s => if Py.truthy s then String.eqb (strategy_id r) s else true
      | None => true
      end in
    order_by_entry_time_desc
      (filter (fun r => is_open r && by_symbol r && by_strategy r)
              (positions db))
  else [].

(** [_calculate_unrealized_pnl(self, position, current_price)] *)
Definition _calculate_unrealized_pnl (position : PositionRow)
    (current_price : Q) : Q :=
  if String.eqb (side position) "LONG"
  then (current_price - entry_price position) * quantity position
  else (entry_price position - current_price) * quantity position.

(** The price [get_portfolio_value] marks a position at. *)
Definition mark_price (current_prices : gmap string Q) (position : PositionRow)
    : Q :=
  match current_prices !! symbol position with
  | Some p => p
  | None => entry_price position
  end.

(** One iteration of the loop of [get_portfolio_value]. *)
Definition add_position_value (current_prices : gmap string Q)
    (total_value : Q) (position : PositionRow) : Q :=
  let current_price := mark_price current_prices position in
  let unrealized_pnl := _calculate_unrealized_pnl position current_price in
  if String.eqb (side position) "LONG"
  then total_value + current_price * quantity position
  else total_value + unrealized_pnl.

(** [get_portfolio_value(self, current_prices)] of the backtest portfolio. *)
Definition get_portfolio_value (self : PortfolioManager.PortfolioManager)
    (db : DatabaseManager) (current_prices : gmap string Q) : Q :=
  fold_left (add_position_value current_prices)
    (get_open_positions db None None) (PortfolioManager.cash self).

End Valuation.

(* ===================================================================== *)
(** ** src/backtesting/engine.py: day boundaries and the final close      *)
(* ===================================================================== *)

Module BacktestEngine.
Import Storage.

Record BacktestEngine : Type := mkBacktestEngine {
  current_timestamp : Py.datetime;
  current_prices : gmap string Q;
  equity_curve : list (Py.datetime * Q);
  _last_trading_day : option Z       (* absent until the first bar *)
}.

(** [timestamp.date()], as a day number. *)
Definition date (t : Py.datetime) : Z := (t / 86400000000)%Z.

Definition set_last_trading_day (d : Z) (self : BacktestEngine) :=
  {| current_timestamp := current_timestamp self;
     current_prices := current_prices self;
     equity_curve := equity_curve self;
     _last_trading_day := Some d |}.

(** [_is_new_trading_day(self, timestamp)] *)
Definition _is_new_trading_day (self : BacktestEngine)
    (timestamp : Py.datetime) : BacktestEngine * bool :=
  match _last_trading_day self with
  | None => (set_last_trading_day (date timestamp) self, true)
  | Some last =>
      let current_day := date timestamp in
      if (last <? current_day)%Z
      then (set_last_trading_day current_day self, true)
      else (self, false)
  end.

(** The calls of [_is_new_trading_day] along the timestamps of a run. *)
Fixpoint new_day_flags (self : BacktestEngine) (ts : list Py.datetime)
    : list bool :=
  match ts with
  | [] => []
  | t :: rest =>
      let '(self', b) := _is_new_trading_day self t in
      b :: new_day_flags self' rest
  end.

(** [_update_portfolio_state(self)]: the engine and the risk manager after
    it, given the value the portfolio manager reports. *)
Definition _update_portfolio_state (self : BacktestEngine)
    (risk_manager : RiskManager.RiskManager) (portfolio_value : Q)
    : BacktestEngine * RiskManager.RiskManager :=
  ({| current_timestamp := current_timestamp self;
      current_prices := current_prices self;
      equity_curve :=
        equity_curve self ++ [(current_timestamp self, portfolio_value)];
      _last_trading_day := _last_trading_day self |},
   let rm1 := RiskManager.set_portfolio_value portfolio_value risk_manager in
   if Py.gtb portfolio_value (RiskManager.peak_equity rm1)
   then RiskManager.set_peak_equity portfolio_value rm1 else rm1).

(** The realized P&L [_close_open_positions] writes: no commission in it. *)
Definition forced_pnl (position : PositionRow) (current_price : Q) : Q :=
  if String.eqb (side position) "LONG"
  then (current_price - entry_price position) * quantity position
  else (entry_price position - current_price) * quantity position.

Definition force_close_row (self : BacktestEngine) (current_price pnl : Q)
    (r : PositionRow) : PositionRow :=
  {| id := id r; symbol := symbol r; asset_type := asset_type r;
     side := side r; quantity := quantity r; entry_price := entry_price r;
     entry_time := entry_time r; strategy_id := strategy_id r;
     status := "CLOSED";
     exit_price := Some current_price;
     exit_time := Some (current_timestamp self);
     pnl_realized := Some pnl;
     metadata := metadata r |}.

(** One iteration of the loop of [_close_open_positions]. *)
Definition force_close (self : BacktestEngine) (db : DatabaseManager)
    (position : PositionRow) : DatabaseManager :=
  let current_price := Valuation.mark_price (current_prices self) position in
  let pnl := forced_pnl position current_price in
  fst (update_position db (id position)
         (force_close_row self current_price pnl)).

(** [_close_open_positions(self)] *)
Definition _close_open_positions (self : BacktestEngine)
    (db : DatabaseManager) : DatabaseManager :=
  fold_left (force_close self) (Valuation.get_open_positions db None None) db.

End BacktestEngine.

(* ===================================================================== *)
(** ** src/risk/risk_manager.py: the symbol check in double precision     *)
(* ===================================================================== *)

(** [_check_symbol_risk] on IEEE 754 binary64 numbers, the [float] of
    Python, with the processor's operations (round to nearest, ties to
    even).  A decimal literal denotes the nearest double, as it does in
    Python. *)
Module Double.
Import PrimFloat.
#[local] Set Warnings "-inexact-float".

Definition gtb (x y : float) : bool := (y <? x)%float.

(** The exact value of a finite double. *)
Definition exact (x : float) : option Q :=
  match FloatOps.Prim2SF x with
  | SpecFloat.S754_zero _ => Some 0
  | SpecFloat.S754_finite s m e =>
      Some ((if s then - inject_Z (Z.pos m) else inject_Z (Z.pos m))
            * Qpower 2 e)
  | SpecFloat.S754_infinity _ => None
  | SpecFloat.S754_nan => None
  end.

(** [sum(xs)]: from 0, left to right.  (Since CPython 3.12 [sum] carries a
    compensation term; for one or two summands that term is the rounding
    error of the single addition made, and adding it leaves the result as it
    is.) *)
Definition sum (xs : list float) : float := fold_left add xs 0%float.

(** A row of [SELECT quantity, entry_price FROM positions WHERE symbol=?
    AND status='OPEN']. *)
Record Row : Type := mkRow {
  quantity : float;
  entry_price : float
}.

(** The attributes of the risk manager that the check reads. *)
Record RiskManager : Type := mkRiskManager {
  portfolio_value : float;
  max_symbol_exposure : float
}.

Inductive Description : Type :=
| SymbolExposureExceeds (exposure_pct limit existing new_exposure : float)
| SymbolRiskCheckFailed (e : Py.exn).

(** [sum(row['quantity'] * row['entry_price'] for row in result)] *)
Definition existing_exposure_of (result : list Row) : float :=
  sum (map (fun row => (quantity row * entry_price row)%float) result).

(** [_check_symbol_risk(self, symbol, new_exposure)], given what the query
    for the symbol returns or raises. *)
Definition _check_symbol_risk (self : RiskManager)
    (query : Py.result (list Row)) (new_exposure : float)
    : bool * option Description :=
  match query with
  | Py.Raise e => (false, Some (SymbolRiskCheckFailed e))
  | Py.Ok result =>
      let existing_exposure := existing_exposure_of result in
      let total_exposure := (existing_exposure + new_exposure)%float in
      let exposure_pct :=
        if gtb (portfolio_value self) 0%float
        then (total_exposure / portfolio_value self)%float else 0%float in
      if gtb exposure_pct (max_symbol_exposure self) then
        (false, Some (SymbolExposureExceeds exposure_pct
                        (max_symbol_exposure self) existing_exposure
                        new_exposure))
      else (true, None)
  end.


(** *** One notional held as one position and as two *)




Definition new_position_value : float := 6200.1199%float.



End Double.

(* ===================================================================== *)
(** ** Further concrete runs                                              *)
(* ===================================================================== *)

Module Examples.
Import Events.

Definition default_fees : OrderExecution.FeeConfig :=
  {| OrderExecution.taker_fee := None;
     OrderExecution.sec_fee := None;
     OrderExecution.finra_taf := None |}.

(** An order as [RiskManager._create_order_event] builds it. *)
Definition stock_order (side : string) (quantity : Q) : OrderEvent :=
  {| timestamp := Scenario.t2023; order_id := "ORD-0A1B2C3D";
     symbol := "AAPL"; asset_type := "STOCK"; side := side;
     order_type := "MARKET"; quantity := quantity; price := None;
     stop_price := None; strategy_id := "test_strategy";
     position_id := None |}.

Definition stored_order (id status : string) : OrderExecution.OrderRow :=
  {| OrderExecution.or_order_id := id;
     OrderExecution.or_status := status;
     OrderExecution.filled_quantity := None;
     OrderExecution.avg_fill_price := None;
     OrderExecution.or_commission := None |}.

Definition execution_world (rows : list OrderExecution.OrderRow)
    : OrderExecution.World :=
  {| OrderExecution.engine := Scenario.btc_engine;
     OrderExecution.costs := default_fees;
     OrderExecution.db :=
       {| OrderExecution.os_online := true;
          OrderExecution.orders := rows |};
     OrderExecution.published := [] |}.

(** *** Fills of a short round trip and a portfolio over a filled database *)

Definition short_open : FillEvent :=
  {| fl_timestamp := Scenario.t2023; trade_id := "TRADE-101";
     fl_order_id := "ORDER-101"; fl_symbol := "SOL/USDT";
     fl_asset_type := "CRYPTO"; fl_side := "SELL";
     fl_quantity := 20; fl_price := 100; commission := 2;
     fl_strategy_id := None |}.

Definition short_cover : FillEvent :=
  {| fl_timestamp := (Scenario.t2023 + Scenario.day)%Z;
     trade_id := "TRADE-102";
     fl_order_id := "ORDER-102"; fl_symbol := "SOL/USDT";
     fl_asset_type := "CRYPTO"; fl_side := "BUY";
     fl_quantity := 20; fl_price := 90; commission := 1.8;
     fl_strategy_id := None |}.

Definition second_buy : FillEvent :=
  {| fl_timestamp := (Scenario.t2023 + Scenario.hour)%Z;
     trade_id := "TRADE-003";
     fl_order_id := "ORDER-003"; fl_symbol := "BTC/USDT";
     fl_asset_type := "CRYPTO"; fl_side := "BUY";
     fl_quantity := 3; fl_price := 54000; commission := 97.2;
     fl_strategy_id := Some "test"%string |}.

Definition funded_world (initial_cash : Q) : PortfolioManager.World :=
  {| PortfolioManager.pm := PortfolioManager.__init__ initial_cash;
     PortfolioManager.db := Scenario.db_two_positions;
     PortfolioManager.published := [] |}.

Definition marks : gmap string Q :=
  {[ "BTC/USDT"%string := 51000; "ETH/USDT"%string := 1900 ]}.

(** *** An engine before its first bar and at the end of a run *)

Definition fresh_engine : BacktestEngine.BacktestEngine :=
  {| BacktestEngine.current_timestamp := Scenario.t2023;
     BacktestEngine.current_prices := ∅;
     BacktestEngine.equity_curve := [];
     BacktestEngine._last_trading_day := None |}.

Definition closing_engine : BacktestEngine.BacktestEngine :=
  {| BacktestEngine.current_timestamp :=
       (Scenario.t2023 + 30 * Scenario.day)%Z;
     BacktestEngine.current_prices := marks;
     BacktestEngine.equity_curve := [];
     BacktestEngine._last_trading_day :=
       Some (BacktestEngine.date (Scenario.t2023 + 30 * Scenario.day)%Z) |}.

(** Bars at 00:00, 12:00 and 23:00 of one day and at 00:00 of the next,
    counted from [Scenario.t2023]. *)
Definition bar_times : list Py.datetime :=
  [ Scenario.t2023; (Scenario.t2023 + 12 * Scenario.hour)%Z;
    (Scenario.t2023 + 23 * Scenario.hour)%Z;
    (Scenario.t2023 + 24 * Scenario.hour)%Z ].

(** *** A bus with one event queued, and events to publish *)

Definition backtest_bus : EventBus.EventBus unit :=
  EventBus.publish_bus (EventBus.__init__ "backtest")
    (EvSignal Scenario.buy_signal).

Definition two_fills : list Event :=
  [ EvFill Scenario.buy_leg; EvFill Scenario.sell_leg ].

(** *** An equity curve that never falls *)

Definition rising_curve : PerformanceCalculator.Series :=
  [ (Scenario.t2023, 100000);
    ((Scenario.t2023 + 1 * Scenario.day)%Z, 100000);
    ((Scenario.t2023 + 2 * Scenario.day)%Z, 101500);
    ((Scenario.t2023 + 3 * Scenario.day)%Z, 104000) ].

End Examples.

(* ===================================================================== *)
(** * Properties                                                          *)
(* ===================================================================== *)

(** ** Comparisons *)

Lemma ltb_lt (x y : Q) : Py.ltb x y = true <-> x < y.
Proof.
  unfold Py.ltb. rewrite negb_true_iff, <- not_true_iff_false, Qle_bool_iff.
  split; [apply Qnot_le_lt | apply Qlt_not_le].
Qed.

Lemma ltb_ge (x y : Q) : Py.ltb x y = false <-> y <= x.
Proof.
  unfold Py.ltb. rewrite negb_false_iff. apply Qle_bool_iff.
Qed.

Lemma leb_le (x y : Q) : Py.leb x y = true <-> x <= y.
Proof. apply Qle_bool_iff. Qed.

Lemma gtb_gt (x y : Q) : Py.gtb x y = true <-> y < x.
Proof. apply ltb_lt. Qed.

Lemma gtb_le (x y : Q) : Py.gtb x y = false <-> x <= y.
Proof. apply ltb_ge. Qed.

Lemma eqb_eq (x y : Q) : Py.eqb x y = true <-> x == y.
Proof. apply Qeq_bool_iff. Qed.

Lemma eqb_neq (x y : Q) : Py.eqb x y = false <-> ~ x == y.
Proof.
  unfold Py.eqb. rewrite <- not_true_iff_false, Qeq_bool_iff. tauto.
Qed.

Lemma div_ok (x y : Q) : ~ y == 0 -> Py.div x y = Py.Ok (x / y).
Proof.
  intros H. unfold Py.div. apply eqb_neq in H. now rewrite H.
Qed.

(** ** Position *)

Section PositionProperties.
Import Position.

Lemma close_open_value (p : Position) (exit : Q) (t : Py.datetime) (c : Q) :
  status p = "OPEN"%string ->
  snd (close p exit t c) =
  ((if String.eqb (side p) "LONG"
    then exit - entry_price p else entry_price p - exit) * quantity p)
  - (entry_commission p + c).
Proof.
  intros Hs. unfold close. rewrite Hs. reflexivity.
Qed.

Lemma close_closes (p : Position) (exit : Q) (t : Py.datetime) (c : Q) :
  status (fst (close p exit t c)) = "CLOSED"%string.
Proof.
  unfold close. destruct (String.eqb (status p) "CLOSED") eqn:E; simpl.
  - now apply String.eqb_eq in E.
  - reflexivity.
Qed.

(** A second [close] changes nothing and returns the cached P&L. *)
Lemma close_idempotent (p : Position) (e1 e2 : Q) (t1 t2 : Py.datetime)
    (c1 c2 : Q) :
  close (fst (close p e1 t1 c1)) e2 t2 c2 =
  (fst (close p e1 t1 c1), pnl_realized (fst (close p e1 t1 c1))).
Proof.
  unfold close at 1. now rewrite close_closes.
Qed.

End PositionProperties.

(** C10: a position whose status is 'CLOSED' is inert: for every current
    price, [update_market_price] returns 0.0 and leaves every field as it
    was, [get_value] returns 0.0, and [should_stop_loss] and
    [should_take_profit] return False (these three have no assignment in the
    source, so they are functions of the position only). *)
Theorem closed_position_inert :
  forall (p : Position.Position) (current_price : Q),
    Position.status p = "CLOSED"%string ->
    Position.update_market_price p current_price = (p, 0)
    /\ Position.get_value p current_price = 0
    /\ Position.should_stop_loss p current_price = false
    /\ Position.should_take_profit p current_price = false.
Proof.
  intros p price Hs.
  unfold Position.update_market_price, Position.get_value,
    Position.should_stop_loss, Position.should_take_profit.
  rewrite Hs. cbn.
  repeat split; [destruct (Position.stop_loss p) | destruct (Position.take_profit p)];
    reflexivity.
Qed.

Lemma closed_position_inert_witness :
  Position.status Scenario.closed_btc = "CLOSED"%string
  /\ Position.update_market_price Scenario.closed_btc 60000
     = (Scenario.closed_btc, 0)
  /\ Position.get_value Scenario.closed_btc 60000 = 0
  /\ Position.should_stop_loss Scenario.closed_btc 60000 = false
  /\ Position.should_take_profit Scenario.closed_btc 60000 = false.
Proof.
  split; [reflexivity | apply closed_position_inert; reflexivity].
Defined.

(** ** Backtest portfolio *)

Section PortfolioProperties.
Import Events PortfolioManager.

(** A fill for a symbol without cached position moves the cash by the
    opening amount, whatever the database then does. *)
Lemma on_fill_opens (w : World) (fill : FillEvent) :
  positions (pm w) !! fl_symbol fill = None ->
  cash (pm (fst (_on_fill fill w))) = cash (pm w) + opening_cash_change fill.
Proof.
  intros H. unfold _on_fill, _get_open_position, Py.bind, self_. rewrite H.
  unfold Py.ret, _open_position, Py.bind, add_cash, Py.modify,
    db_create_position.
  cbn [pm db published cash positions].
  destruct (Storage.create_position _ _ _ _ _ _ _ _ _) as [db' i].
  unfold set_cached, Py.modify, _publish_position_update, Py.bind,
    db_query_by_id.
  cbn [pm db published cash positions].
  destruct (Storage.query_by_id db' i) as [[|r rs]|e]; reflexivity.
Qed.

Lemma opening_buy (fill : FillEvent) :
  fl_side fill = "BUY"%string ->
  opening_cash_change fill
  = - (fl_quantity fill * fl_price fill + commission fill).
Proof. intros H. unfold opening_cash_change. now rewrite H. Qed.

Lemma closing_sell (fill : FillEvent) :
  fl_side fill = "SELL"%string ->
  closing_cash_change fill
  = fl_quantity fill * fl_price fill - commission fill.
Proof. intros H. unfold closing_cash_change. now rewrite H. Qed.

(** Realized P&L of a long row closed by a fill of the same quantity. *)
Lemma realized_pnl_long (row : Storage.PositionRow) (fill : FillEvent) (c : Q) :
  Storage.side row = "LONG"%string ->
  Storage.metadata row = Some {| Storage.entry_commission := Some c |} ->
  Storage.quantity row == fl_quantity fill ->
  _calculate_realized_pnl row fill
  == (fl_price fill - Storage.entry_price row) * fl_quantity fill
     - (c + commission fill).
Proof.
  intros Hs Hm Hq. unfold _calculate_realized_pnl. rewrite Hs, Hm. cbn.
  destruct (Q.min_spec (Storage.quantity row) (fl_quantity fill))
    as [[_ ->]|[_ ->]]; rewrite ?Hq; reflexivity.
Qed.

End PortfolioProperties.

(** C1: a LONG position opened by BUY 1.0 @ 50000 (commission 300) and closed
    by SELL 1.0 @ 52000 (commission 312) realizes exactly
    (52000-50000)*1 - (300+312) = 1388, both through [Position.close] and
    through the backtest portfolio, whose cash moves by -(quantity*price +
    commission) on the BUY leg and by +(quantity*price - commission) on the
    SELL leg, for every initial cash; and in general the first [close] of an
    open position returns sign*(exit - entry)*quantity - (entry commission +
    exit commission), sign = +1 for LONG and -1 for SHORT. *)
Theorem realized_pnl_conservation :
  snd (Position.close Scenario.long_btc 52000
         (Scenario.t2023 + Scenario.hour)%Z 312)
    == 1388
  /\ (forall c0 : Q,
        let w0 := Scenario.portfolio_world c0 in
        let w1 := fst (PortfolioManager._on_fill Scenario.buy_leg w0) in
        let w2 := fst (PortfolioManager._on_fill Scenario.sell_leg w1) in
        PortfolioManager.cash (PortfolioManager.pm w1)
          - PortfolioManager.cash (PortfolioManager.pm w0)
          == - (1 * 50000 + 300)
        /\ PortfolioManager.cash (PortfolioManager.pm w2)
             - PortfolioManager.cash (PortfolioManager.pm w1)
             == 1 * 52000 - 312
        /\ exists row pnl,
             Storage.positions (PortfolioManager.db w2) = [row]
             /\ Storage.status row = "CLOSED"%string
             /\ Storage.pnl_realized row = Some pnl
             /\ pnl == 1388)
  /\ (forall (p : Position.Position) (exit_price : Q) (exit_time : Py.datetime)
             (commission : Q),
        Position.status p = "OPEN"%string ->
        (Position.side p = "LONG"%string ->
           snd (Position.close p exit_price exit_time commission)
           == 1 * (exit_price - Position.entry_price p) * Position.quantity p
              - (Position.entry_commission p + commission))
        /\ (Position.side p = "SHORT"%string ->
              snd (Position.close p exit_price exit_time commission)
              == (-1) * (exit_price - Position.entry_price p)
                 * Position.quantity p
                 - (Position.entry_commission p + commission))).
Proof.
  split; [reflexivity | split].
  - intros c0 w0 w1 w2.
    assert (H1 : PortfolioManager.cash (PortfolioManager.pm w1)
                 = c0 + PortfolioManager.opening_cash_change Scenario.buy_leg)
      by reflexivity.
    assert (H2 : PortfolioManager.cash (PortfolioManager.pm w2)
                 = PortfolioManager.cash (PortfolioManager.pm w1)
                   + PortfolioManager.closing_cash_change Scenario.sell_leg)
      by reflexivity.
    split; [| split].
    + rewrite H1. change (PortfolioManager.cash (PortfolioManager.pm w0)) with c0.
      rewrite opening_buy by reflexivity. cbn. lra.
    + rewrite H2, closing_sell by reflexivity. cbn. lra.
    + eexists. eexists. split; [reflexivity |].
      split; [reflexivity | split; [reflexivity |]].
      reflexivity.
  - intros p e t c Hs. split; intros Hside.
    + rewrite close_open_value by exact Hs. rewrite Hside. cbn. lra.
    + rewrite close_open_value by exact Hs. rewrite Hside. cbn. lra.
Qed.

Lemma realized_pnl_conservation_witness :
  Position.status Scenario.short_btc = "OPEN"%string
  /\ Position.side Scenario.short_btc = "SHORT"%string
  /\ snd (Position.close Scenario.short_btc 48000
            (Scenario.t2023 + Scenario.hour)%Z 288)
     == (-1) * (48000 - 50000) * 1 - (300 + 288).
Proof.
  split; [reflexivity | split; [reflexivity |]].
  apply (proj2 (proj2 realized_pnl_conservation) Scenario.short_btc 48000
           (Scenario.t2023 + Scenario.hour)%Z 288 eq_refl).
  reflexivity.
Defined.

(** ** Execution engine: fill price and slippage *)

Section FillPrice.
Import Events ExecutionEngine.

Variable self : ExecutionEngine.
Variable order : OrderEvent.
Variable bar : Bar.

Hypothesis quantity_pos : 0 < quantity order.
Hypothesis low_nonneg : 0 <= low bar.
Hypothesis low_le_high : low bar <= high bar.
Hypothesis base_rate_nonneg : 0 <= base_slippage_pct (config self).
Hypothesis volume_rate_nonneg : 0 <= volume_impact_factor (config self).

Lemma base_price_nonneg : 0 <= base_price_of order bar.
Proof.
  unfold base_price_of. destruct (String.eqb (side order) "BUY"); lra.
Qed.

Lemma base_slippage_nonneg :
  0 <= base_slippage_of (config self) (base_price_of order bar).
Proof.
  unfold base_slippage_of. pose proof base_price_nonneg. nra.
Qed.

Lemma volume_slippage_nonneg (v : Q) :
  volume_slippage_of (config self) order (base_price_of order bar) bar
    = Py.Ok v ->
  0 <= v.
Proof.
  pose proof base_price_nonneg as Hb.
  unfold volume_slippage_of.
  set (ov := quantity order * base_price_of order bar).
  set (bvv := _ * close bar).
  destruct (Py.gtb _ 0) eqn:Hvol; [| intros [= <-]; lra].
  unfold Py.div. destruct (Py.eqb (Qmax bvv ov) 0) eqn:Hz; [discriminate |].
  intros [= <-].
  apply eqb_neq in Hz.
  assert (Hov : 0 <= ov) by (unfold ov; nra).
  assert (Hmax : 0 < Qmax bvv ov).
  { pose proof (Q.le_max_r bvv ov).
    destruct (Qlt_le_dec 0 (Qmax bvv ov)) as [|Hle]; [assumption |].
    exfalso. apply Hz. lra. }
  assert (Hr : 0 <= ov / Qmax bvv ov) by (apply Qle_shift_div_l; lra).
  revert Hr. generalize (ov / Qmax bvv ov). intros r Hr.
  apply Qmult_le_0_compat; [assumption |].
  apply Qmult_le_0_compat; assumption.
Qed.

Lemma volatility_slippage_nonneg :
  0 <= volatility_slippage_of (base_price_of order bar) bar.
Proof.
  pose proof base_price_nonneg as Hb.
  unfold volatility_slippage_of.
  destruct (Py.gtb (close bar) 0) eqn:Hc; [| lra].
  apply gtb_gt in Hc.
  assert (Hr : 0 <= (high bar - low bar) / close bar)
    by (apply Qle_shift_div_l; lra).
  apply Qmult_le_0_compat; [assumption |].
  apply Qmult_le_0_compat; [assumption | lra].
Qed.

Lemma slippage_nonneg (s : Q) :
  _calculate_slippage self order (base_price_of order bar) bar = Py.Ok s ->
  0 <= s.
Proof.
  unfold _calculate_slippage.
  destruct (volume_slippage_of _ _ _ _) as [v|e] eqn:Hv; [| discriminate].
  intros [= <-].
  pose proof (volume_slippage_nonneg v Hv).
  pose proof base_slippage_nonneg. pose proof volatility_slippage_nonneg.
  pose proof base_price_nonneg.
  apply Q.min_glb; nra.
Qed.

(** The only failure is the division [order_value / max(bar_volume_value,
    order_value)], and it needs close = 0 and a base price of 0. *)
Lemma volume_slippage_returns :
  0 < close bar \/ 0 < base_price_of order bar ->
  exists v,
    volume_slippage_of (config self) order (base_price_of order bar) bar
      = Py.Ok v.
Proof.
  intros Hpos. unfold volume_slippage_of.
  set (ov := quantity order * base_price_of order bar).
  destruct (Py.gtb _ 0) eqn:Hvol; [| eauto].
  apply gtb_gt in Hvol.
  rewrite div_ok; [eauto |].
  pose proof base_price_nonneg as Hb.
  pose proof (Q.le_max_r (match volume bar with Some v => v | None => 0 end
                          * close bar) ov) as Hr.
  pose proof (Q.le_max_l (match volume bar with Some v => v | None => 0 end
                          * close bar) ov) as Hl.
  intros Hz. rewrite Hz in Hr, Hl. subst ov.
  destruct Hpos as [Hc|Hp]; nra.
Qed.

End FillPrice.

Lemma validate_order_true (self : ExecutionEngine.ExecutionEngine)
    (order : Events.OrderEvent) :
  fst (ExecutionEngine._validate_order self order) = true ->
  0 < Events.quantity order
  /\ (Events.side order = "BUY"%string \/ Events.side order = "SELL"%string)
  /\ Events.order_id order <> ""%string
  /\ Events.symbol order <> ""%string
  /\ is_Some (ExecutionEngine.current_bars self !! Events.symbol order).
Proof.
  unfold ExecutionEngine._validate_order, Py.truthy.
  destruct (String.eqb (Events.order_id order) "") eqn:Hid; [discriminate |].
  destruct (String.eqb (Events.symbol order) "") eqn:Hsym; [discriminate |].
  destruct (String.eqb (Events.side order) "") eqn:Hs0; [discriminate |].
  cbn [negb orb].
  destruct (String.eqb (Events.side order) "BUY") eqn:Hbuy;
    destruct (String.eqb (Events.side order) "SELL") eqn:Hsell;
    cbn [negb orb]; try discriminate;
    (destruct (Py.leb (Events.quantity order) 0) eqn:Hq; [discriminate |]);
    (destruct (ExecutionEngine.current_bars self !! Events.symbol order)
       eqn:Hbar; [| discriminate]);
    intros _;
    (split; [apply ltb_ge in Hq || (apply Qnot_le_lt; intros Hle;
                                    apply leb_le in Hle; congruence) |]);
    (split; [first [left; now apply String.eqb_eq
                   | right; now apply String.eqb_eq] |]);
    (split; [now apply String.eqb_neq |]);
    (split; [now apply String.eqb_neq | eauto]).
Qed.

(** X26: for every valid order executed against its current bar, when the
    bar has 0 <= low <= high and the configured base-slippage and
    volume-impact rates are nonnegative, the fill price computation returns
    whenever close or the base price is positive, and whenever it returns,
    the slippage is min(base slippage + volume impact + volatility impact, 2%
    of the base price) and is not negative, a BUY fills at high + slippage >=
    high and a SELL at low - slippage <= low. *)
Theorem conservative_fill :
  forall (self : ExecutionEngine.ExecutionEngine) (order : Events.OrderEvent)
         (bar : ExecutionEngine.Bar),
    fst (ExecutionEngine._validate_order self order) = true ->
    ExecutionEngine.current_bars self !! Events.symbol order = Some bar ->
    0 <= ExecutionEngine.low bar ->
    ExecutionEngine.low bar <= ExecutionEngine.high bar ->
    0 <= ExecutionEngine.base_slippage_pct (ExecutionEngine.config self) ->
    0 <= ExecutionEngine.volume_impact_factor (ExecutionEngine.config self) ->
    let base_price := ExecutionEngine.base_price_of order bar in
    (0 < ExecutionEngine.close bar \/ 0 < base_price ->
     exists p, ExecutionEngine._calculate_fill_price self order bar = Py.Ok p)
    /\ (forall p,
          ExecutionEngine._calculate_fill_price self order bar = Py.Ok p ->
          exists s v,
            ExecutionEngine.volume_slippage_of (ExecutionEngine.config self)
              order base_price bar = Py.Ok v
            /\ ExecutionEngine._calculate_slippage self order base_price bar
               = Py.Ok s
            /\ s == Qmin
                      (ExecutionEngine.base_slippage_of
                         (ExecutionEngine.config self) base_price
                       + v
                       + ExecutionEngine.volatility_slippage_of base_price bar)
                      (base_price * 0.02)
            /\ 0 <= s
            /\ (Events.side order = "BUY"%string ->
                p == ExecutionEngine.high bar + s
                /\ ExecutionEngine.high bar <= p)
            /\ (Events.side order = "SELL"%string ->
                p == ExecutionEngine.low bar - s
                /\ p <= ExecutionEngine.low bar)).
Proof.
  intros self order bar Hvalid Hbar Hlow Hhl Hbase Hvol base_price.
  destruct (validate_order_true self order Hvalid) as (Hq & Hside & _).
  split.
  - intros Hpos.
    destruct (volume_slippage_returns self order bar Hq Hlow Hhl Hpos)
      as [v Hv].
    unfold ExecutionEngine._calculate_fill_price,
      ExecutionEngine._calculate_slippage.
    fold base_price. unfold base_price at 1 2. rewrite Hv.
    destruct (String.eqb (Events.side order) "BUY"); eauto.
  - intros p Hp.
    unfold ExecutionEngine._calculate_fill_price in Hp.
    destruct (ExecutionEngine._calculate_slippage self order _ bar)
      as [s|e] eqn:Hs; [| discriminate].
    pose proof (slippage_nonneg self order bar Hq Hlow Hhl Hbase Hvol
                  s Hs) as Hs0.
    pose proof Hs as Hs'.
    unfold ExecutionEngine._calculate_slippage in Hs'.
    destruct (ExecutionEngine.volume_slippage_of _ _ _ _) as [v|e] eqn:Hv;
      [| discriminate].
    injection Hs' as Hs'.
    exists s, v. repeat split; try assumption.
    + rewrite <- Hs'. reflexivity.
    + rewrite H in Hp. injection Hp as <-.
      unfold ExecutionEngine.base_price_of. rewrite H. reflexivity.
    + rewrite H in Hp. injection Hp as <-.
      unfold ExecutionEngine.base_price_of. rewrite H. cbn. lra.
    + rewrite H in Hp. cbn in Hp. injection Hp as <-.
      unfold ExecutionEngine.base_price_of. rewrite H. reflexivity.
    + rewrite H in Hp. cbn in Hp. injection Hp as <-.
      unfold ExecutionEngine.base_price_of. rewrite H. cbn. lra.
Qed.

Lemma conservative_fill_witness :
  exists p,
    ExecutionEngine._calculate_fill_price Scenario.btc_engine
      (Scenario.market_order "BUY" 1) Scenario.btc_bar = Py.Ok p
    /\ 40500 <= p.
Proof.
  destruct (conservative_fill Scenario.btc_engine
              (Scenario.market_order "BUY" 1) Scenario.btc_bar)
    as [Hret Hprop].
  - vm_compute. reflexivity.
  - vm_compute. reflexivity.
  - cbn. lra.
  - cbn. lra.
  - cbn. lra.
  - cbn. lra.
  - destruct Hret as [p Hp]; [left; cbn; lra |].
    exists p. split; [exact Hp |].
    destruct (Hprop p Hp) as (s & v & _ & _ & _ & _ & Hbuy & _).
    apply Hbuy. reflexivity.
Defined.

(** C2: the code does not keep what the claim and its own documentation say
    ([_calculate_slippage]: "Slippage amount in dollars (always positive)";
    [_calculate_fill_price]: "Apply slippage (always makes price worse)").
    Nonnegative prices do not make the slippage nonnegative: on a bar with
    high 100 below low 200 (close 100, volume 1000), which the engine takes
    as it is, a valid BUY of 1 unit gets a negative slippage and fills below
    the bar's high. *)
Lemma fill_below_high_on_inverted_bar :
  fst (ExecutionEngine._validate_order Scenario.inverted_engine
         (Scenario.market_order "BUY" 1)) = true
  /\ ExecutionEngine.current_bars Scenario.inverted_engine !! "BTC/USDT"%string
     = Some Scenario.inverted_bar
  /\ 0 <= ExecutionEngine.open Scenario.inverted_bar
  /\ 0 <= ExecutionEngine.high Scenario.inverted_bar
  /\ 0 <= ExecutionEngine.low Scenario.inverted_bar
  /\ 0 <= ExecutionEngine.close Scenario.inverted_bar
  /\ exists p s,
       ExecutionEngine._calculate_fill_price Scenario.inverted_engine
         (Scenario.market_order "BUY" 1) Scenario.inverted_bar = Py.Ok p
       /\ ExecutionEngine._calculate_slippage Scenario.inverted_engine
            (Scenario.market_order "BUY" 1) 100 Scenario.inverted_bar
          = Py.Ok s
       /\ s < 0
       /\ p < ExecutionEngine.high Scenario.inverted_bar.
Proof.
  split; [vm_compute; reflexivity |].
  split; [vm_compute; reflexivity |].
  repeat (split; [cbn; lra |]).
  eexists. eexists.
  split; [vm_compute; reflexivity |].
  split; [vm_compute; reflexivity |].
  split; vm_compute; reflexivity.
Qed.

(** ** Risk manager *)

Section RiskManagerProperties.
Import Events RiskManager.

Lemma set_circuit_breaker_active_get (b : bool) (self : RiskManager) :
  circuit_breaker_active (set_circuit_breaker_active b self) = b.
Proof. reflexivity. Qed.

(** The breaker check on a tripped manager: no reading of the portfolio
    value, no change of state. *)
Lemma check_circuit_breakers_active (self : RiskManager) :
  circuit_breaker_active self = true ->
  _check_circuit_breakers self = (self, (false, Some CircuitBreakerActive)).
Proof. intros H. unfold _check_circuit_breakers. now rewrite H. Qed.

(** The breaker check never clears the flag. *)
Lemma check_circuit_breakers_monotone (self : RiskManager) :
  circuit_breaker_active self = true ->
  circuit_breaker_active (fst (_check_circuit_breakers self)) = true.
Proof. intros H. now rewrite check_circuit_breakers_active. Qed.

Lemma get_open_positions_breaker (env : Env) (db : Storage.DatabaseManager)
    (self : RiskManager) :
  circuit_breaker_active (fst (_get_open_positions env db self))
  = circuit_breaker_active self.
Proof.
  unfold _get_open_positions.
  destruct (_ && _); [reflexivity |].
  destruct (Storage.execute_query_open db); reflexivity.
Qed.

Lemma reset_daily_tracking_breaker (env : Env)
    (db : Storage.DatabaseManager) (self : RiskManager) :
  circuit_breaker_active (reset_daily_tracking env db self)
  = circuit_breaker_active self.
Proof.
  unfold reset_daily_tracking, _get_portfolio_value.
  pose proof (get_open_positions_breaker env db self) as H.
  destruct (_get_open_positions env db self) as [self' ps]. exact H.
Qed.

(** What [_on_signal] does to a non-CLOSE signal once the breaker is
    active. *)
Lemma on_signal_halted (env : Env) (signal : SignalEvent) (w : World) :
  circuit_breaker_active (rm w) = true ->
  signal_type signal <> "CLOSE"%string ->
  let alert :=
    _create_risk_alert env (rm w) signal (Some CircuitBreakerActive)
      "CRITICAL" in
  _on_signal env signal w
  = {| rm := rm w;
       db := _log_risk_event (db w) alert;
       published := published w ++ [EvRiskAlert alert] |}.
Proof.
  intros Hcb Hty alert.
  unfold _on_signal, Py.try_except, _on_signal_try.
  apply String.eqb_neq in Hty. rewrite Hty.
  unfold Py.bind at 1. unfold check_circuit_breakers.
  rewrite check_circuit_breakers_active by exact Hcb.
  destruct w as [self d pub]. reflexivity.
Qed.

(** What [_on_signal] does to a CLOSE signal. *)
Lemma on_signal_close (env : Env) (signal : SignalEvent) (w : World) :
  signal_type signal = "CLOSE"%string ->
  _on_signal env signal w
  = match _create_order_event env (rm w) signal with
    | Py.Ok order =>
        {| rm := rm w; db := db w;
           published := published w ++ [EvOrder order] |}
    | Py.Raise e =>
        {| rm := rm w; db := db w;
           published :=
             published w
             ++ [EvRiskAlert (_create_risk_alert env (rm w) signal
                                (Some (ProcessingError e)) "HIGH")] |}
    end.
Proof.
  intros Hty.
  unfold _on_signal, Py.try_except, _on_signal_try. rewrite Hty.
  change ("CLOSE" =? "CLOSE")%string with true. cbv iota.
  unfold Py.bind, self_, Py.lift.
  destruct w as [self d pub]. cbn [rm db published].
  destruct (_create_order_event env self signal); reflexivity.
Qed.

(** No call of [_on_signal] clears the breaker. *)
Lemma on_signal_keeps_breaker (env : Env) (signal : SignalEvent) (w : World) :
  circuit_breaker_active (rm w) = true ->
  circuit_breaker_active (rm (_on_signal env signal w)) = true.
Proof.
  intros Hcb.
  destruct (String.eqb (signal_type signal) "CLOSE") eqn:Hty.
  - apply String.eqb_eq in Hty. rewrite on_signal_close by exact Hty.
    destruct (_create_order_event env (rm w) signal); exact Hcb.
  - apply String.eqb_neq in Hty.
    rewrite on_signal_halted by assumption. exact Hcb.
Qed.

Lemma step_keeps_breaker (w : World) (op : Op) :
  circuit_breaker_active (rm w) = true ->
  op <> ResetCircuitBreaker ->
  circuit_breaker_active (rm (step w op)) = true.
Proof.
  intros Hcb Hop. destruct op as [env sg| |env|v|v|d]; cbn [step on_rm rm].
  - now apply on_signal_keeps_breaker.
  - congruence.
  - now rewrite reset_daily_tracking_breaker.
  - destruct (Py.gtb _ _); exact Hcb.
  - exact Hcb.
  - exact Hcb.
Qed.

Lemma run_keeps_breaker (ops : list Op) :
  forall w : World,
    circuit_breaker_active (rm w) = true ->
    ~ In ResetCircuitBreaker ops ->
    circuit_breaker_active (rm (run w ops)) = true.
Proof.
  induction ops as [|op ops IH]; intros w Hcb Hnot; [exact Hcb |].
  cbn [run fold_left]. apply IH.
  - apply step_keeps_breaker; [exact Hcb |].
    intros ->. apply Hnot. now left.
  - intros Hin. apply Hnot. now right.
Qed.

Lemma run_app (w : World) (pre post : list Op) :
  run w (pre ++ post) = run (run w pre) post.
Proof. unfold run. apply fold_left_app. Qed.

End RiskManagerProperties.

(** C3: once [circuit_breaker_active] is True, along every sequence of
    operations without [reset_circuit_breaker] -- signals, writes of a
    recovered portfolio value by the engine, daily resets, database changes --
    the flag stays True, and every non-CLOSE signal processed on the way
    publishes exactly one RiskAlert of severity CRITICAL (and no Order) and
    leaves the manager unchanged; an operation that turns the flag off is
    [reset_circuit_breaker], which does turn it off. *)
Theorem breaker_sticky :
  forall (w : RiskManager.World) (ops : list RiskManager.Op),
    RiskManager.circuit_breaker_active (RiskManager.rm w) = true ->
    ~ In RiskManager.ResetCircuitBreaker ops ->
    RiskManager.circuit_breaker_active
      (RiskManager.rm (RiskManager.run w ops)) = true
    /\ (forall (pre post : list RiskManager.Op) (env : RiskManager.Env)
               (signal : Events.SignalEvent),
          ops = pre ++ RiskManager.OnSignal env signal :: post ->
          Events.signal_type signal <> "CLOSE"%string ->
          let w' := RiskManager.run w pre in
          let alert :=
            RiskManager._create_risk_alert env (RiskManager.rm w') signal
              (Some Events.CircuitBreakerActive) "CRITICAL" in
          RiskManager._on_signal env signal w'
          = {| RiskManager.rm := RiskManager.rm w';
               RiskManager.db :=
                 RiskManager._log_risk_event (RiskManager.db w') alert;
               RiskManager.published :=
                 RiskManager.published w' ++ [Events.EvRiskAlert alert] |}
          /\ Events.severity alert = "CRITICAL"%string)
    /\ (forall op : RiskManager.Op,
          RiskManager.circuit_breaker_active
            (RiskManager.rm (RiskManager.step w op)) = false ->
          op = RiskManager.ResetCircuitBreaker)
    /\ RiskManager.circuit_breaker_active
         (RiskManager.rm (RiskManager.step w RiskManager.ResetCircuitBreaker))
       = false.
Proof.
  intros w ops Hcb Hnot. split; [| split; [| split]].
  - now apply run_keeps_breaker.
  - intros pre post env signal Hops Hty w' alert. split; [| reflexivity].
    apply on_signal_halted; [| exact Hty].
    apply run_keeps_breaker; [exact Hcb |].
    intros Hin. apply Hnot. rewrite Hops. apply in_or_app. now left.
  - intros op Hoff.
    pose proof (step_keeps_breaker w op Hcb) as Hon.
    destruct op as [env sg| |env|v|v|d]; [| reflexivity | | | |];
      exfalso; rewrite Hon in Hoff by discriminate; discriminate.
  - cbn. unfold RiskManager.reset_circuit_breaker. now rewrite Hcb.
Qed.

Lemma breaker_sticky_witness :
  RiskManager.circuit_breaker_active
    (RiskManager.rm (RiskManager.run Scenario.halted_world
                       Scenario.after_the_trip)) = true
  /\ exists alert,
       RiskManager.published
         (RiskManager._on_signal Scenario.env0 Scenario.buy_signal
            (RiskManager.run Scenario.halted_world
               (firstn 5 Scenario.after_the_trip)))
       = RiskManager.published
           (RiskManager.run Scenario.halted_world
              (firstn 5 Scenario.after_the_trip))
         ++ [Events.EvRiskAlert alert]
       /\ Events.severity alert = "CRITICAL"%string.
Proof.
  assert (Hnot : ~ In RiskManager.ResetCircuitBreaker Scenario.after_the_trip)
    by (cbn; intros H; repeat (destruct H as [H|H]; [discriminate |]); exact H).
  destruct (breaker_sticky Scenario.halted_world Scenario.after_the_trip
              eq_refl Hnot) as (Hfinal & Hsig & _).
  split; [exact Hfinal |].
  destruct (Hsig (firstn 5 Scenario.after_the_trip) [] Scenario.env0
              Scenario.buy_signal eq_refl) as [Heq Hsev];
    [intros H; discriminate H |].
  eexists. split; [rewrite Heq; reflexivity | exact Hsev].
Defined.

(** C4, as the code has it: for every signal whose type is CLOSE and whose
    price is not zero, the risk manager runs none of the four checks -- the
    manager (breaker flag, peak, cache) and the database are left as they
    were, whatever they are -- and publishes the Order built from the signal. *)
Theorem close_signal_bypasses_checks :
  forall (env : RiskManager.Env) (w : RiskManager.World)
         (signal : Events.SignalEvent),
    Events.signal_type signal = "CLOSE"%string ->
    ~ Events.sg_price signal == 0 ->
    exists order,
      RiskManager._create_order_event env (RiskManager.rm w) signal
      = Py.Ok order
      /\ Events.side order = "SELL"%string
      /\ RiskManager._on_signal env signal w
         = {| RiskManager.rm := RiskManager.rm w;
              RiskManager.db := RiskManager.db w;
              RiskManager.published :=
                RiskManager.published w ++ [Events.EvOrder order] |}.
Proof.
  intros env w signal Hty Hprice.
  rewrite on_signal_close by exact Hty.
  unfold RiskManager._create_order_event.
  rewrite div_ok by exact Hprice. rewrite Hty.
  eexists. split; [reflexivity | split; reflexivity].
Qed.

Lemma close_signal_bypasses_checks_witness :
  exists order,
    RiskManager.published
      (RiskManager._on_signal Scenario.env0 Scenario.close_signal
         Scenario.halted_world)
    = [Events.EvOrder order].
Proof.
  destruct (close_signal_bypasses_checks Scenario.env0 Scenario.halted_world
              Scenario.close_signal eq_refl) as (order & _ & _ & Heq).
  - cbn. intros H. discriminate H.
  - exists order. rewrite Heq. reflexivity.
Defined.

(** C4 as stated fails for EXIT: the source compares the signal type with
    'CLOSE' only, so an EXIT signal goes through the checks; with the breaker
    active it is rejected with a CRITICAL alert and no Order is published. *)
Lemma exit_signal_is_checked :
  Events.signal_type Scenario.exit_signal = "EXIT"%string
  /\ exists alert,
       RiskManager.published
         (RiskManager._on_signal Scenario.env0 Scenario.exit_signal
            Scenario.halted_world)
       = [Events.EvRiskAlert alert]
       /\ Events.severity alert = "CRITICAL"%string
       /\ Events.description alert = Some Events.CircuitBreakerActive.
Proof.
  split; [reflexivity |].
  eexists. split; [vm_compute; reflexivity | split; reflexivity].
Qed.

Section SignalOutcome.
Import Events RiskManager.

(** The rejection step publishes one alert and hands it to the log. *)
Lemma reject_spec (env : Env) (signal : SignalEvent)
    (reason : option Description) (sev : string) (w : World) :
  reject env signal reason sev w
  = ({| rm := rm w;
        db := _log_risk_event (db w)
                (_create_risk_alert env (rm w) signal reason sev);
        published :=
          published w
          ++ [EvRiskAlert (_create_risk_alert env (rm w) signal reason sev)]
     |}, Py.Ok tt).
Proof. destruct w. reflexivity. Qed.

(** With a working database the log gains the row of the alert. *)
Lemma log_risk_event_online (d : Storage.DatabaseManager)
    (alert : RiskAlertEvent) :
  Storage.online d = true ->
  Storage.risk_events (_log_risk_event d alert)
  = Storage.risk_events d
    ++ [ {| Storage.re_event_type := alert_type alert;
            Storage.re_severity := severity alert;
            Storage.re_description := description alert;
            Storage.re_symbol := ra_symbol alert;
            Storage.re_strategy_id := ra_strategy_id alert |} ].
Proof.
  intros H. unfold _log_risk_event, Storage.log_risk_event. now rewrite H.
Qed.

Lemma on_signal_try_outcome (env : Env) (signal : SignalEvent) (w : World) :
  Outcome w (_on_signal_try env signal w).
Proof.
  destruct w as [self d pub].
  unfold _on_signal_try.
  destruct (String.eqb (signal_type signal) "CLOSE").
  { unfold Py.bind, self_, Py.lift, publish, Py.modify. cbn [rm db published].
    destruct (_create_order_event env self signal) as [order|e].
    - now apply Approved with (order := order).
    - now apply Failed. }
  unfold Py.bind at 1. unfold check_circuit_breakers. cbn [rm db published].
  destruct (_check_circuit_breakers self) as [self1 [allowed reason]].
  destruct allowed; cbn [negb].
  2:{ rewrite reject_spec. now eapply Rejected. }
  unfold Py.bind at 1. unfold self_ at 1. cbn [rm db published].
  unfold Py.bind at 1. unfold Py.lift at 1.
  destruct (_check_position_risk self1 signal) as [[approved reason1]|e].
  2:{ now apply Failed. }
  destruct approved; cbn [negb].
  2:{ rewrite reject_spec. now eapply Rejected. }
  unfold Py.bind at 1. unfold check_symbol_risk. cbn [rm db published].
  destruct (_check_symbol_risk self1 d _ _) as [approved reason2].
  destruct approved; cbn [negb].
  2:{ rewrite reject_spec. now eapply Rejected. }
  unfold Py.bind at 1. unfold check_portfolio_risk. cbn [rm db published].
  destruct (_check_portfolio_risk env d self1 _) as [self2 [approved reason3]].
  destruct approved; cbn [negb].
  2:{ rewrite reject_spec. now eapply Rejected. }
  unfold Py.bind, self_, Py.lift, publish, Py.modify. cbn [rm db published].
  destruct (_create_order_event env self2 signal) as [order|e].
  - now apply Approved with (order := order).
  - now apply Failed.
Qed.

(** Every call of [_on_signal] publishes exactly one event, an Order or a
    RiskAlert. *)
Lemma on_signal_publishes_one (env : Env) (signal : SignalEvent) (w : World) :
  exists e,
    published (_on_signal env signal w) = published w ++ [e]
    /\ ((exists order, e = EvOrder order) \/ (exists alert, e = EvRiskAlert alert)).
Proof.
  unfold _on_signal, Py.try_except.
  destruct (on_signal_try_outcome env signal w)
    as [w' order _ Hp | w' alert _ Hp | w' e _ Hp]; cbn [fst].
  - eauto 6.
  - eauto 6.
  - unfold _on_signal_except, Py.bind, self_, publish, Py.modify.
    cbn [fst published]. rewrite Hp. eauto 6.
Qed.

(** A rejection decided by one of the four checks is handed to the log; a
    rejection caused by an exception is not: the database is the one the
    call started with. *)
Lemma on_signal_log (env : Env) (signal : SignalEvent) (w : World) :
  match snd (_on_signal_try env signal w) with
  | Py.Ok _ =>
      forall alert,
        published (_on_signal env signal w)
        = published w ++ [EvRiskAlert alert] ->
        db (_on_signal env signal w) = _log_risk_event (db w) alert
  | Py.Raise _ => db (_on_signal env signal w) = db w
  end.
Proof.
  unfold _on_signal, Py.try_except.
  destruct (on_signal_try_outcome env signal w)
    as [w' order Hd Hp | w' alert Hd Hp | w' e Hd Hp]; cbn [fst snd].
  - intros alert Ha. rewrite Hp in Ha. apply app_inv_head in Ha.
    discriminate.
  - intros alert' Ha. rewrite Hp in Ha. apply app_inv_head in Ha.
    injection Ha as <-. exact Hd.
  - unfold _on_signal_except, Py.bind, self_, publish, Py.modify.
    cbn [fst db]. exact Hd.
Qed.

End SignalOutcome.

(** C5 at the input where the code departs from it: a BUY signal with price
    0.0 and a stop-loss makes [_check_position_risk] divide by zero; the
    [except] block publishes one RiskAlert of severity HIGH and does not call
    [_log_risk_event], so the rejection is not in the risk-event log of a
    working database, where a rejection by the position check itself (the
    same signal without stop-loss) is. *)
Theorem exception_rejection_not_logged :
  (exists alert,
     RiskManager.published
       (RiskManager._on_signal Scenario.env0 Scenario.zero_price_buy
          Scenario.fresh_world) = [Events.EvRiskAlert alert]
     /\ Events.severity alert = "HIGH"%string
     /\ Events.description alert
        = Some (Events.ProcessingError Py.ZeroDivisionError))
  /\ Storage.online (RiskManager.db Scenario.fresh_world) = true
  /\ Storage.risk_events
       (RiskManager.db
          (RiskManager._on_signal Scenario.env0 Scenario.zero_price_buy
             Scenario.fresh_world)) = []
  /\ map Storage.re_severity
       (Storage.risk_events
          (RiskManager.db
             (RiskManager._on_signal Scenario.env0
                (Scenario.test_signal "BUY" 0 (Some 0.05) None)
                Scenario.fresh_world))) = ["HIGH"%string].
Proof.
  split; [| split; [| split]].
  - eexists. split; [vm_compute; reflexivity | split; reflexivity].
  - reflexivity.
  - vm_compute. reflexivity.
  - vm_compute. reflexivity.
Qed.

Section SymbolExposure.
Import Events RiskManager.

Lemma gtb_compat (x x' y y' : Q) :
  x == x' -> y == y' -> Py.gtb x y = Py.gtb x' y'.
Proof.
  intros Hx Hy.
  destruct (Py.gtb x y) eqn:H1; destruct (Py.gtb x' y') eqn:H2;
    try reflexivity.
  - apply gtb_gt in H1. apply gtb_le in H2. rewrite Hx, Hy in H1. lra.
  - apply gtb_le in H1. apply gtb_gt in H2. rewrite Hx, Hy in H1. lra.
Qed.

(** The accept/reject bit of the symbol check, as a function of the total
    it compares. *)
Lemma symbol_risk_decision_accepts (self : RiskManager)
    (result : list Storage.PositionRow) (new_exposure : Q) :
  fst (symbol_risk_decision self result new_exposure)
  = negb (Py.gtb
            (if Py.gtb (portfolio_value self) 0
             then (existing_exposure_of result + new_exposure)
                  / portfolio_value self
             else 0)
            (max_symbol_exposure self)).
Proof.
  unfold symbol_risk_decision. destruct (Py.gtb _ (max_symbol_exposure self));
    reflexivity.
Qed.

End SymbolExposure.

(** In exact arithmetic the symbol-level decision depends only on the total
    existing notional of the symbol: two states whose open positions in the
    symbol sum (quantity times entry price) to the same amount, with the same
    portfolio value, new-position value and limit, get the same outcome. *)
Lemma symbol_exposure_exact (self1 self2 : RiskManager.RiskManager)
    (db1 db2 : Storage.DatabaseManager) (symbol : string)
    (new1 new2 : Q) (rows1 rows2 : list Storage.PositionRow) :
  Storage.execute_query_open_by_symbol db1 symbol = Py.Ok rows1 ->
  Storage.execute_query_open_by_symbol db2 symbol = Py.Ok rows2 ->
  RiskManager.existing_exposure_of rows1
    == RiskManager.existing_exposure_of rows2 ->
  RiskManager.portfolio_value self1 == RiskManager.portfolio_value self2 ->
  RiskManager.max_symbol_exposure self1
    == RiskManager.max_symbol_exposure self2 ->
  new1 == new2 ->
  fst (RiskManager._check_symbol_risk self1 db1 symbol new1)
  = fst (RiskManager._check_symbol_risk self2 db2 symbol new2).
Proof.
  intros Hq1 Hq2 Hsum Hpv Hlim Hnew.
  unfold RiskManager._check_symbol_risk. rewrite Hq1, Hq2.
  rewrite !symbol_risk_decision_accepts. f_equal.
  rewrite (gtb_compat _ _ _ _ Hpv (Qeq_refl 0)).
  apply gtb_compat; [| exact Hlim].
  destruct (Py.gtb (RiskManager.portfolio_value self2) 0); [| reflexivity].
  rewrite Hsum, Hnew, Hpv. reflexivity.
Qed.




(** ** Performance calculator *)

Section Drawdown.
Import PerformanceCalculator.

Lemma days_later (d0 : Py.datetime) (k : Z) :
  days d0 (d0 + k * Scenario.day)%Z = k.
Proof.
  unfold days, Scenario.day.
  replace (d0 + k * 86400000000 - d0)%Z with (k * (86400 * 1000000))%Z by lia.
  apply Z.div_mul. discriminate.
Qed.

(** The drawdown of the six-day curve: the trough is the third point, the
    peak before it the first point, the recovery the fifth point. *)
Lemma max_drawdown_of_curve (d0 : Py.datetime) :
  exists pct dollars : Q,
    _calculate_max_drawdown (Scenario.drawdown_curve d0)
    = (pct, dollars, days d0 (d0 + 4 * Scenario.day)%Z)
    /\ pct == - (10 # 100) /\ dollars == - 10000.
Proof.
  unfold _calculate_max_drawdown.
  change (map snd (Scenario.drawdown_curve d0))
    with [100000; 95000; 90000; 95000; 100000; 105000].
  set (equity := [100000; 95000; 90000; 95000; 100000; 105000]).
  set (running_max := expanding_max equity).
  set (drawdown := zip_with Qminus equity running_max).
  set (drawdown_pct := zip_with Qdiv drawdown running_max).
  replace (Py.eqb (series_min drawdown_pct) 0) with false
    by (vm_compute; reflexivity).
  replace (idxmin drawdown_pct) with 2%nat by (vm_compute; reflexivity).
  replace (idxmax (firstn 3 running_max)) with 0%nat
    by (vm_compute; reflexivity).
  replace (find_index (fun v => Py.geb v (nth 2 running_max 0))
             (skipn 2 equity))
    with (Some 2%nat) by (vm_compute; reflexivity).
  cbn [label nth map fst Scenario.drawdown_curve Nat.add].
  eexists. eexists. split; [reflexivity |].
  split; vm_compute; reflexivity.
Qed.

End Drawdown.

(** C7, as the code has it: for initial capital 100000 and the equity curve
    [(d0,100000),(d1,95000),(d2,90000),(d3,95000),(d4,100000),(d5,105000)] on
    consecutive days, the reported maximum drawdown is -10% (-10000 in money)
    and the reported duration is the number of days from the peak d0 to the
    recovery d4, which is 4. *)
Theorem max_drawdown_scenario :
  forall (calc_returns :
            PerformanceCalculator.PerformanceCalculator ->
            PerformanceCalculator.Series -> PerformanceCalculator.ReturnsMetrics)
         (calc_risk :
            PerformanceCalculator.PerformanceCalculator ->
            PerformanceCalculator.Series ->
            PerformanceCalculator.RiskAdjustedMetrics)
         (calc_monthly :
            PerformanceCalculator.PerformanceCalculator ->
            PerformanceCalculator.Series -> PerformanceCalculator.MonthlyMetrics)
         (d0 : Py.datetime),
    let m :=
      PerformanceCalculator.drawdown
        (PerformanceCalculator.calculate_all calc_returns calc_risk
           calc_monthly (Scenario.drawdown_calculator d0)) in
    PerformanceCalculator.max_drawdown_pct m == - (10 # 100)
    /\ PerformanceCalculator.max_drawdown m == - 10000
    /\ PerformanceCalculator.max_dd_duration_days m
       = PerformanceCalculator.days d0 (d0 + 4 * Scenario.day)%Z
    /\ PerformanceCalculator.max_dd_duration_days m = 4%Z.
Proof.
  intros f g h d0 m. subst m.
  unfold PerformanceCalculator.calculate_all.
  cbn [PerformanceCalculator.equity_curve Scenario.drawdown_calculator
       Scenario.drawdown_curve length Nat.ltb Nat.leb
       PerformanceCalculator.drawdown].
  fold (Scenario.drawdown_curve d0).
  unfold PerformanceCalculator._calculate_drawdown.
  destruct (max_drawdown_of_curve d0) as (pct & dollars & -> & Hp & Hd).
  cbn [PerformanceCalculator.max_drawdown_pct
       PerformanceCalculator.max_drawdown
       PerformanceCalculator.max_dd_duration_days].
  repeat split; try assumption. apply days_later.
Qed.

(** C7 as stated fails on the duration: the code measures from the peak, not
    from the trough.  With d0 = 2023-01-01 the reported duration is 4 days,
    and the number of days from d2 to d4 is 2. *)
Lemma drawdown_duration_is_not_trough_to_recovery :
  PerformanceCalculator.max_dd_duration_days
    (PerformanceCalculator._calculate_drawdown
       (Scenario.drawdown_curve Scenario.t2023)) = 4%Z
  /\ PerformanceCalculator.days (Scenario.t2023 + 2 * Scenario.day)%Z
       (Scenario.t2023 + 4 * Scenario.day)%Z = 2%Z
  /\ PerformanceCalculator.max_dd_duration_days
       (PerformanceCalculator.drawdown
          (PerformanceCalculator.calculate_all Scenario.returns_stub
             Scenario.risk_stub Scenario.monthly_stub
             (Scenario.drawdown_calculator Scenario.t2023)))
     <> PerformanceCalculator.days (Scenario.t2023 + 2 * Scenario.day)%Z
          (Scenario.t2023 + 4 * Scenario.day)%Z.
Proof.
  split; [vm_compute; reflexivity |].
  split; [vm_compute; reflexivity |].
  vm_compute. discriminate.
Qed.



(** ** Event bus *)

Section EventBusProperties.
Import Events EventBus.

Variable W : Type.

Lemma published_in_app (l1 l2 : list Action) :
  published_in (l1 ++ l2) = published_in l1 ++ published_in l2.
Proof. apply flat_map_app. Qed.

Lemma dispatched_in_app (l1 l2 : list Action) :
  dispatched_in (l1 ++ l2) = dispatched_in l1 ++ dispatched_in l2.
Proof. apply flat_map_app. Qed.

Lemma calls_in_app (l1 l2 : list Action) :
  calls_in (l1 ++ l2) = calls_in l1 ++ calls_in l2.
Proof. apply flat_map_app. Qed.

Lemma calls_owed_app (b : EventBus W) (l1 l2 : list Event) :
  calls_owed b (l1 ++ l2) = calls_owed b l1 ++ calls_owed b l2.
Proof. apply flat_map_app. Qed.

Lemma extend_history_nil (h : option (list Event)) :
  extend_history h [] = h.
Proof. destruct h; cbn; [now rewrite app_nil_r | reflexivity]. Qed.

Lemma extend_history_app (h : option (list Event)) (l1 l2 : list Event) :
  extend_history (extend_history h l1) l2 = extend_history h (l1 ++ l2).
Proof. destruct h; cbn; [now rewrite app_assoc | reflexivity]. Qed.

(** Normalises the projections of an extended log. *)
Ltac log_simpl :=
  rewrite ?published_in_app, ?dispatched_in_app, ?calls_in_app, ?app_nil_r,
    ?extend_history_nil.

Lemma progress_refl (s : System W) : Progress s s [] [] [].
Proof.
  split; rewrite ?app_nil_r, ?extend_history_nil; reflexivity.
Qed.

Lemma progress_trans (s1 s2 s3 : System W) (e1 e2 h1 h2 : list Event)
    (c1 c2 : list (string * Event)) :
  Progress s1 s2 e1 h1 c1 -> Progress s2 s3 e2 h2 c2 ->
  Progress s1 s3 (e1 ++ e2) (h1 ++ h2) (c1 ++ c2).
Proof.
  intros [S1 M1 H1 P1 D1 C1] [S2 M2 H2 P2 D2 C2]. split.
  - now rewrite S2.
  - now rewrite M2.
  - now rewrite H2, H1, extend_history_app.
  - now rewrite P2, P1, app_assoc.
  - now rewrite D2, D1, app_assoc.
  - now rewrite C2, C1, app_assoc.
Qed.

Lemma publish_progress (event : Event) (s : System W) :
  Progress s (publish event s) [event] [] []
  /\ event_queue (bus (publish event s)) = event_queue (bus s) ++ [event]
  /\ world (publish event s) = world s.
Proof.
  split; [| split; reflexivity].
  split; cbn [publish publish_bus bus log subscribers mode event_history];
    log_simpl;
    reflexivity.
Qed.

Lemma publish_all_progress (events : list Event) :
  forall s : System W,
    Progress s (fold_left (fun s' ev => publish ev s') events s) events [] []
    /\ event_queue (bus (fold_left (fun s' ev => publish ev s') events s))
       = event_queue (bus s) ++ events.
Proof.
  induction events as [|ev events IH]; intros s; cbn [fold_left].
  - split; [apply progress_refl | now rewrite app_nil_r].
  - destruct (IH (publish ev s)) as [Hp Hq].
    destruct (publish_progress ev s) as (Hp1 & Hq1 & _).
    split.
    + apply (progress_trans _ _ _ _ _ _ _ _ _ Hp1 Hp).
    + rewrite Hq, Hq1, <- app_assoc. reflexivity.
Qed.

(** One handler call: the call is made whether or not it raises, its
    events go to the back of the queue. *)
Lemma call_handler_progress (event : Event) (s : System W) (handler : Handler W) :
  exists events,
    Progress s (call_handler event s handler) events []
      [(__name__ handler, event)]
    /\ event_queue (bus (call_handler event s handler))
       = event_queue (bus s) ++ events.
Proof.
  unfold call_handler.
  destruct (call handler event (world s)) as [[w' events] raised].
  exists events.
  set (s1 := {| bus := bus s; world := w';
                log := log s ++ [Called (__name__ handler) event raised] |}).
  destruct (publish_all_progress events s1) as [Hp Hq].
  assert (H1 : Progress s s1 [] [] [(__name__ handler, event)]).
  { split; cbn [s1 bus log];
      log_simpl;
      reflexivity. }
  split; [exact (progress_trans _ _ _ _ _ _ _ _ _ H1 Hp) | exact Hq].
Qed.

Lemma dispatch_progress (event : Event) (handlers : list (Handler W)) :
  forall s : System W,
    exists events,
      Progress s (fold_left (call_handler event) handlers s) events []
        (map (fun h => (__name__ h, event)) handlers)
      /\ event_queue (bus (fold_left (call_handler event) handlers s))
         = event_queue (bus s) ++ events.
Proof.
  induction handlers as [|h handlers IH]; intros s; cbn [fold_left map].
  - exists []. split; [apply progress_refl | now rewrite app_nil_r].
  - destruct (call_handler_progress event s h) as (e1 & Hp1 & Hq1).
    destruct (IH (call_handler event s h)) as (e2 & Hp2 & Hq2).
    exists (e1 ++ e2). split.
    + exact (progress_trans _ _ _ _ _ _ _ _ _ Hp1 Hp2).
    + rewrite Hq2, Hq1, <- app_assoc. reflexivity.
Qed.

Lemma get_nowait_progress (s : System W) (event : Event) (rest : list Event) :
  Progress s (get_nowait s event rest) [] [event] [].
Proof.
  split; cbn [get_nowait bus log subscribers mode event_history];
    log_simpl;
    reflexivity.
Qed.

Lemma calls_owed_same (b b' : EventBus W) (events : list Event) :
  subscribers b' = subscribers b -> calls_owed b' events = calls_owed b events.
Proof. intros H. unfold calls_owed. now rewrite H. Qed.

(** A drain that returns has emptied the queue; it handled the events that
    were queued and then, in the order of their publication, the events
    published meanwhile; and it made every call these events owe. *)
Lemma process_events_progress (fuel : nat) :
  forall s s' : System W,
    process_events fuel s = Some s' ->
    event_queue (bus s') = []
    /\ exists newly,
         Progress s s' newly (event_queue (bus s) ++ newly)
           (calls_owed (bus s) (event_queue (bus s) ++ newly)).
Proof.
  induction fuel as [|fuel IH]; intros s s' Hrun.
  - cbn in Hrun. destruct (event_queue (bus s)) eqn:Hq; [| discriminate].
    injection Hrun as <-. split; [exact Hq |].
    exists []. apply progress_refl.
  - cbn [process_events] in Hrun.
    destruct (event_queue (bus s)) as [|event rest] eqn:Hq.
    { injection Hrun as <-. split; [exact Hq |].
      exists []. apply progress_refl. }
    set (s1 := get_nowait s event rest) in *.
    unfold _dispatch_event in Hrun.
    destruct (dispatch_progress event (subscribers (bus s1) (type event)) s1)
      as (e1 & Hp1 & Hq1).
    set (s2 := fold_left (call_handler event) _ s1) in *.
    destruct (IH s2 s' Hrun) as (Hempty & e2 & Hp2).
    split; [exact Hempty |].
    exists (e1 ++ e2).
    pose proof (get_nowait_progress s event rest) as Hp0. fold s1 in Hp0.
    pose proof (progress_trans _ _ _ _ _ _ _ _ _
                  (progress_trans _ _ _ _ _ _ _ _ _ Hp0 Hp1) Hp2) as Hp.
    cbn [app] in Hp.
    rewrite Hq1 in Hp. cbn [s1 get_nowait bus event_queue] in Hp.
    rewrite (calls_owed_same (bus s) (bus s2)) in Hp
      by (rewrite (pr_subscribers _ _ _ _ _ Hp1); reflexivity).
    replace ((event :: rest) ++ e1 ++ e2)
      with (event :: (rest ++ e1) ++ e2)
      by (cbn; now rewrite <- app_assoc).
    cbn [calls_owed flat_map]. fold (calls_owed (bus s) ((rest ++ e1) ++ e2)).
    exact Hp.
Qed.

(** More fuel does not change the result of a drain. *)
Lemma process_events_more_fuel (fuel : nat) :
  forall (s s' : System W) (extra : nat),
    process_events fuel s = Some s' ->
    process_events (fuel + extra) s = Some s'.
Proof.
  induction fuel as [|fuel IH]; intros s s' extra Hrun.
  - cbn in Hrun. destruct (event_queue (bus s)) eqn:Hq; [| discriminate].
    destruct extra; cbn; now rewrite Hq.
  - cbn [process_events Nat.add] in *.
    destruct (event_queue (bus s)); [exact Hrun |].
    now apply IH.
Qed.

Lemma dispatch_silent (event : Event) (handlers : list (Handler W)) :
  forall s : System W,
    (forall h e w, In h handlers -> snd (fst (call h e w)) = []) ->
    bus (fold_left (call_handler event) handlers s) = bus s.
Proof.
  induction handlers as [|h handlers IH]; intros s Hs; cbn [fold_left];
    [reflexivity |].
  rewrite IH by (intros h' e w Hin; apply Hs; now right).
  unfold call_handler.
  pose proof (Hs h event (world s) (or_introl eq_refl)) as He.
  destruct (call h event (world s)) as [[w' events] raised].
  cbn in He. subst events. reflexivity.
Qed.

Lemma process_events_silent (queue : list Event) :
  forall s : System W,
    silent (bus s) ->
    event_queue (bus s) = queue ->
    exists s', process_events (length queue) s = Some s'.
Proof.
  induction queue as [|event rest IH]; intros s Hs Hq.
  - cbn. rewrite Hq. eauto.
  - cbn [length process_events]. rewrite Hq.
    apply IH.
    + unfold _dispatch_event. rewrite dispatch_silent.
      * exact Hs.
      * intros h e w Hin. apply (Hs (type event)). exact Hin.
    + unfold _dispatch_event. rewrite dispatch_silent.
      * reflexivity.
      * intros h e w Hin. apply (Hs (type event)). exact Hin.
Qed.

(** What one call adds to the queue is what the handler published. *)
Lemma call_handler_outputs (event : Event) (s : System W) (h : Handler W) :
  event_queue (bus (call_handler event s h))
  = event_queue (bus s) ++ snd (fst (call h event (world s)))
  /\ subscribers (bus (call_handler event s h)) = subscribers (bus s).
Proof.
  unfold call_handler.
  destruct (call h event (world s)) as [[w' events] raised]. cbn [fst snd].
  set (s1 := {| bus := bus s; world := w';
                log := log s ++ [Called (__name__ h) event raised] |}).
  destruct (publish_all_progress events s1) as [Hp Hq].
  split; [exact Hq | exact (pr_subscribers _ _ _ _ _ Hp)].
Qed.

(** What one dispatch adds to the queue comes from the handlers called. *)
Lemma dispatch_outputs (P : Event -> Prop) (event : Event)
    (handlers : list (Handler W)) :
  forall s : System W,
    (forall h w e', In h handlers -> In e' (snd (fst (call h event w))) -> P e') ->
    exists events,
      event_queue (bus (fold_left (call_handler event) handlers s))
      = event_queue (bus s) ++ events
      /\ subscribers (bus (fold_left (call_handler event) handlers s))
         = subscribers (bus s)
      /\ Forall P events.
Proof.
  induction handlers as [|h handlers IH]; intros s HP; cbn [fold_left].
  - exists []. rewrite app_nil_r. auto.
  - destruct (IH (call_handler event s h)) as (e2 & Hq2 & Hs2 & HP2).
    { intros h' w e' Hin. apply HP. now right. }
    destruct (call_handler_outputs event s h) as [Hq1 Hs1].
    exists (snd (fst (call h event (world s))) ++ e2). split; [| split].
    + rewrite Hq2, Hq1. now rewrite app_assoc.
    + now rewrite Hs2.
    + apply Forall_app. split; [| exact HP2].
      apply Stdlib.Lists.List.Forall_forall. intros e' Hin.
      apply (HP h (world s)); [now left | exact Hin].
Qed.

Lemma process_events_step (s : System W) (event : Event) (rest : list Event)
    (fuel : nat) :
  event_queue (bus s) = event :: rest ->
  process_events (S fuel) s
  = process_events fuel (_dispatch_event event (get_nowait s event rest)).
Proof. intros Hq. cbn [process_events]. now rewrite Hq. Qed.

(** A drain over descending subscribers returns: by induction on a bound of
    the ranks in the queue and, for each bound, on the front part of the
    queue that may still reach it. *)
Lemma process_events_descending (rank : Event -> nat) (n : nat) :
  forall s : System W,
    descending rank (bus s) ->
    Forall (fun e => (rank e < n)%nat) (event_queue (bus s)) ->
    exists fuel s', process_events fuel s = Some s'.
Proof.
  induction n as [|n IHn]; intros s Hdesc Hall.
  - destruct (event_queue (bus s)) as [|e q] eqn:Hq.
    + exists O, s. cbn. now rewrite Hq.
    + inversion Hall; lia.
  - assert (Hfront :
      forall (front back : list Event) (s : System W),
        descending rank (bus s) ->
        event_queue (bus s) = front ++ back ->
        Forall (fun e => (rank e < S n)%nat) front ->
        Forall (fun e => (rank e < n)%nat) back ->
        exists fuel s', process_events fuel s = Some s').
    { clear s Hdesc Hall.
      induction front as [|e front IHf]; intros back s Hdesc Hq Hf Hb.
      - apply IHn; [exact Hdesc | now rewrite Hq].
      - inversion Hf as [|? ? He Hf']; subst.
        cbn [app] in Hq.
        set (s1 := get_nowait s e (front ++ back)).
        destruct (dispatch_outputs (fun e' => (rank e' < n)%nat) e
                    (subscribers (bus s1) (type e)) s1)
          as (evs & Hq2 & Hs2 & Hevs).
        { intros h w e' Hin Hout.
          pose proof (Hdesc h e w e' Hin Hout). lia. }
        destruct (IHf (back ++ evs) (_dispatch_event e s1))
          as (fuel & s' & Hrun).
        + unfold _dispatch_event. unfold descending. rewrite Hs2. exact Hdesc.
        + unfold _dispatch_event. rewrite Hq2. cbn [s1 get_nowait bus event_queue].
          now rewrite app_assoc.
        + exact Hf'.
        + apply Forall_app. now split.
        + exists (S fuel), s'. rewrite (process_events_step s e (front ++ back))
            by exact Hq. exact Hrun. }
    apply (Hfront (event_queue (bus s)) [] s Hdesc).
    + now rewrite app_nil_r.
    + exact Hall.
    + constructor.
Qed.

End EventBusProperties.

(** C6: [publish] only appends the event to the queue (and to the history,
    which exists exactly in backtest mode): it calls no handler and leaves the
    components as they are.  A drain that returns has emptied the queue; it
    dispatched, first to last, the events that were queued and then the events
    published during the drain, in the order of their publication, and it
    called every handler subscribed to the type of each of them, in
    subscription order, whether or not earlier handlers raised.  When no
    subscriber publishes, the drain returns after one iteration per queued
    event; when every subscriber publishes only events of a lower rank than
    the one it handles (a cascade Signal -> Order -> Fill -> PositionUpdate),
    the drain returns. *)
Theorem publish_enqueues_drain_dispatches :
  forall W : Type,
    (forall (s : EventBus.System W) (event : Events.Event),
       EventBus.event_queue (EventBus.bus (EventBus.publish event s))
       = EventBus.event_queue (EventBus.bus s) ++ [event]
       /\ EventBus.event_history (EventBus.bus (EventBus.publish event s))
          = EventBus.extend_history (EventBus.event_history (EventBus.bus s))
              [event]
       /\ EventBus.world (EventBus.publish event s) = EventBus.world s
       /\ EventBus.calls_in (EventBus.log (EventBus.publish event s))
          = EventBus.calls_in (EventBus.log s)
       /\ EventBus.dispatched_in (EventBus.log (EventBus.publish event s))
          = EventBus.dispatched_in (EventBus.log s))
    /\ (forall mode : string,
          EventBus.event_history (EventBus.__init__ (W := W) mode)
          = if String.eqb mode "backtest" then Some [] else None)
    /\ (forall (fuel : nat) (s s' : EventBus.System W),
          EventBus.process_events fuel s = Some s' ->
          EventBus.event_queue (EventBus.bus s') = []
          /\ exists newly : list Events.Event,
               EventBus.published_in (EventBus.log s')
               = EventBus.published_in (EventBus.log s) ++ newly
               /\ EventBus.dispatched_in (EventBus.log s')
                  = EventBus.dispatched_in (EventBus.log s)
                    ++ EventBus.event_queue (EventBus.bus s) ++ newly
               /\ EventBus.calls_in (EventBus.log s')
                  = EventBus.calls_in (EventBus.log s)
                    ++ EventBus.calls_owed (EventBus.bus s)
                         (EventBus.event_queue (EventBus.bus s) ++ newly)
               /\ EventBus.event_history (EventBus.bus s')
                  = EventBus.extend_history
                      (EventBus.event_history (EventBus.bus s)) newly)
    /\ (forall s : EventBus.System W,
          EventBus.silent (EventBus.bus s) ->
          exists s',
            EventBus.process_events
              (length (EventBus.event_queue (EventBus.bus s))) s = Some s')
    /\ (forall (rank : Events.Event -> nat) (s : EventBus.System W),
          EventBus.descending rank (EventBus.bus s) ->
          exists fuel s', EventBus.process_events fuel s = Some s').
Proof.
  intros W. split; [| split; [| split; [| split]]].
  - intros s event.
    destruct (publish_progress W event s) as ([_ _ Hh _ Hd Hc] & Hq & Hw).
    rewrite app_nil_r in Hd, Hc. repeat split; assumption.
  - intros mode. reflexivity.
  - intros fuel s s' Hrun.
    destruct (process_events_progress W fuel s s' Hrun)
      as (Hempty & newly & [_ _ Hh Hp Hd Hc]).
    split; [exact Hempty |]. exists newly. repeat split; assumption.
  - intros s Hs. now apply process_events_silent.
  - intros rank s Hdesc.
    set (n := S (list_max (map rank (EventBus.event_queue (EventBus.bus s))))).
    apply (process_events_descending W rank n s Hdesc).
    apply Stdlib.Lists.List.Forall_forall. intros e Hin.
    pose proof (proj1 (list_max_le (map rank (EventBus.event_queue
                                                 (EventBus.bus s)))
                         (list_max (map rank (EventBus.event_queue
                                                (EventBus.bus s)))))
                  (Nat.le_refl _)) as Hmax.
    rewrite Stdlib.Lists.List.Forall_forall in Hmax.
    specialize (Hmax (rank e) (in_map rank _ e Hin)). subst n. lia.
Qed.

Lemma publish_enqueues_drain_dispatches_witness :
  exists s',
    EventBus.process_events 6 Scenario.wired_system = Some s'
    /\ EventBus.event_queue (EventBus.bus s') = []
    /\ map Events.type (EventBus.dispatched_in (EventBus.log s'))
       = [Events.SIGNAL; Events.SIGNAL; Events.ORDER; Events.RISK_ALERT;
          Events.FILL]
    /\ map fst (EventBus.calls_in (EventBus.log s'))
       = ["faulty"; "_on_signal"; "faulty"; "_on_signal"; "_on_order";
          "record"; "record"]%string.
Proof.
  assert (Hd : option_map
                 (fun s' => map Events.type
                              (EventBus.dispatched_in (EventBus.log s')))
                 (EventBus.process_events 6 Scenario.wired_system)
               = Some [Events.SIGNAL; Events.SIGNAL; Events.ORDER;
                       Events.RISK_ALERT; Events.FILL])
    by (vm_compute; reflexivity).
  assert (Hc : option_map
                 (fun s' => map fst (EventBus.calls_in (EventBus.log s')))
                 (EventBus.process_events 6 Scenario.wired_system)
               = Some ["faulty"; "_on_signal"; "faulty"; "_on_signal";
                       "_on_order"; "record"; "record"]%string)
    by (vm_compute; reflexivity).
  destruct (EventBus.process_events 6 Scenario.wired_system) as [s'|] eqn:Hrun;
    [| discriminate Hd].
  exists s'. split; [reflexivity |].
  split.
  - exact (proj1 (proj1 (proj2 (proj2
             (publish_enqueues_drain_dispatches RiskManager.World)))
             6%nat Scenario.wired_system s' Hrun)).
  - cbn [option_map] in Hd, Hc.
    injection Hd as Hd. injection Hc as Hc. split; assumption.
Defined.

(** The risk manager, the order subscriber and the recorders only publish
    downstream, so every drain of the wired bus returns. *)
Lemma wired_bus_descending :
  EventBus.descending Scenario.pipeline_rank Scenario.wired_bus.
Proof.
  intros h e w e' Hin Hout.
  destruct e as [m|sg|o|f|u|a]; cbn in Hin.
  - contradiction.
  - destruct Hin as [<-|[<-|[]]]; cbn in Hout; [contradiction |].
    destruct (on_signal_publishes_one Scenario.env0 sg
                {| RiskManager.rm := RiskManager.rm w;
                   RiskManager.db := RiskManager.db w;
                   RiskManager.published := [] |})
      as (e0 & Hp & Hkind).
    rewrite Hp in Hout. cbn in Hout. destruct Hout as [<-|[]].
    destruct Hkind as [[order ->]|[alert ->]]; cbn; lia.
  - destruct Hin as [<-|[<-|[]]]; cbn in Hout; [| contradiction].
    destruct Hout as [<-|[]]. cbn. lia.
  - destruct Hin as [<-|[]]. cbn in Hout. contradiction.
  - contradiction.
  - contradiction.
Qed.

Lemma wired_system_drains :
  exists fuel s', EventBus.process_events fuel Scenario.wired_system = Some s'.
Proof.
  apply (process_events_descending RiskManager.World Scenario.pipeline_rank 4).
  - exact wired_bus_descending.
  - repeat constructor.
Qed.

Section SignalDecisionTree.
Import Events RiskManager.


End SignalDecisionTree.

(* ===================================================================== *)
(** * Further properties of the code                                      *)
(* ===================================================================== *)

(** ** Position: composition of its methods *)

(** X2: [close] is idempotent on every position: a second call changes no
    field and returns what the first call returned, whatever price, time and
    commission it is given. *)
Theorem close_twice :
  forall (p : Position.Position) (e1 e2 : Q) (t1 t2 : Py.datetime) (c1 c2 : Q),
    Position.close (fst (Position.close p e1 t1 c1)) e2 t2 c2
    = Position.close p e1 t1 c1.
Proof.
  intros p e1 e2 t1 t2 c1 c2.
  rewrite close_idempotent.
  unfold Position.close.
  destruct (String.eqb (Position.status p) "CLOSED"); reflexivity.
Qed.

(** X3: with the stop below the target for a LONG (above it for a SHORT), no
    price triggers both the stop-loss and the take-profit of an open
    position, and a price strictly between the two triggers neither. *)
Theorem stop_and_target_exclusive :
  forall (p : Position.Position) (sl tp price : Q),
    Position.status p = "OPEN"%string ->
    Position.stop_loss p = Some sl ->
    Position.take_profit p = Some tp ->
    (if String.eqb (Position.side p) "LONG" then sl < tp else tp < sl) ->
    (Position.should_stop_loss p price && Position.should_take_profit p price
     = false)
    /\ ((if String.eqb (Position.side p) "LONG"
         then sl < price /\ price < tp else tp < price /\ price < sl) ->
        Position.should_stop_loss p price = false
        /\ Position.should_take_profit p price = false).
Proof.
  intros p sl tp price Hs Hsl Htp Hord.
  unfold Position.should_stop_loss, Position.should_take_profit.
  rewrite Hsl, Htp, Hs. cbn [String.eqb Ascii.eqb Bool.eqb negb].
  unfold Py.geb.
  destruct (String.eqb (Position.side p) "LONG"); split.
  - destruct (Py.leb price sl) eqn:H1; [| reflexivity].
    destruct (Py.leb tp price) eqn:H2; [| reflexivity].
    apply leb_le in H1, H2. lra.
  - intros [Ha Hb]. split; apply not_true_is_false; intros H;
      apply leb_le in H; lra.
  - destruct (Py.leb sl price) eqn:H1; [| reflexivity].
    destruct (Py.leb price tp) eqn:H2; [| reflexivity].
    apply leb_le in H1, H2. lra.
  - intros [Ha Hb]. split; apply not_true_is_false; intros H;
      apply leb_le in H; lra.
Qed.

Lemma stop_and_target_exclusive_witness :
  Position.should_stop_loss
    (PositionReturns.update_stops Scenario.long_btc (Some 49000) (Some 52000))
    50000 = false
  /\ Position.should_take_profit
       (PositionReturns.update_stops Scenario.long_btc (Some 49000)
          (Some 52000))
       50000 = false.
Proof.
  apply (stop_and_target_exclusive
           (PositionReturns.update_stops Scenario.long_btc (Some 49000)
              (Some 52000))
           49000 52000 50000 eq_refl eq_refl eq_refl).
  - cbn. lra.
  - cbn. lra.
Defined.

(** X4: [get_return_pct] never divides by zero: it returns for every
    position, and returns 0 when the entry price or the cost basis is 0;
    otherwise it returns the position's P&L, unrealized while OPEN and
    realized afterwards, divided by the cost basis, times 100. *)
Theorem return_pct_total :
  forall p : Position.Position,
    (exists r, PositionReturns.get_return_pct p = Py.Ok r)
    /\ (Position.entry_price p * Position.quantity p == 0 ->
        PositionReturns.get_return_pct p = Py.Ok 0)
    /\ (~ Position.entry_price p * Position.quantity p == 0 ->
        PositionReturns.get_return_pct p
        = Py.Ok ((if String.eqb (Position.status p) "OPEN"
                  then Position.pnl_unrealized p
                  else Position.pnl_realized p)
                 / (Position.entry_price p * Position.quantity p) * 100)).
Proof.
  intros p. split; [| split].
  - unfold PositionReturns.get_return_pct.
    destruct (Py.eqb (Position.entry_price p) 0); [eauto |].
    destruct (Py.eqb (Position.entry_price p * Position.quantity p) 0) eqn:Hc;
      [eauto |].
    apply eqb_neq in Hc.
    rewrite !div_ok by exact Hc.
    destruct (String.eqb (Position.status p) "OPEN"); eauto.
  - intros Hz. unfold PositionReturns.get_return_pct.
    destruct (Py.eqb (Position.entry_price p) 0); [reflexivity |].
    apply eqb_eq in Hz. now rewrite Hz.
  - intros Hcost.
    assert (He : ~ Position.entry_price p == 0)
      by (intros H; apply Hcost; rewrite H; lra).
    unfold PositionReturns.get_return_pct.
    apply eqb_neq in He. rewrite He.
    apply eqb_neq in Hcost as Hcost'. rewrite Hcost'.
    rewrite !div_ok by exact Hcost.
    destruct (String.eqb (Position.status p) "OPEN"); reflexivity.
Qed.

Lemma return_pct_total_witness :
  PositionReturns.get_return_pct
    (fst (Position.close Scenario.long_btc 52000 Scenario.t2023 312))
  = Py.Ok (Position.pnl_realized
             (fst (Position.close Scenario.long_btc 52000 Scenario.t2023 312))
           / (50000 * 1) * 100).
Proof.
  apply (proj2 (proj2 (return_pct_total
                         (fst (Position.close Scenario.long_btc 52000
                                 Scenario.t2023 312))))).
  intros H. discriminate H.
Defined.

(** ** Execution engine: bounds of the slippage, commission, order handler *)

Section SlippageBounds.
Import Events ExecutionEngine.

Lemma slippage_capped (self : ExecutionEngine) (order : OrderEvent)
    (base_price : Q) (bar : Bar) (s : Q) :
  _calculate_slippage self order base_price bar = Py.Ok s ->
  s <= base_price * 0.02.
Proof.
  unfold _calculate_slippage.
  destruct (volume_slippage_of _ _ _ _) as [v|e]; [| discriminate].
  intros [= <-]. apply Q.le_min_r.
Qed.

(** The share of the bar's traded value that the order takes grows with the
    order value. *)
Lemma volume_share_monotone (bvv ov1 ov2 : Q) :
  0 <= ov1 -> ov1 <= ov2 ->
  ~ Qmax bvv ov1 == 0 -> ~ Qmax bvv ov2 == 0 ->
  ov1 / Qmax bvv ov1 <= ov2 / Qmax bvv ov2.
Proof.
  intros H0 H12 Hm1 Hm2.
  assert (P1 : 0 < Qmax bvv ov1).
  { pose proof (Q.le_max_r bvv ov1).
    destruct (Qlt_le_dec 0 (Qmax bvv ov1)); [assumption |].
    exfalso. apply Hm1. lra. }
  assert (P2 : 0 < Qmax bvv ov2).
  { pose proof (Q.le_max_r bvv ov2).
    destruct (Qlt_le_dec 0 (Qmax bvv ov2)); [assumption |].
    exfalso. apply Hm2. lra. }
  apply Qle_shift_div_l; [exact P2 |].
  assert (Hgoal : ov1 * Qmax bvv ov2 <= ov2 * Qmax bvv ov1).
  { destruct (Q.max_spec bvv ov1) as [[Ha Ea]|[Ha Ea]];
      destruct (Q.max_spec bvv ov2) as [[Hb Eb]|[Hb Eb]];
      rewrite Ea, Eb; rewrite Ea in P1; rewrite Eb in P2.
    - lra.
    - lra.
    - assert (0 <= (bvv - ov1) * ov2) by (apply Qmult_le_0_compat; lra). lra.
    - assert (0 <= (ov2 - ov1) * bvv) by (apply Qmult_le_0_compat; lra).
      lra. }
  unfold Qdiv. rewrite <- Qmult_assoc, (Qmult_comm (/ _)), Qmult_assoc.
  apply Qle_shift_div_r; [exact P1 | exact Hgoal].
Qed.

End SlippageBounds.

(** X5: the slippage is capped: whenever the fill price computation returns,
    a BUY fills at no more than 1.02 times the bar's high and any other order
    at no less than 0.98 times the bar's low, for every bar and every
    configuration. *)
Theorem fill_price_within_two_percent :
  forall (self : ExecutionEngine.ExecutionEngine) (order : Events.OrderEvent)
         (bar : ExecutionEngine.Bar) (p : Q),
    ExecutionEngine._calculate_fill_price self order bar = Py.Ok p ->
    (Events.side order = "BUY"%string ->
     p <= ExecutionEngine.high bar * 1.02)
    /\ (Events.side order <> "BUY"%string ->
        ExecutionEngine.low bar * 0.98 <= p).
Proof.
  intros self order bar p Hp.
  unfold ExecutionEngine._calculate_fill_price in Hp.
  destruct (ExecutionEngine._calculate_slippage self order _ bar)
    as [s|e] eqn:Hs; [| discriminate].
  apply slippage_capped in Hs.
  unfold ExecutionEngine.base_price_of in Hs, Hp.
  split; intros Hside.
  - rewrite Hside in Hp, Hs. cbn in Hp, Hs. injection Hp as <-. lra.
  - apply String.eqb_neq in Hside. rewrite Hside in Hp, Hs.
    injection Hp as <-. lra.
Qed.

Lemma fill_price_within_two_percent_witness :
  exists p,
    ExecutionEngine._calculate_fill_price Scenario.btc_engine
      (Scenario.market_order "BUY" 1) Scenario.btc_bar = Py.Ok p
    /\ p <= 40500 * 1.02.
Proof.
  destruct (ExecutionEngine._calculate_fill_price Scenario.btc_engine
              (Scenario.market_order "BUY" 1) Scenario.btc_bar)
    as [p|e] eqn:Hp; [| vm_compute in Hp; discriminate Hp].
  exists p. split; [reflexivity |].
  apply (fill_price_within_two_percent Scenario.btc_engine
           (Scenario.market_order "BUY" 1) Scenario.btc_bar p Hp).
  reflexivity.
Defined.

(** X6: a larger order never gets less slippage: for two orders of the same
    side against the same bar, with a nonnegative base price and volume-impact
    rate, the slippage of the order with the larger quantity is at least that
    of the smaller one. *)
Theorem slippage_monotone_in_quantity :
  forall (self : ExecutionEngine.ExecutionEngine)
         (small large : Events.OrderEvent) (base_price : Q)
         (bar : ExecutionEngine.Bar) (s1 s2 : Q),
    0 <= Events.quantity small ->
    Events.quantity small <= Events.quantity large ->
    0 <= base_price ->
    0 <= ExecutionEngine.volume_impact_factor (ExecutionEngine.config self) ->
    ExecutionEngine._calculate_slippage self small base_price bar = Py.Ok s1 ->
    ExecutionEngine._calculate_slippage self large base_price bar = Py.Ok s2 ->
    s1 <= s2.
Proof.
  intros self small large base bar s1 s2 Hq0 Hq Hb Hf H1 H2.
  unfold ExecutionEngine._calculate_slippage in H1, H2.
  destruct (ExecutionEngine.volume_slippage_of _ small base bar)
    as [v1|e1] eqn:Hv1; [| discriminate].
  destruct (ExecutionEngine.volume_slippage_of _ large base bar)
    as [v2|e2] eqn:Hv2; [| discriminate].
  injection H1 as <-. injection H2 as <-.
  assert (Hv : v1 <= v2).
  { unfold ExecutionEngine.volume_slippage_of in Hv1, Hv2.
    set (bvv := _ * ExecutionEngine.close bar) in *.
    destruct (Py.gtb _ 0).
    - unfold Py.div in Hv1, Hv2.
      destruct (Py.eqb (Qmax bvv (Events.quantity small * base)) 0) eqn:Z1;
        [discriminate |].
      destruct (Py.eqb (Qmax bvv (Events.quantity large * base)) 0) eqn:Z2;
        [discriminate |].
      apply eqb_neq in Z1, Z2.
      injection Hv1 as <-. injection Hv2 as <-.
      assert (Ho1 : 0 <= Events.quantity small * base)
        by (apply Qmult_le_0_compat; assumption).
      assert (Ho2 : Events.quantity small * base
                    <= Events.quantity large * base)
        by (apply Qmult_le_compat_r; assumption).
      pose proof (volume_share_monotone bvv _ _ Ho1 Ho2 Z1 Z2) as Hshare.
      revert Hshare.
      generalize (Events.quantity small * base
                  / Qmax bvv (Events.quantity small * base)).
      generalize (Events.quantity large * base
                  / Qmax bvv (Events.quantity large * base)).
      intros r2 r1 Hr.
      assert (0 <= (r2 - r1)
                   * ExecutionEngine.volume_impact_factor
                       (ExecutionEngine.config self))
        by (apply Qmult_le_0_compat; lra).
      assert (0 <= base
                   * ((r2 - r1)
                      * ExecutionEngine.volume_impact_factor
                          (ExecutionEngine.config self)))
        by (apply Qmult_le_0_compat; assumption).
      lra.
    - injection Hv1 as <-. injection Hv2 as <-. lra. }
  apply Q.min_le_compat_r. lra.
Qed.

Lemma slippage_monotone_in_quantity_witness :
  exists s1 s2,
    ExecutionEngine._calculate_slippage Scenario.btc_engine
      (Scenario.market_order "BUY" 1) 40500 Scenario.btc_bar = Py.Ok s1
    /\ ExecutionEngine._calculate_slippage Scenario.btc_engine
         (Scenario.market_order "BUY" 50) 40500 Scenario.btc_bar = Py.Ok s2
    /\ s1 <= s2.
Proof.
  destruct (ExecutionEngine._calculate_slippage Scenario.btc_engine
              (Scenario.market_order "BUY" 1) 40500 Scenario.btc_bar)
    as [s1|e] eqn:H1; [| vm_compute in H1; discriminate H1].
  destruct (ExecutionEngine._calculate_slippage Scenario.btc_engine
              (Scenario.market_order "BUY" 50) 40500 Scenario.btc_bar)
    as [s2|e] eqn:H2; [| vm_compute in H2; discriminate H2].
  exists s1, s2. split; [reflexivity | split; [reflexivity |]].
  apply (slippage_monotone_in_quantity Scenario.btc_engine
           (Scenario.market_order "BUY" 1) (Scenario.market_order "BUY" 50)
           40500 Scenario.btc_bar s1 s2); try assumption; cbn; lra.
Defined.

(** The filters of the model run on boolean tests; as list functions they
    are the ones of the standard library. *)
Lemma filter_bool {A : Type} (f : A -> bool) (l : list A) :
  filter f l = List.filter f l.
Proof.
  induction l as [|a l IH]; [reflexivity |].
  rewrite filter_cons. cbn [List.filter]. rewrite IH.
  destruct (f a); reflexivity.
Qed.

Section CommissionAndOrders.
Import Events ExecutionEngine OrderExecution.

Lemma update_order_status_absent (db : OrderStore) (order_id status : string)
    (f a c : option Q) :
  query_order db order_id = Py.Ok [] ->
  fst (update_order_status db order_id status f a c) = db.
Proof.
  unfold query_order, update_order_status.
  destruct db as [on rows]. cbn [os_online orders].
  destruct on; [| discriminate].
  intros [= Hnone]. cbn [fst]. f_equal. rewrite filter_bool in Hnone.
  revert Hnone.
  induction rows as [|r rows IH]; [reflexivity |].
  cbn [List.filter map].
  destruct (String.eqb (or_order_id r) order_id); [discriminate |].
  intros Hnone. f_equal. now apply IH.
Qed.

Lemma update_order_status_length (db : OrderStore) (order_id status : string)
    (f a c : option Q) :
  length (orders (fst (update_order_status db order_id status f a c)))
  = length (orders db).
Proof.
  unfold update_order_status. destruct (os_online db); [| reflexivity].
  cbn [fst orders]. apply length_map.
Qed.

End CommissionAndOrders.

(** X7: the commission is never negative when quantity, fill price and the
    configured rates are nonnegative; it is 0 for every stock or ETF order
    that is not a SELL and for every asset type other than crypto, stock and
    etf; and the asset type is read without regard to case. *)
Theorem commission_nonnegative :
  forall (costs : OrderExecution.FeeConfig) (order : Events.OrderEvent)
         (fill_price : Q),
    (0 <= Events.quantity order -> 0 <= fill_price ->
     0 <= OrderExecution.fee (OrderExecution.taker_fee costs) 0.006 ->
     0 <= OrderExecution.fee (OrderExecution.sec_fee costs) 0.0000278 ->
     0 <= OrderExecution.fee (OrderExecution.finra_taf costs) 0.000166 ->
     0 <= OrderExecution._calculate_commission costs order fill_price)
    /\ (OrderExecution.lower (Events.asset_type order) <> "crypto"%string ->
        Events.side order <> "SELL"%string ->
        OrderExecution._calculate_commission costs order fill_price = 0)
    /\ (forall other : Events.OrderEvent,
          OrderExecution.lower (Events.asset_type other)
          = OrderExecution.lower (Events.asset_type order) ->
          Events.side other = Events.side order ->
          Events.quantity other = Events.quantity order ->
          OrderExecution._calculate_commission costs other fill_price
          = OrderExecution._calculate_commission costs order fill_price).
Proof.
  intros costs order p. split; [| split].
  - intros Hq Hp Ht Hs Hf. unfold OrderExecution._calculate_commission.
    destruct (String.eqb _ "crypto").
    + repeat apply Qmult_le_0_compat; assumption.
    + destruct (_ || _); [| lra].
      destruct (String.eqb (Events.side order) "SELL"); [| lra].
      assert (0 <= Events.quantity order * p * OrderExecution.fee
                      (OrderExecution.sec_fee costs) 0.0000278)
        by (repeat apply Qmult_le_0_compat; assumption).
      assert (0 <= Events.quantity order * OrderExecution.fee
                      (OrderExecution.finra_taf costs) 0.000166)
        by (apply Qmult_le_0_compat; assumption).
      lra.
  - intros Hc Hs. unfold OrderExecution._calculate_commission.
    apply String.eqb_neq in Hc, Hs. rewrite Hc, Hs.
    destruct (_ || _); reflexivity.
  - intros other Ha Hs Hq. unfold OrderExecution._calculate_commission.
    now rewrite Ha, Hs, Hq.
Qed.

Lemma commission_nonnegative_witness :
  0 <= OrderExecution._calculate_commission Examples.default_fees
         (Examples.stock_order "SELL" 10) 150
  /\ OrderExecution._calculate_commission Examples.default_fees
       (Examples.stock_order "BUY" 10) 150 = 0.
Proof.
  destruct (commission_nonnegative Examples.default_fees
              (Examples.stock_order "SELL" 10) 150) as (Hnn & _ & _).
  destruct (commission_nonnegative Examples.default_fees
              (Examples.stock_order "BUY" 10) 150) as (_ & Hzero & _).
  split.
  - apply Hnn; cbn; lra.
  - apply Hzero; intros H; discriminate H.
Defined.

(** X8: the order handler of the backtest execution engine never publishes a
    fill and never adds a row to the orders table: every path ends before
    [FillEvent] is built or raises while its arguments are evaluated
    ([OrderEvent] has no [metadata]).  An order that is not in the table
    leaves the table as it was, so an order coming from the risk manager,
    which stores none, is neither filled nor recorded. *)
Theorem on_order_never_fills :
  forall (order : Events.OrderEvent) (w : OrderExecution.World),
    OrderExecution.published (fst (OrderExecution._on_order order w))
    = OrderExecution.published w
    /\ length (OrderExecution.orders
                 (OrderExecution.db (fst (OrderExecution._on_order order w))))
       = length (OrderExecution.orders (OrderExecution.db w))
    /\ (OrderExecution.query_order (OrderExecution.db w)
          (Events.order_id order) = Py.Ok [] ->
        fst (OrderExecution._on_order order w) = w).
Proof.
  intros order w. unfold OrderExecution._on_order.
  destruct (ExecutionEngine._validate_order (OrderExecution.engine w) order)
    as [valid error].
  destruct valid; cbn [negb].
  - destruct (ExecutionEngine.current_bars (OrderExecution.engine w)
              !! Events.symbol order) as [bar|]; [| auto].
    destruct (ExecutionEngine._calculate_fill_price _ order bar) as [p|e];
      [| auto].
    destruct (OrderExecution.query_order (OrderExecution.db w)
                (Events.order_id order)) as [[|r rows]|e] eqn:Hq; auto.
    cbn [fst OrderExecution.set_db OrderExecution.published OrderExecution.db].
    split; [reflexivity | split].
    + apply update_order_status_length.
    + discriminate.
  - cbn [fst OrderExecution.set_db OrderExecution.published OrderExecution.db].
    split; [reflexivity | split].
    + apply update_order_status_length.
    + intros Hq. rewrite update_order_status_absent by exact Hq.
      destruct w; reflexivity.
Qed.

Lemma on_order_never_fills_witness :
  fst (OrderExecution._on_order (Scenario.market_order "BUY" 1)
         (Examples.execution_world
            [Examples.stored_order "OTHER-1" "FILLED"]))
  = Examples.execution_world [Examples.stored_order "OTHER-1" "FILLED"].
Proof.
  apply (on_order_never_fills (Scenario.market_order "BUY" 1)
           (Examples.execution_world
              [Examples.stored_order "OTHER-1" "FILLED"])).
  reflexivity.
Defined.

(** ** Storage: positions created, found and updated *)

Section StorageRoundTrip.
Import Storage.

Lemma id_below_next (db : DatabaseManager) (r : PositionRow) :
  In r (positions db) -> (id r < next_id db)%Z.
Proof.
  unfold next_id. induction (positions db) as [|x l IH]; [contradiction |].
  cbn [map fold_right]. intros [->|Hin].
  - lia.
  - specialize (IH Hin). lia.
Qed.

Lemma filter_id_fresh (db : DatabaseManager) (f : PositionRow -> bool) :
  List.filter (fun r => Z.eqb (id r) (next_id db) && f r) (positions db) = [].
Proof.
  pose proof (id_below_next db) as Hlt.
  induction (positions db) as [|x l IH]; [reflexivity |].
  cbn [List.filter].
  destruct (Z.eqb_spec (id x) (next_id db)) as [E|_].
  - specialize (Hlt x (or_introl eq_refl)). lia.
  - cbn [andb]. apply IH. intros r Hin. apply Hlt. now right.
Qed.

Lemma filter_other_id (rows : list PositionRow) (new : PositionRow) (j : Z) :
  id new <> j ->
  List.filter (fun r => Z.eqb (id r) j) (rows ++ [new])
  = List.filter (fun r => Z.eqb (id r) j) rows.
Proof.
  intros Hne. rewrite List.filter_app. cbn [List.filter].
  destruct (Z.eqb_spec (id new) j); [contradiction | apply app_nil_r].
Qed.

Lemma query_created (db : DatabaseManager) (row : PositionRow) :
  online db = true -> id row = next_id db ->
  query_by_id (set_positions (positions db ++ [row]) db) (next_id db)
  = Py.Ok [row].
Proof.
  intros Hon Hid. unfold query_by_id, set_positions.
  cbn [online positions]. rewrite Hon, filter_bool, List.filter_app.
  pose proof (filter_id_fresh db (fun _ => true)) as H.
  erewrite List.filter_ext in H; [rewrite H |].
  - cbn [List.filter app]. now rewrite Hid, Z.eqb_refl.
  - intros r. cbn. now rewrite andb_true_r.
Qed.

Lemma query_open_created (db : DatabaseManager) (row : PositionRow) :
  online db = true -> id row = next_id db -> is_open row = true ->
  query_open_by_id (set_positions (positions db ++ [row]) db) (next_id db)
  = Py.Ok [row].
Proof.
  intros Hon Hid Hopen. unfold query_open_by_id, set_positions.
  cbn [online positions].
  rewrite Hon, filter_bool, List.filter_app, (filter_id_fresh db is_open).
  cbn [List.filter app]. now rewrite Hid, Z.eqb_refl, Hopen.
Qed.

Lemma updated_created (db : DatabaseManager) (row : PositionRow)
    (upd : PositionRow -> PositionRow) :
  online db = true -> id row = next_id db ->
  positions
    (fst (update_position (set_positions (positions db ++ [row]) db)
            (next_id db) upd))
  = positions db ++ [upd row].
Proof.
  intros Hon Hid. unfold update_position, set_positions.
  cbn [online positions]. rewrite Hon. cbn [fst positions].
  rewrite map_app. cbn [map]. rewrite Hid, Z.eqb_refl. f_equal.
  pose proof (id_below_next db) as Hlt.
  induction (positions db) as [|x l IH]; [reflexivity |].
  cbn [map]. destruct (Z.eqb_spec (id x) (next_id db)) as [E|_].
  - specialize (Hlt x (or_introl eq_refl)). lia.
  - f_equal. apply IH. intros r Hin. apply Hlt. now right.
Qed.

Lemma online_updated (db : DatabaseManager) (i : Z)
    (upd : PositionRow -> PositionRow) :
  online (fst (update_position db i upd)) = online db.
Proof.
  unfold update_position. destruct (online db) eqn:E; [exact E | exact E].
Qed.

End StorageRoundTrip.

(** X9: on a working database [create_position] returns an id that no row
    has yet; looking that id up, among all rows or among the open ones, gives
    exactly the row just created, open and with the values passed; the
    look-ups of every other id are as before; and after an update of that id
    the look-up gives the updated row.  On a failing database it returns -1
    and stores nothing. *)
Theorem create_position_round_trip :
  forall (db : Storage.DatabaseManager) (symbol asset_type side : string)
         (quantity entry_price : Q) (entry_time : Py.datetime)
         (strategy_id : string) (metadata : option Storage.RowMetadata),
    let created :=
      Storage.create_position db symbol asset_type side quantity entry_price
        entry_time strategy_id metadata in
    let row :=
      {| Storage.id := Storage.next_id db; Storage.symbol := symbol;
         Storage.asset_type := asset_type; Storage.side := side;
         Storage.quantity := quantity; Storage.entry_price := entry_price;
         Storage.entry_time := entry_time;
         Storage.strategy_id := strategy_id; Storage.status := "OPEN";
         Storage.exit_price := None; Storage.exit_time := None;
         Storage.pnl_realized := None; Storage.metadata := metadata |} in
    (Storage.online db = true ->
     snd created = Storage.next_id db
     /\ (forall r, In r (Storage.positions db) ->
                   (Storage.id r < snd created)%Z)
     /\ Storage.query_by_id (fst created) (snd created) = Py.Ok [row]
     /\ Storage.query_open_by_id (fst created) (snd created) = Py.Ok [row]
     /\ (forall j, j <> snd created ->
                   Storage.query_by_id (fst created) j
                   = Storage.query_by_id db j)
     /\ (forall upd : Storage.PositionRow -> Storage.PositionRow,
           Storage.id (upd row) = Storage.id row ->
           Storage.query_by_id
             (fst (Storage.update_position (fst created) (snd created) upd))
             (snd created)
           = Py.Ok [upd row]))
    /\ (Storage.online db = false -> created = (db, (-1)%Z)).
Proof.
  intros db symbol asset_type side quantity entry_price entry_time strategy_id
         metadata created row.
  subst created. unfold Storage.create_position.
  split; intros Hon; rewrite Hon; [| reflexivity].
  cbn [fst snd]. fold row.
  split; [reflexivity | split; [| split; [| split; [| split]]]].
  - intros r Hin. now apply id_below_next.
  - now apply query_created.
  - now apply query_open_created.
  - intros j Hj. unfold Storage.query_by_id, Storage.set_positions.
    cbn [Storage.online Storage.positions]. rewrite Hon, !filter_bool.
    f_equal. apply filter_other_id. cbn. congruence.
  - intros upd Hid.
    pose proof (updated_created db row upd Hon eq_refl) as Hpos.
    pose proof (online_updated
                  (Storage.set_positions (Storage.positions db ++ [row]) db)
                  (Storage.next_id db) upd) as Honl.
    unfold Storage.query_by_id. rewrite Honl, Hpos.
    cbn [Storage.set_positions Storage.online]. rewrite Hon.
    rewrite filter_bool, List.filter_app.
    pose proof (filter_id_fresh db (fun _ => true)) as H.
    erewrite List.filter_ext in H; [rewrite H |].
    + cbn [List.filter app]. rewrite Hid. cbn [row Storage.id].
      now rewrite Z.eqb_refl.
    + intros r. cbn. now rewrite andb_true_r.
Qed.

Lemma create_position_round_trip_witness :
  Storage.query_open_by_id
    (fst (Storage.create_position Scenario.db_two_positions "SOL/USDT"
            "CRYPTO" "LONG" 5 100 Scenario.t2023 "test" None))
    4
  = Py.Ok [ {| Storage.id := 4; Storage.symbol := "SOL/USDT";
               Storage.asset_type := "CRYPTO"; Storage.side := "LONG";
               Storage.quantity := 5; Storage.entry_price := 100;
               Storage.entry_time := Scenario.t2023;
               Storage.strategy_id := "test"; Storage.status := "OPEN";
               Storage.exit_price := None; Storage.exit_time := None;
               Storage.pnl_realized := None; Storage.metadata := None |} ].
Proof.
  apply (proj1 (create_position_round_trip Scenario.db_two_positions
                  "SOL/USDT" "CRYPTO" "LONG" 5 100 Scenario.t2023 "test"
                  None) eq_refl).
Defined.

(** ** Backtest portfolio: fills, cost basis and valuation *)

Section PortfolioFills.
Import Events PortfolioManager.

(** The row [_open_position] inserts for a fill. *)
Lemma on_fill_open_world (w : World) (fill : FillEvent) :
  Storage.online (db w) = true ->
  positions (pm w) !! fl_symbol fill = None ->
  _on_fill fill w
  = ({| pm := {| cash := cash (pm w) + opening_cash_change fill;
                 positions := <[fl_symbol fill := Storage.next_id (db w)]>
                                (positions (pm w)) |};
        db := fst (Storage.create_position (db w) (fl_symbol fill)
                     (fl_asset_type fill)
                     (if String.eqb (fl_side fill) "BUY" then "LONG"
                      else "SHORT")
                     (fl_quantity fill) (fl_price fill) (fl_timestamp fill)
                     (match fl_strategy_id fill with
                      | Some s => s | None => "unknown" end)
                     (Some {| Storage.entry_commission :=
                                Some (commission fill) |}));
        published := published w |}, Py.Raise Py.TypeError).
Proof.
  intros Hon Hnone.
  unfold _on_fill, _get_open_position, Py.bind, self_. rewrite Hnone.
  unfold Py.ret, _open_position, Py.bind, add_cash, Py.modify,
    db_create_position.
  cbn [pm db published cash positions].
  unfold Storage.create_position. rewrite Hon. cbn [fst snd].
  unfold set_cached, Py.modify, _publish_position_update, Py.bind,
    db_query_by_id.
  cbn [pm db published cash positions].
  rewrite query_created by (exact Hon || reflexivity).
  reflexivity.
Qed.

Lemma on_fill_close_world (w : World) (fill : FillEvent) (i : Z)
    (row : Storage.PositionRow) (rest : list Storage.PositionRow) :
  positions (pm w) !! fl_symbol fill = Some i ->
  Storage.query_open_by_id (db w) i = Py.Ok (row :: rest) ->
  (String.eqb (Storage.side row) "LONG" && String.eqb (fl_side fill) "SELL")
  || (String.eqb (Storage.side row) "SHORT"
      && String.eqb (fl_side fill) "BUY") = true ->
  fst (_on_fill fill w)
  = {| pm := {| cash := cash (pm w) + closing_cash_change fill;
                positions := delete (fl_symbol fill) (positions (pm w)) |};
       db := fst (Storage.update_position (db w) (Storage.id row)
                    (close_row fill (_calculate_realized_pnl row fill)));
       published := published w |}.
Proof.
  intros Hc Hq Hclosing.
  unfold _on_fill, _get_open_position, Py.bind, self_. rewrite Hc.
  unfold db_query_open_by_id. rewrite Hq. unfold Py.ret. rewrite Hclosing.
  unfold _close_position, Py.bind, add_cash, Py.modify, db_update_position.
  cbn [pm db published cash positions].
  destruct (Storage.update_position _ _ _) as [db' ok]. cbn [fst].
  unfold del_cached, Py.modify, _publish_position_update, Py.bind,
    db_query_by_id.
  cbn [pm db published cash positions].
  destruct (Storage.query_by_id db' _) as [[|r rs]|e]; cbn; try reflexivity.
  unfold Py.lift. destruct (Py.div _ _); reflexivity.
Qed.

(** No branch of [_on_fill] reaches [event_bus.publish]. *)
Lemma on_fill_published (w : World) (fill : FillEvent) :
  published (fst (_on_fill fill w)) = published w.
Proof.
  unfold _on_fill, _get_open_position, Py.bind, self_.
  assert (Hopen : published (fst (_open_position fill w)) = published w).
  { unfold _open_position, Py.bind, add_cash, Py.modify, db_create_position.
    cbn [pm db published cash positions].
    destruct (Storage.create_position _ _ _ _ _ _ _ _ _) as [db' i].
    unfold set_cached, Py.modify, _publish_position_update, Py.bind,
      db_query_by_id.
    cbn [pm db published cash positions].
    destruct (Storage.query_by_id db' i) as [[|r rs]|e]; reflexivity. }
  assert (Hrow : forall row,
             published
               (fst ((if (String.eqb (Storage.side row) "LONG"
                          && String.eqb (fl_side fill) "SELL")
                         || (String.eqb (Storage.side row) "SHORT"
                             && String.eqb (fl_side fill) "BUY")
                      then _close_position row fill
                      else _add_to_position row fill) w))
             = published w).
  { intros row. destruct (_ || _).
    - unfold _close_position, Py.bind, add_cash, Py.modify,
        db_update_position.
      cbn [pm db published cash positions].
      destruct (Storage.update_position _ _ _) as [db' ok].
      unfold del_cached, Py.modify, _publish_position_update, Py.bind,
        db_query_by_id.
      cbn [pm db published cash positions].
      destruct (Storage.query_by_id db' _) as [[|r rs]|e]; cbn;
        try reflexivity.
      unfold Py.lift. destruct (Py.div _ _); reflexivity.
    - unfold _add_to_position, Py.bind, Py.lift.
      destruct (Py.div _ _) as [avg|e]; [| reflexivity].
      unfold add_cash, Py.modify, db_update_position.
      cbn [pm db published cash positions].
      destruct (Storage.update_position _ _ _) as [db' ok]. reflexivity. }
  destruct (positions (pm w) !! fl_symbol fill) as [i|]; [| exact Hopen].
  unfold db_query_open_by_id.
  destruct (Storage.query_open_by_id (db w) i) as [[|row rest]|e];
    [exact Hopen | apply Hrow | reflexivity].
Qed.

Lemma div_nonzero (x y : Q) : ~ y == 0 -> Py.div x y = Py.Ok (x / y).
Proof.
  intros H. unfold Py.div, Py.eqb.
  destruct (Qeq_bool y 0) eqn:E; [| reflexivity].
  apply Qeq_bool_iff in E. contradiction.
Qed.

Lemma div_zero (x y : Q) : y == 0 -> Py.div x y = Py.Raise Py.ZeroDivisionError.
Proof.
  intros H. unfold Py.div, Py.eqb.
  apply Qeq_bool_iff in H. now rewrite H.
Qed.

End PortfolioFills.

(** X10: whatever the fill and the state, [_on_fill] of the backtest
    portfolio leaves the list of published events as it was; for a first
    fill in a symbol on a working database it ends in the TypeError of the
    PositionUpdateEvent constructor, after the cash has moved, the row has
    been inserted and its id has been cached. *)
Theorem on_fill_never_publishes :
  forall (fill : Events.FillEvent) (w : PortfolioManager.World),
    PortfolioManager.published (fst (PortfolioManager._on_fill fill w))
    = PortfolioManager.published w
    /\ (Storage.online (PortfolioManager.db w) = true ->
        PortfolioManager.positions (PortfolioManager.pm w)
          !! Events.fl_symbol fill = None ->
        let w' := fst (PortfolioManager._on_fill fill w) in
        snd (PortfolioManager._on_fill fill w) = Py.Raise Py.TypeError
        /\ PortfolioManager.cash (PortfolioManager.pm w')
           = PortfolioManager.cash (PortfolioManager.pm w)
             + PortfolioManager.opening_cash_change fill
        /\ PortfolioManager.positions (PortfolioManager.pm w')
             !! Events.fl_symbol fill
           = Some (Storage.next_id (PortfolioManager.db w))
        /\ length (Storage.positions (PortfolioManager.db w'))
           = S (length (Storage.positions (PortfolioManager.db w)))).
Proof.
  intros fill w. split; [apply on_fill_published |].
  intros Hon Hnone w'. subst w'.
  rewrite (on_fill_open_world w fill Hon Hnone). cbn [fst snd].
  cbn [PortfolioManager.pm PortfolioManager.cash PortfolioManager.positions
       PortfolioManager.db].
  split; [reflexivity | split; [reflexivity | split]].
  - apply lookup_insert_eq.
  - unfold Storage.create_position. rewrite Hon. cbn.
    rewrite length_app. cbn. lia.
Qed.

Lemma on_fill_never_publishes_witness :
  snd (PortfolioManager._on_fill Examples.short_open
         (Examples.funded_world 100000))
  = Py.Raise Py.TypeError.
Proof.
  apply (proj2 (on_fill_never_publishes Examples.short_open
                  (Examples.funded_world 100000)) eq_refl eq_refl).
Defined.

(** X11: on a working database, a fill that opens a position in a symbol
    without cached position, followed by a fill of the opposite side in that
    symbol, whatever its quantity, closes the position: the cash has moved by
    the opening amount of the first fill and then by the closing amount of
    the second, the symbol is no longer cached, no row of that id is open,
    and the row is CLOSED with the price and time of the second fill and the
    realized P&L (exit - entry) * min(quantities) - (entry commission + exit
    commission) for a position opened by a BUY, (entry - exit) *
    min(quantities) - (entry commission + exit commission) otherwise. *)
Theorem open_close_round_trip :
  forall (w : PortfolioManager.World) (fopen fclose : Events.FillEvent),
    Storage.online (PortfolioManager.db w) = true ->
    PortfolioManager.positions (PortfolioManager.pm w)
      !! Events.fl_symbol fopen = None ->
    Events.fl_symbol fclose = Events.fl_symbol fopen ->
    (Events.fl_side fopen = "BUY"%string
     /\ Events.fl_side fclose = "SELL"%string)
    \/ (Events.fl_side fopen = "SELL"%string
        /\ Events.fl_side fclose = "BUY"%string) ->
    let w1 := fst (PortfolioManager._on_fill fopen w) in
    let w2 := fst (PortfolioManager._on_fill fclose w1) in
    let quantity :=
      Qmin (Events.fl_quantity fopen) (Events.fl_quantity fclose) in
    let total_commission :=
      Events.commission fopen + Events.commission fclose in
    PortfolioManager.cash (PortfolioManager.pm w2)
    = PortfolioManager.cash (PortfolioManager.pm w)
      + PortfolioManager.opening_cash_change fopen
      + PortfolioManager.closing_cash_change fclose
    /\ PortfolioManager.positions (PortfolioManager.pm w2)
         !! Events.fl_symbol fopen = None
    /\ Storage.query_open_by_id (PortfolioManager.db w2)
         (Storage.next_id (PortfolioManager.db w)) = Py.Ok []
    /\ exists row,
         Storage.query_by_id (PortfolioManager.db w2)
           (Storage.next_id (PortfolioManager.db w)) = Py.Ok [row]
         /\ Storage.status row = "CLOSED"%string
         /\ Storage.exit_price row = Some (Events.fl_price fclose)
         /\ Storage.exit_time row = Some (Events.fl_timestamp fclose)
         /\ Storage.pnl_realized row
            = Some (if String.eqb (Events.fl_side fopen) "BUY"
                    then (Events.fl_price fclose - Events.fl_price fopen)
                         * quantity - total_commission
                    else (Events.fl_price fopen - Events.fl_price fclose)
                         * quantity - total_commission).
Proof.
  intros w fopen fclose Hon Hnone Hsym Hsides w1 w2 quantity total_commission.
  pose proof (on_fill_open_world w fopen Hon Hnone) as H1.
  apply (f_equal fst) in H1. cbn [fst] in H1. fold w1 in H1.
  unfold Storage.create_position in H1. rewrite Hon in H1. cbn [fst] in H1.
  set (row := {| Storage.id := Storage.next_id (PortfolioManager.db w);
                 Storage.symbol := Events.fl_symbol fopen |}) in H1.
  assert (Hcached : PortfolioManager.positions (PortfolioManager.pm w1)
                      !! Events.fl_symbol fclose
                    = Some (Storage.next_id (PortfolioManager.db w))).
  { rewrite H1, Hsym. apply lookup_insert_eq. }
  assert (Hquery : Storage.query_open_by_id (PortfolioManager.db w1)
                     (Storage.next_id (PortfolioManager.db w))
                   = Py.Ok [row]).
  { rewrite H1. cbn [PortfolioManager.db].
    apply query_open_created; [exact Hon | reflexivity | reflexivity]. }
  assert (Hclosing :
            (String.eqb (Storage.side row) "LONG"
             && String.eqb (Events.fl_side fclose) "SELL")
            || (String.eqb (Storage.side row) "SHORT"
                && String.eqb (Events.fl_side fclose) "BUY") = true).
  { subst row. cbn [Storage.side].
    destruct Hsides as [[-> ->]|[-> ->]]; reflexivity. }
  pose proof (on_fill_close_world w1 fclose _ row [] Hcached Hquery Hclosing)
    as H2.
  fold w2 in H2.
  assert (Hpnl : PortfolioManager._calculate_realized_pnl row fclose
                 = (if String.eqb (Events.fl_side fopen) "BUY"
                    then (Events.fl_price fclose - Events.fl_price fopen)
                         * quantity - total_commission
                    else (Events.fl_price fopen - Events.fl_price fclose)
                         * quantity - total_commission)).
  { unfold PortfolioManager._calculate_realized_pnl.
    subst row quantity total_commission.
    cbn [Storage.side Storage.entry_price Storage.quantity Storage.metadata
         Storage.entry_commission].
    destruct Hsides as [[-> _]|[-> _]]; reflexivity. }
  assert (Hpos : Storage.positions (PortfolioManager.db w2)
                 = Storage.positions (PortfolioManager.db w)
                   ++ [PortfolioManager.close_row fclose
                         (PortfolioManager._calculate_realized_pnl row fclose)
                         row]).
  { rewrite H2, H1. cbn [PortfolioManager.db].
    change (Storage.id row) with (Storage.next_id (PortfolioManager.db w)).
    apply updated_created; [exact Hon | reflexivity]. }
  assert (Honl : Storage.online (PortfolioManager.db w2) = true).
  { rewrite H2, H1. cbn [PortfolioManager.db]. rewrite online_updated.
    exact Hon. }
  assert (Hfresh : forall f,
             List.filter
               (fun r => Z.eqb (Storage.id r)
                           (Storage.next_id (PortfolioManager.db w)) && f r)
               (Storage.positions (PortfolioManager.db w)) = [])
    by (intros f; apply filter_id_fresh).
  split; [| split; [| split]].
  - rewrite H2, H1. reflexivity.
  - rewrite H2, Hsym. cbn [PortfolioManager.pm PortfolioManager.positions].
    apply lookup_delete_eq.
  - unfold Storage.query_open_by_id.
    rewrite Honl, Hpos, filter_bool, List.filter_app, Hfresh.
    cbn [List.filter app PortfolioManager.close_row Storage.id
         Storage.is_open Storage.status].
    change (Storage.id row) with (Storage.next_id (PortfolioManager.db w)).
    rewrite Z.eqb_refl. reflexivity.
  - exists (PortfolioManager.close_row fclose
              (PortfolioManager._calculate_realized_pnl row fclose) row).
    split; [| split; [reflexivity | split; [reflexivity |
                                            split; [reflexivity |]]]].
    + unfold Storage.query_by_id.
      rewrite Honl, Hpos, filter_bool, List.filter_app.
      pose proof (Hfresh (fun _ => true)) as H.
      erewrite List.filter_ext in H; [rewrite H |].
      * cbn [List.filter app PortfolioManager.close_row Storage.id].
        change (Storage.id row) with (Storage.next_id (PortfolioManager.db w)).
        now rewrite Z.eqb_refl.
      * intros r. cbn. now rewrite andb_true_r.
    + cbn [PortfolioManager.close_row Storage.pnl_realized]. now rewrite Hpnl.
Qed.

Lemma open_close_round_trip_witness :
  PortfolioManager.cash
    (PortfolioManager.pm
       (fst (PortfolioManager._on_fill Examples.short_cover
               (fst (PortfolioManager._on_fill Examples.short_open
                       (Examples.funded_world 100000))))))
  = 100000 + (20 * 100 - 2) + - (20 * 90 + 1.8)
  /\ Storage.query_open_by_id
       (PortfolioManager.db
          (fst (PortfolioManager._on_fill Examples.short_cover
                  (fst (PortfolioManager._on_fill Examples.short_open
                          (Examples.funded_world 100000))))))
       4
     = Py.Ok [].
Proof.
  destruct (open_close_round_trip (Examples.funded_world 100000)
              Examples.short_open Examples.short_cover
              eq_refl eq_refl eq_refl (or_intror (conj eq_refl eq_refl)))
    as (Hcash & _ & Hopen & _).
  split; [exact Hcash | exact Hopen].
Defined.

(** X12: [_add_to_position] changes either everything or nothing.  When the
    position's quantity and the fill's add up to zero it raises
    ZeroDivisionError and the cash, the cache and the database are as they
    were.  Otherwise it returns, having moved the cash by the opening amount
    of the fill and stored the total quantity with the average price
    (old quantity * old price + fill quantity * fill price) / total
    quantity; nothing is published. *)
Theorem add_to_position_all_or_nothing :
  forall (position : Storage.PositionRow) (fill : Events.FillEvent)
         (w : PortfolioManager.World),
    let total := Storage.quantity position + Events.fl_quantity fill in
    (total == 0 ->
     PortfolioManager._add_to_position position fill w
     = (w, Py.Raise Py.ZeroDivisionError))
    /\ (~ total == 0 ->
        PortfolioManager._add_to_position position fill w
        = ({| PortfolioManager.pm :=
                {| PortfolioManager.cash :=
                     PortfolioManager.cash (PortfolioManager.pm w)
                     + PortfolioManager.opening_cash_change fill;
                   PortfolioManager.positions :=
                     PortfolioManager.positions (PortfolioManager.pm w) |};
              PortfolioManager.db :=
                fst (Storage.update_position (PortfolioManager.db w)
                       (Storage.id position)
                       (PortfolioManager.add_row total
                          ((Storage.quantity position
                            * Storage.entry_price position
                            + Events.fl_quantity fill * Events.fl_price fill)
                           / total)));
              PortfolioManager.published := PortfolioManager.published w |},
           Py.Ok tt)).
Proof.
  intros position fill w total. split.
  - intros Hz. unfold PortfolioManager._add_to_position, Py.bind, Py.lift.
    fold total. now rewrite (div_zero _ total Hz).
  - intros Hnz.
    unfold PortfolioManager._add_to_position, Py.bind, Py.lift.
    fold total. rewrite (div_nonzero _ total Hnz).
    unfold PortfolioManager.add_cash, Py.modify,
      PortfolioManager.db_update_position.
    cbn [PortfolioManager.pm PortfolioManager.db PortfolioManager.published
         PortfolioManager.cash PortfolioManager.positions].
    destruct (Storage.update_position _ _ _) as [db' ok]. reflexivity.
Qed.

Lemma add_to_position_all_or_nothing_witness :
  snd (PortfolioManager._add_to_position
         (Scenario.open_row 1 "BTC/USDT" 1 50000) Examples.second_buy
         (Examples.funded_world 100000))
  = Py.Ok tt
  /\ PortfolioManager._add_to_position
       (Scenario.open_row 1 "BTC/USDT" (-3) 50000) Examples.second_buy
       (Examples.funded_world 100000)
     = (Examples.funded_world 100000, Py.Raise Py.ZeroDivisionError).
Proof.
  split.
  - rewrite (proj2 (add_to_position_all_or_nothing
                      (Scenario.open_row 1 "BTC/USDT" 1 50000)
                      Examples.second_buy (Examples.funded_world 100000))).
    + reflexivity.
    + intros H. discriminate H.
  - apply (proj1 (add_to_position_all_or_nothing
                    (Scenario.open_row 1 "BTC/USDT" (-3) 50000)
                    Examples.second_buy (Examples.funded_world 100000))).
    reflexivity.
Defined.

(** ** Valuation of the backtest portfolio *)

Section ValuationProperties.
Import Storage Valuation.

Lemma insert_desc_cons (r : PositionRow) (l : list PositionRow) :
  insert_desc r l <> [].
Proof.
  destruct l as [|x l]; cbn [insert_desc]; [discriminate |].
  destruct (entry_time x <=? entry_time r)%Z; discriminate.
Qed.

Lemma order_nil (l : list PositionRow) :
  order_by_entry_time_desc l = [] -> l = [].
Proof.
  destruct l as [|x l]; [reflexivity |].
  unfold order_by_entry_time_desc. cbn [fold_right]. intros H.
  now apply insert_desc_cons in H.
Qed.

(** A database that lists no open position has no OPEN row. *)
Lemma no_open_rows (db : DatabaseManager) :
  online db = true ->
  get_open_positions db None None = [] ->
  List.filter is_open (positions db) = [].
Proof.
  intros Hon H. unfold get_open_positions in H. rewrite Hon in H.
  apply order_nil in H. rewrite filter_bool in H.
  rewrite (List.filter_ext _ is_open) in H
    by (intros r; cbn; now rewrite !andb_true_r).
  exact H.
Qed.

End ValuationProperties.

(** X14: on a working database without open positions, after the first fill
    the portfolio value is the cash left by the fill plus the new position
    as [get_portfolio_value] counts it: mark * quantity for a BUY, and the
    unrealized P&L (fill price - mark) * quantity for any other fill, a
    short sale, whose proceeds are in the cash already.  The mark is the
    current price of the symbol, or the fill price when there is none. *)
Theorem opening_fill_changes_value :
  forall (w : PortfolioManager.World) (fill : Events.FillEvent)
         (current_prices : gmap string Q),
    Storage.online (PortfolioManager.db w) = true ->
    PortfolioManager.positions (PortfolioManager.pm w)
      !! Events.fl_symbol fill = None ->
    Valuation.get_open_positions (PortfolioManager.db w) None None = [] ->
    let w1 := fst (PortfolioManager._on_fill fill w) in
    let mark := match current_prices !! Events.fl_symbol fill with
                | Some p => p
                | None => Events.fl_price fill
                end in
    Valuation.get_portfolio_value (PortfolioManager.pm w1)
      (PortfolioManager.db w1) current_prices
    = if String.eqb (Events.fl_side fill) "BUY"
      then PortfolioManager.cash (PortfolioManager.pm w)
           + - (Events.fl_quantity fill * Events.fl_price fill
                + Events.commission fill)
           + mark * Events.fl_quantity fill
      else PortfolioManager.cash (PortfolioManager.pm w)
           + (Events.fl_quantity fill * Events.fl_price fill
              - Events.commission fill)
           + (Events.fl_price fill - mark) * Events.fl_quantity fill.
Proof.
  intros w fill prices Hon Hnone Hempty w1 mark.
  pose proof (on_fill_open_world w fill Hon Hnone) as H1.
  apply (f_equal fst) in H1. cbn [fst] in H1. fold w1 in H1.
  unfold Storage.create_position in H1. rewrite Hon in H1. cbn [fst] in H1.
  pose proof (no_open_rows _ Hon Hempty) as Hnoopen.
  unfold Valuation.get_portfolio_value, Valuation.get_open_positions.
  rewrite H1. cbn [PortfolioManager.pm PortfolioManager.db
                   PortfolioManager.cash Storage.set_positions
                   Storage.online Storage.positions].
  rewrite Hon, filter_bool.
  rewrite (List.filter_ext _ Storage.is_open)
    by (intros r; cbn; now rewrite !andb_true_r).
  rewrite List.filter_app, Hnoopen.
  cbn [List.filter Storage.is_open Storage.status String.eqb Ascii.eqb
       Bool.eqb app Valuation.order_by_entry_time_desc fold_right
       Valuation.insert_desc fold_left].
  unfold Valuation.add_position_value, Valuation._calculate_unrealized_pnl,
    Valuation.mark_price, PortfolioManager.opening_cash_change.
  cbn [Storage.side Storage.symbol Storage.entry_price Storage.quantity].
  fold mark.
  destruct (String.eqb (Events.fl_side fill) "BUY"); reflexivity.
Qed.

Lemma opening_fill_changes_value_witness :
  Valuation.get_portfolio_value
    (PortfolioManager.pm
       (fst (PortfolioManager._on_fill Examples.short_open
               (Scenario.portfolio_world 100000))))
    (PortfolioManager.db
       (fst (PortfolioManager._on_fill Examples.short_open
               (Scenario.portfolio_world 100000))))
    Examples.marks
  = 100000 + (20 * 100 - 2) + (100 - 100) * 20.
Proof.
  apply (opening_fill_changes_value (Scenario.portfolio_world 100000)
           Examples.short_open Examples.marks eq_refl eq_refl eq_refl).
Defined.

(** ** Backtest engine: end of run, trading days, equity *)

Section EngineProperties.
Import Storage Valuation BacktestEngine.

Lemma insert_desc_perm (r : PositionRow) (l : list PositionRow) :
  Permutation (insert_desc r l) (r :: l).
Proof.
  induction l as [|x l IH]; cbn [insert_desc]; [reflexivity |].
  destruct (entry_time x <=? entry_time r)%Z; [reflexivity |].
  rewrite IH. apply perm_swap.
Qed.

Lemma order_perm (l : list PositionRow) :
  Permutation (order_by_entry_time_desc l) l.
Proof.
  unfold order_by_entry_time_desc.
  induction l as [|x l IH]; cbn [fold_right]; [reflexivity |].
  rewrite insert_desc_perm. now apply perm_skip.
Qed.

(** The rows [get_open_positions()] returns are the open rows of the table,
    in some order. *)
Lemma open_positions_perm (db : DatabaseManager) :
  online db = true ->
  Permutation (get_open_positions db None None)
              (List.filter is_open (positions db)).
Proof.
  intros Hon. unfold get_open_positions. rewrite Hon, order_perm, filter_bool.
  rewrite (List.filter_ext _ is_open)
    by (intros r; cbn; now rewrite !andb_true_r).
  reflexivity.
Qed.

Variable self : BacktestEngine.

Lemma force_close_online (db : DatabaseManager) (p : PositionRow) :
  online (force_close self db p) = online db.
Proof. unfold force_close. apply online_updated. Qed.

Lemma force_close_positions (db : DatabaseManager) (p : PositionRow) :
  online db = true ->
  positions (force_close self db p)
  = map (fun r => if Z.eqb (id r) (id p)
                  then force_close_row self (mark_price (current_prices self) p)
                         (forced_pnl p (mark_price (current_prices self) p)) r
                  else r)
        (positions db).
Proof.
  intros Hon. unfold force_close, update_position. rewrite Hon. reflexivity.
Qed.

Lemma fold_force_close_online (ps : list PositionRow) (db : DatabaseManager) :
  online (fold_left (force_close self) ps db) = online db.
Proof.
  revert db. induction ps as [|p ps IH]; intros db; cbn [fold_left];
    [reflexivity |].
  now rewrite IH, force_close_online.
Qed.

Lemma fold_force_close_length (ps : list PositionRow) (db : DatabaseManager) :
  online db = true ->
  length (positions (fold_left (force_close self) ps db))
  = length (positions db).
Proof.
  revert db. induction ps as [|p ps IH]; intros db Hon; cbn [fold_left];
    [reflexivity |].
  rewrite IH by (now rewrite force_close_online).
  rewrite force_close_positions by exact Hon. apply length_map.
Qed.

(** A row still open after the loop was there before, and the loop did not
    visit its id. *)
Lemma open_after_fold (ps : list PositionRow) (db : DatabaseManager)
    (r : PositionRow) :
  online db = true ->
  In r (positions (fold_left (force_close self) ps db)) ->
  is_open r = true ->
  In r (positions db)
  /\ forallb (fun p => negb (Z.eqb (id p) (id r))) ps = true.
Proof.
  revert db. induction ps as [|p ps IH]; intros db Hon Hin Hopen;
    cbn [fold_left forallb] in *; [now split |].
  destruct (IH (force_close self db p)) as [Hin1 Hall];
    [now rewrite force_close_online | exact Hin | exact Hopen |].
  rewrite force_close_positions in Hin1 by exact Hon.
  apply in_map_iff in Hin1. destruct Hin1 as [r0 [Heq Hin0]].
  destruct (Z.eqb_spec (id r0) (id p)) as [E|N].
  - subst r. discriminate Hopen.
  - subst r0. split; [exact Hin0 |]. rewrite Hall, andb_true_r.
    apply negb_true_iff, Z.eqb_neq. congruence.
Qed.

(** With ids that identify the rows, the loop over rows [ps] of the table
    rewrites exactly those rows. *)
Lemma fold_force_close_positions (ps : list PositionRow)
    (db : DatabaseManager) :
  online db = true ->
  List.NoDup (map id ps) ->
  (forall p r, In p ps -> In r (positions db) -> id r = id p -> r = p) ->
  positions (fold_left (force_close self) ps db)
  = map (fun r => if existsb (fun p => Z.eqb (id p) (id r)) ps
                  then force_close_row self (mark_price (current_prices self) r)
                         (forced_pnl r (mark_price (current_prices self) r)) r
                  else r)
        (positions db).
Proof.
  revert db. induction ps as [|p ps IH]; intros db Hon Hnd Hkey;
    cbn [fold_left].
  - cbn [existsb]. now rewrite map_id.
  - cbn [map] in Hnd. apply List.NoDup_cons_iff in Hnd. destruct Hnd as [Hp Hnd].
    assert (Hfresh : existsb (fun p' => Z.eqb (id p') (id p)) ps = false).
    { apply not_true_is_false. intros Hex. apply existsb_exists in Hex.
      destruct Hex as [p' [Hin' E]]. apply Z.eqb_eq in E.
      apply Hp. rewrite <- E. now apply in_map. }
    rewrite IH.
    + rewrite force_close_positions by exact Hon. rewrite map_map.
      apply map_ext_in. intros r Hr. cbn [existsb].
      destruct (Z.eqb_spec (id r) (id p)) as [E|N].
      * assert (r = p) by (apply (Hkey p r); [now left | exact Hr | exact E]).
        subst r. cbn [force_close_row id]. rewrite Hfresh, Z.eqb_refl.
        reflexivity.
      * destruct (Z.eqb_spec (id p) (id r)) as [E'|_]; [congruence |].
        reflexivity.
    + now rewrite force_close_online.
    + exact Hnd.
    + intros p' r Hp' Hr E.
      rewrite force_close_positions in Hr by exact Hon.
      apply in_map_iff in Hr. destruct Hr as [r0 [Heq Hr0]].
      destruct (Z.eqb_spec (id r0) (id p)) as [E0|N0].
      * exfalso. apply Hp. subst r. cbn [force_close_row id] in E.
        rewrite <- E0, E. now apply in_map.
      * subst r0. apply (Hkey p' r); [now right | exact Hr0 | exact E].
Qed.

Lemma date_monotone (t1 t2 : Py.datetime) :
  (t1 <= t2)%Z -> (date t1 <= date t2)%Z.
Proof. intros H. unfold date. apply Z.div_le_mono; lia. Qed.

Lemma new_day_flags_from (ts : list Py.datetime) (engine : BacktestEngine)
    (prev : Py.datetime) :
  _last_trading_day engine = Some (date prev) ->
  Sorted Z.le (prev :: ts) ->
  new_day_flags engine ts
  = map (fun pc => (date (fst pc) <? date (snd pc))%Z)
        (combine (prev :: ts) ts).
Proof.
  revert engine prev. induction ts as [|t ts IH]; intros engine prev Hl Hs;
    [reflexivity |].
  cbn [new_day_flags]. unfold _is_new_trading_day. rewrite Hl.
  apply Sorted_inv in Hs. destruct Hs as [Hs Hhd].
  apply HdRel_inv in Hhd. apply date_monotone in Hhd.
  cbn [combine map fst snd].
  destruct (Z.ltb_spec (date prev) (date t)) as [Hlt|Hge]; f_equal.
  - apply IH; [reflexivity | exact Hs].
  - apply IH; [| exact Hs]. rewrite Hl. f_equal. lia.
Qed.

End EngineProperties.

(** X15: on a working database, after [_close_open_positions] no position
    is open and the table has as many rows as before; when the ids identify
    the rows, every row that was open is now CLOSED at the current price of
    its symbol (its entry price when the symbol has no price) with realized
    P&L (price - entry) * quantity for LONG and (entry - price) * quantity
    otherwise, no commission deducted, and every other row is untouched. *)
Theorem close_open_positions_closes_all :
  forall (self : BacktestEngine.BacktestEngine) (db : Storage.DatabaseManager),
    Storage.online db = true ->
    let db' := BacktestEngine._close_open_positions self db in
    Valuation.get_open_positions db' None None = []
    /\ length (Storage.positions db') = length (Storage.positions db)
    /\ (List.NoDup (map Storage.id (Storage.positions db)) ->
        Storage.positions db'
        = map (fun r =>
                 if Storage.is_open r
                 then
                   let price :=
                     match BacktestEngine.current_prices self
                             !! Storage.symbol r with
                     | Some p => p
                     | None => Storage.entry_price r
                     end in
                   BacktestEngine.force_close_row self price
                     (if String.eqb (Storage.side r) "LONG"
                      then (price - Storage.entry_price r) * Storage.quantity r
                      else (Storage.entry_price r - price) * Storage.quantity r)
                     r
                 else r)
              (Storage.positions db)).
Proof.
  intros self db Hon db'. subst db'. unfold BacktestEngine._close_open_positions.
  pose proof (open_positions_perm db Hon) as Hperm.
  split; [| split].
  - assert (Hnone : List.filter Storage.is_open
                      (Storage.positions
                         (fold_left (BacktestEngine.force_close self)
                            (Valuation.get_open_positions db None None) db))
                    = []).
    { destruct (List.filter _ (Storage.positions (fold_left _ _ _)))
        as [|r l] eqn:E; [reflexivity | exfalso].
      assert (Hr : In r (r :: l)) by now left.
      rewrite <- E in Hr. apply filter_In in Hr. destruct Hr as [Hin Hopen].
      destruct (open_after_fold self _ db r Hon Hin Hopen) as [Hin0 Hall].
      rewrite forallb_forall in Hall.
      assert (Hmem : In r (Valuation.get_open_positions db None None)).
      { apply (Permutation_in r (Permutation_sym Hperm)).
        apply filter_In. now split. }
      specialize (Hall r Hmem). rewrite Z.eqb_refl in Hall.
      discriminate Hall. }
    unfold Valuation.get_open_positions at 1.
    rewrite fold_force_close_online, Hon, filter_bool.
    rewrite (List.filter_ext _ Storage.is_open)
      by (intros r; cbn; now rewrite !andb_true_r).
    now rewrite Hnone.
  - now apply fold_force_close_length.
  - intros Hnd.
    assert (Hkey : forall p r, In p (Storage.positions db) ->
                     In r (Storage.positions db) ->
                     Storage.id r = Storage.id p -> r = p).
    { clear Hperm. induction (Storage.positions db) as [|x l IH];
        [contradiction |].
      cbn [map] in Hnd. apply List.NoDup_cons_iff in Hnd.
      destruct Hnd as [Hx Hnd].
      intros p r [->|Hp] [->|Hr] E; [reflexivity | | | now apply IH].
      - exfalso. apply Hx. rewrite <- E. now apply in_map.
      - exfalso. apply Hx. rewrite E. now apply in_map. }
    assert (Hsub : forall p, In p (Valuation.get_open_positions db None None)
                     -> In p (Storage.positions db)
                        /\ Storage.is_open p = true).
    { intros p Hp. apply (Permutation_in p Hperm) in Hp.
      now apply filter_In in Hp. }
    rewrite fold_force_close_positions.
    + apply map_ext_in. intros r Hr.
      destruct (existsb _ _) eqn:Hex.
      * apply existsb_exists in Hex. destruct Hex as [p [Hp E]].
        apply Z.eqb_eq in E. destruct (Hsub p Hp) as [Hpin Hpopen].
        assert (r = p) by (apply Hkey; [exact Hpin | exact Hr | now symmetry]).
        subst r. rewrite Hpopen. reflexivity.
      * destruct (Storage.is_open r) eqn:Hopen; [| reflexivity].
        assert (Hmem : In r (Valuation.get_open_positions db None None)).
        { apply (Permutation_in r (Permutation_sym Hperm)).
          apply filter_In. now split. }
        assert (Hex' : existsb (fun p => Z.eqb (Storage.id p) (Storage.id r))
                         (Valuation.get_open_positions db None None) = true).
        { apply existsb_exists. exists r. split; [exact Hmem |].
          apply Z.eqb_refl. }
        rewrite Hex' in Hex. discriminate Hex.
    + exact Hon.
    + apply (Permutation_NoDup (Permutation_sym (Permutation_map Storage.id
                                                   Hperm))).
      clear Hkey Hsub Hperm.
      induction (Storage.positions db) as [|x l IH]; [constructor |].
      cbn [map] in Hnd. apply List.NoDup_cons_iff in Hnd.
      destruct Hnd as [Hx Hnd]. cbn [List.filter].
      destruct (Storage.is_open x); [| now apply IH].
      cbn [map]. apply List.NoDup_cons_iff. split; [| now apply IH].
      intros Hin. apply Hx. apply in_map_iff in Hin.
      destruct Hin as [y [E Hy]]. apply filter_In in Hy.
      rewrite <- E. apply in_map. apply Hy.
    + intros p r Hp Hr E. apply Hkey; [apply (Hsub p Hp) | exact Hr | exact E].
Qed.

Lemma close_open_positions_closes_all_witness :
  Valuation.get_open_positions
    (BacktestEngine._close_open_positions Examples.closing_engine
       Scenario.db_two_positions) None None = []
  /\ map Storage.pnl_realized
       (Storage.positions
          (BacktestEngine._close_open_positions Examples.closing_engine
             Scenario.db_two_positions))
     = map (fun r =>
              Storage.pnl_realized
                (BacktestEngine.force_close_row Examples.closing_engine 0
                   (match Examples.marks !! Storage.symbol r with
                    | Some p => (p - Storage.entry_price r)
                                * Storage.quantity r
                    | None => 0
                    end) r))
           (Storage.positions Scenario.db_two_positions).
Proof.
  destruct (close_open_positions_closes_all Examples.closing_engine
              Scenario.db_two_positions eq_refl) as [Hnone [_ Hrows]].
  split; [exact Hnone |].
  rewrite Hrows.
  - reflexivity.
  - repeat constructor; cbn; intuition discriminate.
Defined.

(** X16: an engine that has seen no bar flags the first timestamp as a new
    trading day, and along timestamps that never go back it flags each later
    timestamp exactly when its calendar date is later than the date of the
    timestamp before it. *)
Theorem new_trading_day_at_date_changes :
  forall (self : BacktestEngine.BacktestEngine) (t : Py.datetime)
         (ts : list Py.datetime),
    BacktestEngine._last_trading_day self = None ->
    Sorted Z.le (t :: ts) ->
    BacktestEngine.new_day_flags self (t :: ts)
    = true :: map (fun pc => (BacktestEngine.date (fst pc)
                              <? BacktestEngine.date (snd pc))%Z)
                  (combine (t :: ts) ts).
Proof.
  intros self t ts Hnone Hs. cbn [BacktestEngine.new_day_flags].
  unfold BacktestEngine._is_new_trading_day. rewrite Hnone. f_equal.
  apply new_day_flags_from; [reflexivity | exact Hs].
Qed.

Lemma new_trading_day_at_date_changes_witness :
  BacktestEngine.new_day_flags Examples.fresh_engine Examples.bar_times
  = [true; false; false; true].
Proof.
  refine (eq_trans
            (new_trading_day_at_date_changes Examples.fresh_engine
               Scenario.t2023 (tl Examples.bar_times) eq_refl _) _).
  - repeat constructor; vm_compute; discriminate.
  - reflexivity.
Defined.

Section EquityTracking.
Import BacktestEngine.

Lemma update_peak (self : BacktestEngine) (rm : RiskManager.RiskManager)
    (v : Q) :
  RiskManager.peak_equity (snd (_update_portfolio_state self rm v))
  == Qmax (RiskManager.peak_equity rm) v
  /\ RiskManager.portfolio_value (snd (_update_portfolio_state self rm v)) = v.
Proof.
  unfold _update_portfolio_state. cbn [snd].
  cbn [RiskManager.set_portfolio_value RiskManager.with_state
       RiskManager.peak_equity].
  destruct (Py.gtb v (RiskManager.peak_equity rm)) eqn:E.
  - apply gtb_gt in E. split; [| reflexivity]. cbn.
    rewrite Q.max_r by lra. reflexivity.
  - apply gtb_le in E. split; [| reflexivity]. cbn.
    rewrite Q.max_l by lra. reflexivity.
Qed.

Lemma fold_max_compat (l : list Q) (a b : Q) :
  a == b -> fold_left Qmax l a == fold_left Qmax l b.
Proof.
  revert a b. induction l as [|x l IH]; intros a b H; cbn [fold_left];
    [exact H |].
  apply IH. now rewrite H.
Qed.

Lemma fold_max_ge (l : list Q) (a : Q) :
  a <= fold_left Qmax l a /\ Forall (fun v => v <= fold_left Qmax l a) l.
Proof.
  revert a. induction l as [|x l IH]; intros a; cbn [fold_left].
  - split; [lra | constructor].
  - destruct (IH (Qmax a x)) as [H1 H2].
    pose proof (Q.le_max_l a x). pose proof (Q.le_max_r a x).
    split; [lra |]. constructor; [lra | exact H2].
Qed.

End EquityTracking.

(** X17: over any sequence of portfolio values passed through
    [_update_portfolio_state], the risk manager's peak equity ends as the
    maximum of its old peak and all the values, so no value of the sequence
    exceeds it; its portfolio value ends as the last value; and the equity
    curve has grown by exactly these values, in order. *)
Theorem peak_equity_is_running_maximum :
  forall (values : list Q) (self : BacktestEngine.BacktestEngine)
         (rm : RiskManager.RiskManager),
    let final :=
      fold_left (fun st v =>
                   BacktestEngine._update_portfolio_state (fst st) (snd st) v)
        values (self, rm) in
    RiskManager.peak_equity (snd final)
      == fold_left Qmax values (RiskManager.peak_equity rm)
    /\ RiskManager.peak_equity rm <= RiskManager.peak_equity (snd final)
    /\ Forall (fun v => v <= RiskManager.peak_equity (snd final)) values
    /\ RiskManager.portfolio_value (snd final)
       = List.last values (RiskManager.portfolio_value rm)
    /\ map snd (BacktestEngine.equity_curve (fst final))
       = map snd (BacktestEngine.equity_curve self) ++ values.
Proof.
  intros values self rm final.
  assert (H : RiskManager.peak_equity (snd final)
              == fold_left Qmax values (RiskManager.peak_equity rm)
              /\ RiskManager.portfolio_value (snd final)
                 = List.last values (RiskManager.portfolio_value rm)
              /\ map snd (BacktestEngine.equity_curve (fst final))
                 = map snd (BacktestEngine.equity_curve self) ++ values).
  { subst final. revert self rm.
    induction values as [|v values IH]; intros self rm; cbn [fold_left].
    - cbn. rewrite app_nil_r. repeat split; reflexivity.
    - cbn [fst snd].
      destruct (update_peak self rm v) as [Hp Hv].
      specialize (IH (fst (BacktestEngine._update_portfolio_state self rm v))
                     (snd (BacktestEngine._update_portfolio_state self rm v))).
      rewrite <- surjective_pairing in IH.
      destruct IH as [IH1 [IH2 IH3]]. split; [| split].
      + rewrite IH1. now apply fold_max_compat.
      + rewrite IH2, Hv. destruct values as [|q values]; [reflexivity |].
        cbn [List.last]. generalize q (RiskManager.portfolio_value rm).
        clear. induction values as [|x l IHl]; intros q d; [reflexivity |].
        apply (IHl x d).
      + rewrite IH3. cbn [BacktestEngine._update_portfolio_state fst
                          BacktestEngine.equity_curve].
        rewrite map_app, <- app_assoc. reflexivity. }
  destruct H as [H1 [H2 H3]].
  destruct (fold_max_ge values (RiskManager.peak_equity rm)) as [G1 G2].
  split; [exact H1 | split; [now rewrite H1 | split; [| now split]]].
  revert G2. apply List.Forall_impl. intros v Hv. now rewrite H1.
Qed.

(** ** Event history *)

Section HistoryProperties.
Import Events EventBus EventHistory.

Variable W : Type.

Lemma publish_all_bus (events : list Event) (b : EventBus W) :
  event_queue (fold_left publish_bus events b) = event_queue b ++ events
  /\ event_history (fold_left publish_bus events b)
     = extend_history (event_history b) events.
Proof.
  revert b. induction events as [|e events IH]; intros b; cbn [fold_left].
  - rewrite app_nil_r. split; [reflexivity |].
    destruct (event_history b); cbn; now rewrite ?app_nil_r.
  - destruct (IH (publish_bus b e)) as [Hq Hh]. rewrite Hq, Hh.
    cbn [publish_bus event_queue event_history].
    split; [now rewrite <- app_assoc |].
    destruct (event_history b); cbn; now rewrite <- ?app_assoc.
Qed.

Lemma filter_filter_bool {A : Type} (f g : A -> bool) (l : list A) :
  List.filter g (List.filter f l) = List.filter (fun x => f x && g x) l.
Proof.
  induction l as [|x l IH]; [reflexivity |]. cbn [List.filter].
  destruct (f x); cbn [andb List.filter]; [destruct (g x) |]; now rewrite IH.
Qed.

End HistoryProperties.

(** X18: on a bus that keeps a history (backtest mode), after
    [clear_history] and the publication of some events, [get_history()]
    returns exactly these events in the order of publication, and with all
    three filters it returns those of them that have the given type and a
    timestamp between the two bounds, both included, in the same order; the
    events queued before the clear are still in the queue, ahead of the new
    ones, although the history no longer has them.  On a bus without
    history (live mode) [get_history] returns the empty list whatever was
    published. *)
Theorem history_after_clear :
  forall (W : Type) (b : EventBus.EventBus W) (events : list Events.Event)
         (t : Events.EventType) (t0 t1 : Py.datetime),
    let b' := fold_left EventBus.publish_bus events
                (EventHistory.clear_history b) in
    EventBus.event_queue b' = EventBus.event_queue b ++ events
    /\ (EventBus.event_history b <> None ->
        EventHistory.get_history b' None None None = events
        /\ EventHistory.get_history b' (Some t) (Some t0) (Some t1)
           = List.filter
               (fun e =>
                  Events.EventType_eqb (Events.type e) t
                  && (t0 <=? EventHistory.timestamp_of e)%Z
                  && (EventHistory.timestamp_of e <=? t1)%Z)
               events)
    /\ (EventBus.event_history b = None ->
        forall ty s e, EventHistory.get_history b' ty s e = []).
Proof.
  intros W b events t t0 t1 b'.
  destruct (publish_all_bus W events (EventHistory.clear_history b))
    as [Hq Hh].
  fold b' in Hq, Hh. cbn [EventHistory.clear_history EventBus.event_queue
                          EventBus.event_history] in Hq, Hh.
  split; [exact Hq | split].
  - intros Hsome. unfold EventHistory.get_history. rewrite Hh.
    destruct (EventBus.event_history b) as [h|]; [| contradiction].
    cbn [EventBus.extend_history app]. split; [reflexivity |].
    rewrite !filter_bool, !filter_filter_bool.
    apply List.filter_ext. intros e. now rewrite andb_assoc.
  - intros Hnone ty s e. unfold EventHistory.get_history.
    rewrite Hh, Hnone. reflexivity.
Qed.

Lemma history_after_clear_witness :
  EventHistory.get_history
    (fold_left EventBus.publish_bus Examples.two_fills
       (EventHistory.clear_history Examples.backtest_bus))
    None None None
  = Examples.two_fills
  /\ EventBus.event_queue
       (fold_left EventBus.publish_bus Examples.two_fills
          (EventHistory.clear_history Examples.backtest_bus))
     = Events.EvSignal Scenario.buy_signal :: Examples.two_fills.
Proof.
  destruct (history_after_clear unit Examples.backtest_bus Examples.two_fills
              Events.FILL 0%Z 0%Z) as [Hq [Hh _]].
  split; [apply Hh; discriminate | exact Hq].
Defined.

(** ** Risk manager: thresholds and what an approved order guarantees *)

Section RiskLimits.
Import Events RiskManager.






Lemma create_order_event_ok (env : Env) (self : RiskManager)
    (signal : SignalEvent) (order : OrderEvent) :
  _create_order_event env self signal = Py.Ok order ->
  ~ sg_price signal == 0
  /\ quantity order
     = get_default (md_quantity (metadata signal)) 0 * portfolio_value self
       / sg_price signal
  /\ order_id order = ("ORD-" ++ uuid4 env)%string
  /\ symbol order = sg_symbol signal
  /\ side order
     = (if String.eqb (signal_type signal) "BUY"
           || String.eqb (signal_type signal) "SELL"
        then signal_type signal else "SELL"%string).
Proof.
  unfold _create_order_event, Py.div.
  destruct (Py.eqb (sg_price signal) 0) eqn:Hz; [discriminate |].
  apply eqb_neq in Hz. intros H. injection H as <-. now repeat split.
Qed.


End RiskLimits.





(** X21: an order built by [_create_order_event] from a signal with a
    symbol always passes the id, symbol and side checks of the execution
    engine's [_validate_order]; it is accepted exactly when the requested
    fraction of the portfolio value divided by the price is positive and the
    engine has a bar for the symbol.  So an order for a signal that asks for
    a fraction of zero, as a CLOSE signal without size does, is refused as
    an invalid quantity. *)
Theorem risk_order_validation :
  forall (env : RiskManager.Env) (self : RiskManager.RiskManager)
         (signal : Events.SignalEvent) (order : Events.OrderEvent)
         (engine : ExecutionEngine.ExecutionEngine),
    RiskManager._create_order_event env self signal = Py.Ok order ->
    Events.sg_symbol signal <> ""%string ->
    let size :=
      RiskManager.get_default (Events.md_quantity (Events.metadata signal)) 0
      * RiskManager.portfolio_value self in
    (fst (ExecutionEngine._validate_order engine order) = true
     <-> 0 < size / Events.sg_price signal
         /\ is_Some (ExecutionEngine.current_bars engine
                       !! Events.sg_symbol signal))
    /\ (size == 0 ->
        ExecutionEngine._validate_order engine order
        = (false,
           Some (ExecutionEngine.InvalidQuantity (Events.quantity order)))).
Proof.
  intros env self signal order engine Hord Hsym size.
  destruct (create_order_event_ok env self signal order Hord)
    as (Hprice & Hqty & Hid & Hsymbol & Hside).
  fold size in Hqty.
  unfold ExecutionEngine._validate_order. rewrite Hid, Hsymbol.
  assert (Hs : Py.truthy (Events.sg_symbol signal) = true).
  { unfold Py.truthy. apply negb_true_iff, String.eqb_neq. exact Hsym. }
  rewrite Hs. cbn [Py.truthy String.eqb Ascii.eqb Bool.eqb negb append].
  assert (Hsd : negb (Py.truthy (Events.side order))
                || negb (String.eqb (Events.side order) "BUY"
                         || String.eqb (Events.side order) "SELL") = false).
  { rewrite Hside.
    destruct (String.eqb (Events.signal_type signal) "BUY") eqn:Hb.
    - apply String.eqb_eq in Hb. rewrite Hb. reflexivity.
    - destruct (String.eqb (Events.signal_type signal) "SELL") eqn:Hsl.
      + apply String.eqb_eq in Hsl. rewrite Hsl. reflexivity.
      + reflexivity. }
  rewrite Hsd. rewrite Hqty. split.
  - destruct (Py.leb (size / Events.sg_price signal) 0) eqn:Hle.
    + apply leb_le in Hle. cbn [fst]. split; [discriminate |].
      intros [Hpos _]. lra.
    + assert (Hpos : 0 < size / Events.sg_price signal).
      { apply Qnot_le_lt. intros C. apply leb_le in C.
        rewrite C in Hle. discriminate Hle. }
      destruct (ExecutionEngine.current_bars engine
                  !! Events.sg_symbol signal) as [bar|]; cbn [fst].
      * split; [intros _; split; [exact Hpos | now exists bar] | reflexivity].
      * split; [discriminate | intros [_ [bar Hbar]]; discriminate Hbar].
  - intros Hzero.
    assert (Hle : Py.leb (size / Events.sg_price signal) 0 = true).
    { apply leb_le. rewrite Hzero. unfold Qdiv. rewrite Qmult_0_l. lra. }
    now rewrite Hle.
Qed.

Lemma risk_order_validation_witness :
  exists order,
    RiskManager._create_order_event Scenario.env0
      (RiskManager.rm Scenario.fresh_world) Scenario.close_signal
    = Py.Ok order
    /\ ExecutionEngine._validate_order Scenario.btc_engine order
       = (false,
          Some (ExecutionEngine.InvalidQuantity (Events.quantity order))).
Proof.
  eexists. split; [reflexivity |].
  apply (proj2 (risk_order_validation Scenario.env0
                  (RiskManager.rm Scenario.fresh_world) Scenario.close_signal
                  _ Scenario.btc_engine eq_refl ltac:(discriminate))).
  reflexivity.
Defined.


(** ** Performance calculator: trade statistics *)

Section TradeStatistics.
Import PerformanceCalculator.

Lemma sum_from (l : list Q) (a : Q) :
  fold_left Qplus l a == a + Py.sum l.
Proof.
  unfold Py.sum. revert a. induction l as [|x l IH]; intros a; cbn [fold_left].
  - ring.
  - rewrite (IH (a + x)), (IH (0 + x)). ring.
Qed.

Lemma sum_cons (x : Q) (l : list Q) : Py.sum (x :: l) == x + Py.sum l.
Proof. unfold Py.sum at 1. cbn [fold_left]. rewrite sum_from. ring. Qed.

Lemma sum_positive (l : list Q) :
  Forall (fun x => 0 < x) l -> 0 <= Py.sum l /\ (l <> [] -> 0 < Py.sum l).
Proof.
  induction 1 as [|x l Hx Hl [IH1 IH2]].
  - split; [unfold Py.sum; cbn; lra | congruence].
  - rewrite sum_cons. split; [lra | intros _; lra].
Qed.

Lemma sum_negative (l : list Q) :
  Forall (fun x => x < 0) l -> Py.sum l <= 0 /\ (l <> [] -> Py.sum l < 0).
Proof.
  induction 1 as [|x l Hx Hl [IH1 IH2]].
  - split; [unfold Py.sum; cbn; lra | congruence].
  - rewrite sum_cons. split; [lra | intros _; lra].
Qed.

Lemma winners_positive (l : list Q) :
  Forall (fun x => 0 < x) (List.filter (fun p => Py.gtb p 0) l).
Proof.
  apply Stdlib.Lists.List.Forall_forall. intros x Hx.
  apply filter_In in Hx. now apply gtb_gt.
Qed.

Lemma losers_negative (l : list Q) :
  Forall (fun x => x < 0) (List.filter (fun p => Py.ltb p 0) l).
Proof.
  apply Stdlib.Lists.List.Forall_forall. intros x Hx.
  apply filter_In in Hx. now apply ltb_lt.
Qed.

Lemma winners_losers_count (l : list Q) :
  (length (List.filter (fun p => Py.gtb p 0) l)
   + length (List.filter (fun p => Py.ltb p 0) l) <= length l)%nat.
Proof.
  induction l as [|x l IH]; [reflexivity |]. cbn [List.filter length].
  destruct (Py.gtb x 0) eqn:Hg; destruct (Py.ltb x 0) eqn:Hl;
    cbn [length]; try lia.
  apply gtb_gt in Hg. apply ltb_lt in Hl. lra.
Qed.


Lemma fold_max_bound (l : list Q) (a b : Q) :
  b <= a -> b <= fold_left Qmax l a.
Proof.
  revert a. induction l as [|x l IH]; intros a H; cbn [fold_left];
    [exact H |].
  apply IH. pose proof (Q.le_max_l a x). lra.
Qed.

Lemma fold_min_bound (l : list Q) (a b : Q) :
  a <= b -> fold_left Qmin l a <= b.
Proof.
  revert a. induction l as [|x l IH]; intros a H; cbn [fold_left];
    [exact H |].
  apply IH. pose proof (Q.le_min_l a x). lra.
Qed.

Lemma count_positive (n : nat) : (0 < n)%nat -> 0 < inject_Z (Z.of_nat n).
Proof.
  intros H. change 0 with (inject_Z 0). rewrite <- Zlt_Qlt. lia.
Qed.


End TradeStatistics.

(** X23: in the trade statistics, the number of trades is the number of
    CLOSED trades, winners and losers together are at most that many, the
    win rate lies between 0 and 1, the average and the largest win are not
    negative, the average and the largest loss are not positive, and the
    profit factor is infinite exactly when there is a closed trade and no
    losing one. *)
Theorem trade_statistics_bounds :
  forall self : PerformanceCalculator.PerformanceCalculator,
    let m := PerformanceCalculator._calculate_trade_stats self in
    PerformanceCalculator.total_trades m
    = length (List.filter PerformanceCalculator.is_closed
                (PerformanceCalculator.trades self))
    /\ (PerformanceCalculator.winning_trades m
        + PerformanceCalculator.losing_trades m
        <= PerformanceCalculator.total_trades m)%nat
    /\ 0 <= PerformanceCalculator.win_rate m
    /\ PerformanceCalculator.win_rate m <= 1
    /\ 0 <= PerformanceCalculator.avg_win m
    /\ 0 <= PerformanceCalculator.max_win m
    /\ PerformanceCalculator.avg_loss m <= 0
    /\ PerformanceCalculator.max_loss m <= 0
    /\ (PerformanceCalculator.profit_factor m = PerformanceCalculator.Infinity
        <-> (0 < PerformanceCalculator.total_trades m)%nat
            /\ PerformanceCalculator.losing_trades m = O).
Proof.
  intros self m. subst m. unfold PerformanceCalculator._calculate_trade_stats.
  rewrite !filter_bool.
  destruct (List.filter PerformanceCalculator.is_closed
              (PerformanceCalculator.trades self)) as [|t closed] eqn:Hclosed.
  { cbn. repeat split; try lra; try lia; try discriminate;
      intros [H _]; lia. }
  set (pnls := map _ (t :: closed)).
  pose proof (winners_positive pnls) as Hw.
  pose proof (losers_negative pnls) as Hl.
  pose proof (winners_losers_count pnls) as Hcount.
  set (winners := List.filter (fun p => Py.gtb p 0) pnls) in *.
  set (losers := List.filter (fun p => Py.ltb p 0) pnls) in *.
  assert (Hlen : length pnls = length (t :: closed))
    by (subst pnls; apply length_map).
  rewrite Hlen in Hcount.
  cbn [PerformanceCalculator.total_trades PerformanceCalculator.winning_trades
       PerformanceCalculator.losing_trades PerformanceCalculator.win_rate
       PerformanceCalculator.avg_win PerformanceCalculator.max_win
       PerformanceCalculator.avg_loss PerformanceCalculator.max_loss
       PerformanceCalculator.profit_factor].
  assert (Hn : 0 < inject_Z (Z.of_nat (length (t :: closed))))
    by (apply count_positive; cbn; lia).
  assert (Hwn : 0 <= inject_Z (Z.of_nat (length winners))).
  { change 0 with (inject_Z 0). rewrite <- Zle_Qle. lia. }
  assert (Hwle : inject_Z (Z.of_nat (length winners))
                 <= inject_Z (Z.of_nat (length (t :: closed)))).
  { rewrite <- Zle_Qle. lia. }
  change (0 <? length (t :: closed))%nat with true. cbv iota.
  split; [reflexivity | split; [exact Hcount |]].
  split; [| split; [| split; [| split; [| split; [| split]]]]].
  - apply Qle_shift_div_l; [exact Hn | lra].
  - apply Qle_shift_div_r; [exact Hn | lra].
  - destruct winners as [|x ws] eqn:Ew; [lra |].
    unfold PerformanceCalculator.mean.
    apply Qle_shift_div_l; [apply count_positive; cbn; lia |].
    destruct (sum_positive _ Hw) as [H _]. lra.
  - destruct winners as [|x ws] eqn:Ew; [lra |].
    cbn [PerformanceCalculator.series_max]. apply fold_max_bound.
    inversion Hw; subst. lra.
  - destruct losers as [|x ls] eqn:El; [lra |].
    unfold PerformanceCalculator.mean.
    apply Qle_shift_div_r; [apply count_positive; cbn; lia |].
    destruct (sum_negative _ Hl) as [H _]. lra.
  - destruct losers as [|x ls] eqn:El; [lra |].
    cbn [PerformanceCalculator.series_min]. apply fold_min_bound.
    inversion Hl; subst. lra.
  - destruct (Py.gtb (Qabs (Py.sum losers)) 0) eqn:Hpf.
    + split; [discriminate |]. intros [_ Hzero].
      apply gtb_gt in Hpf. destruct losers; [| discriminate Hzero].
      vm_compute in Hpf. discriminate Hpf.
    + split; [| reflexivity]. intros _. split; [cbn; lia |].
      apply gtb_le in Hpf. destruct losers as [|x ls] eqn:El; [reflexivity |].
      destruct (sum_negative _ Hl) as [_ Hneg].
      assert (Hs : Py.sum (x :: ls) < 0) by (apply Hneg; discriminate).
      rewrite Qabs_neg in Hpf by lra. lra.
Qed.


(** ** Performance calculator: drawdown *)

Section DrawdownBounds.
Import PerformanceCalculator.

Lemma zip_zip (l r : list Q) :
  zip_with Qdiv (zip_with Qminus l r) r
  = zip_with (fun x m => (x - m) / m) l r.
Proof.
  revert r. induction l as [|x l IH]; intros [|m r]; cbn [zip_with];
    try reflexivity.
  now rewrite IH.
Qed.

(** Along positive values, every value is related to its running maximum. *)
Lemma zip_running (P : Q -> Prop) (f : Q -> Q -> Q) :
  (forall x m, 0 < x -> x <= m -> P (f x m)) ->
  forall (l : list Q) (m : Q),
    Forall (fun x => 0 < x) l ->
    Forall P (zip_with f l (expanding_max_from m l)).
Proof.
  intros Hf. induction l as [|x l IH]; intros m Hl; cbn [expanding_max_from
    zip_with]; [constructor |].
  inversion Hl; subst. constructor.
  - apply Hf; [assumption | apply Q.le_max_r].
  - now apply IH.
Qed.

(** Along values that never fall, every value is its running maximum. *)
Lemma zip_rising (P : Q -> Prop) (f : Q -> Q -> Q) :
  (forall x m, x == m -> P (f x m)) ->
  forall (l : list Q) (m : Q),
    Forall (fun x => m <= x) l ->
    StronglySorted Qle l ->
    Forall P (zip_with f l (expanding_max_from m l)).
Proof.
  intros Hf. induction l as [|x l IH]; intros m Hm Hs; cbn [expanding_max_from
    zip_with]; [constructor |].
  inversion Hm; subst. inversion Hs; subst.
  assert (E : Qmax m x == x) by (apply Q.max_r; assumption).
  constructor.
  - apply Hf. now rewrite E.
  - apply IH; [| assumption].
    match goal with H : Forall (Qle x) l |- _ =>
      revert H; apply List.Forall_impl; intros y Hy; now rewrite E end.
Qed.

Lemma fold_min_range (lo hi : Q) (l : list Q) (a : Q) :
  lo < a -> a <= hi -> Forall (fun x => lo < x /\ x <= hi) l ->
  lo < fold_left Qmin l a /\ fold_left Qmin l a <= hi.
Proof.
  revert a. induction l as [|x l IH]; intros a Hlo Hhi Hl; cbn [fold_left];
    [now split |].
  inversion Hl as [|? ? [Hx1 Hx2] Hl']; subst.
  apply IH; [| | assumption].
  - destruct (Q.min_spec a x) as [[_ ->]|[_ ->]]; assumption.
  - pose proof (Q.le_min_l a x). lra.
Qed.

Lemma fold_min_zero (l : list Q) (a : Q) :
  a == 0 -> Forall (fun x => x == 0) l -> fold_left Qmin l a == 0.
Proof.
  revert a. induction l as [|x l IH]; intros a Ha Hl; cbn [fold_left];
    [exact Ha |].
  inversion Hl; subst. apply IH; [| assumption].
  destruct (Q.min_spec a x) as [[_ ->]|[_ ->]]; assumption.
Qed.

End DrawdownBounds.

(** X25: for an equity curve with at least one point and positive values,
    [_calculate_max_drawdown] returns, when the timestamps are strictly
    increasing, a percentage between -1 and 0 and a dollar amount that is
    not positive; and when the values never fall it returns (0, 0, 0). *)
Theorem max_drawdown_bounds :
  forall equity_series : PerformanceCalculator.Series,
    equity_series <> [] ->
    Forall (fun point => 0 < snd point) equity_series ->
    (Sorted Z.lt (map fst equity_series) ->
     let result :=
       PerformanceCalculator._calculate_max_drawdown equity_series in
     - (1) <= fst (fst result)
     /\ fst (fst result) <= 0
     /\ snd (fst result) <= 0)
    /\ (Sorted Qle (map snd equity_series) ->
        PerformanceCalculator._calculate_max_drawdown equity_series
        = (0, 0, 0%Z)).
Proof.
  intros equity_series Hne Hpos. split.
  - intros _ result. subst result.
    unfold PerformanceCalculator._calculate_max_drawdown.
    assert (Hvals : Forall (fun x => 0 < x) (map snd equity_series)).
    { clear Hne. induction Hpos; cbn [map]; constructor; assumption. }
    destruct equity_series as [|[t0 x] rest]; [now contradiction Hne |].
    cbn [map] in *. inversion Hvals as [|? ? Hx Hrest]; subst.
    set (equity := map snd rest) in *.
    cbn [PerformanceCalculator.expanding_max].
    rewrite zip_zip. cbn [PerformanceCalculator.zip_with].
    cbn [PerformanceCalculator.series_min].
    pose proof (zip_running (fun p => - (1) < p /\ p <= 0)
                  (fun v m => (v - m) / m)) as Hpct.
    assert (Hmin_pct :
              - (1) < fold_left Qmin
                        (PerformanceCalculator.zip_with
                           (fun v m => (v - m) / m) equity
                           (PerformanceCalculator.expanding_max_from x equity))
                        ((x - x) / x)
              /\ fold_left Qmin
                   (PerformanceCalculator.zip_with
                      (fun v m => (v - m) / m) equity
                      (PerformanceCalculator.expanding_max_from x equity))
                   ((x - x) / x) <= 0).
    { assert (E : (x - x) / x == 0) by (field; lra).
      apply fold_min_range; [rewrite E; lra | rewrite E; lra |].
      apply Hpct; [| exact Hrest].
      intros v m Hv Hvm. split.
      - apply Qlt_shift_div_l; lra.
      - apply Qle_shift_div_r; lra. }
    assert (Hmin_dd :
              fold_left Qmin
                (PerformanceCalculator.zip_with Qminus equity
                   (PerformanceCalculator.expanding_max_from x equity))
                (x - x) <= 0).
    { apply fold_min_bound. lra. }
    destruct (Py.eqb _ 0); cbn [fst snd]; [repeat split; lra |].
    destruct Hmin_pct as [H1 H2]. repeat split; try assumption.
    now apply Qlt_le_weak.
  - intros Hsorted.
    apply (Sorted_StronglySorted Qle_trans) in Hsorted.
    unfold PerformanceCalculator._calculate_max_drawdown.
    destruct equity_series as [|[t0 x] rest]; [reflexivity |].
    cbn [map snd] in *. inversion Hsorted as [|? ? Hs Hall]; subst.
    set (equity := map snd rest) in *.
    cbn [PerformanceCalculator.expanding_max].
    rewrite zip_zip. cbn [PerformanceCalculator.zip_with].
    cbn [PerformanceCalculator.series_min].
    assert (Hzero :
              fold_left Qmin
                (PerformanceCalculator.zip_with
                   (fun v m => (v - m) / m) equity
                   (PerformanceCalculator.expanding_max_from x equity))
                ((x - x) / x) == 0).
    { apply fold_min_zero.
      - unfold Qdiv. assert (E : x - x == 0) by ring. rewrite E. ring.
      - apply (zip_rising (fun p => p == 0)); [| exact Hall | exact Hs].
        intros v m Hvm. unfold Qdiv.
        assert (E : v - m == 0) by (rewrite Hvm; ring). rewrite E. ring. }
    apply eqb_eq in Hzero. now rewrite Hzero.
Qed.

Lemma max_drawdown_bounds_witness :
  PerformanceCalculator._calculate_max_drawdown Examples.rising_curve
  = (0, 0, 0%Z)
  /\ - (1) <= fst (fst (PerformanceCalculator._calculate_max_drawdown
                          (Scenario.drawdown_curve Scenario.t2023))).
Proof.
  split.
  - apply (proj2 (max_drawdown_bounds Examples.rising_curve
                    ltac:(discriminate)
                    ltac:(repeat constructor; reflexivity))).
    repeat constructor; vm_compute; discriminate.
  - apply (proj1 (max_drawdown_bounds
                    (Scenario.drawdown_curve Scenario.t2023)
                    ltac:(discriminate)
                    ltac:(repeat constructor; reflexivity))).
    repeat constructor; reflexivity.
Defined.
